(** * Brolostack WebSocket showcase server: the multi-agent coordination core

    A shallow embedding of
    [examples/websocket-showcase/server/python/fastapi_server.py]:
    the Socket.IO event handlers ([connect], [disconnect], [join_session],
    [register_agent], [start_task], [agent_progress],
    [collaboration_request]), the matcher [find_suitable_agents], and the
    REST endpoints that read or write the same state ([broadcast_message],
    [health_check], [get_websocket_stats] and the demonstration endpoint
    [simulate_agent_activity] with its background task
    [simulate_task_execution]).

    Modelling conventions.
    - A Python [dict] is an association list in insertion order
      (module [Dict]): assignment to a present key replaces the value in
      place, assignment to a new key appends, [del] removes the key.
    - Event payloads are the free-form dicts of the source read through
      [.get]; a field is an [option], [None] standing for a missing key.
      Fields carry the types of the event table of the specification
      (identifiers and tags are strings, task counts are integers).
    - The module-level globals [active_sessions], [registered_agents],
      [server_stats], the transport's room table and the stream of emitted
      events make up a [World]; a handler is a computation in the state
      monad [M] over it.  Each handler runs to completion before the next
      one starts (the cooperative event loop of the source); the
      background task of the demonstration endpoint is cut at its sleeps.
    - [datetime.now().timestamp()] reads a clock: the n-th reading made by
      the server is [clock n], kept as the rational the reading denotes.
    - The numbers the server derives by arithmetic (the rates of
      [health_check], the running average of [simulate_task_execution])
      are Python numbers: an [int] is a [Z], a [float] is an IEEE 754
      binary64 value ([spec_float] of the Standard Library), and the
      operations round and raise as Python's do.
    - A handler that raises ends there: what it wrote before stays, and
      its result is [Raised] with the exception.
    - [logger] calls have no effect on the modelled state and are left
      out, and so are the fields of a REST reply that are constants. *)

From Stdlib Require Import List String Ascii ZArith QArith Bool Lia.
From Stdlib Require Import DecimalString SpecFloat.
Import ListNotations.

Local Open Scope string_scope.
Local Open Scope list_scope.
Local Open Scope Z_scope.

(** ** Keys with decidable equality (hashable Python keys) *)

Class EqDec (K : Type) := eq_dec : forall a b : K, {a = b} + {a <> b}.

#[export] Instance string_EqDec : EqDec string := string_dec.

#[export] Instance option_EqDec {K} `{EqDec K} : EqDec (option K).
Proof.
  intros [a|] [b|]; try (right; discriminate); try (left; reflexivity).
  destruct (eq_dec a b) as [->|n]; [left; reflexivity | right; congruence].
Defined.

(** ** Insertion-ordered dictionaries *)

Module Dict.
Section Ops.
Context {K V : Type} `{EqDec K}.

Definition t := list (K * V).

(** [d.get(k)] *)
Fixpoint get (k : K) (d : list (K * V)) : option V :=
  match d with
  | [] => None
  | (k', v) :: r => if eq_dec k k' then Some v else get k r
  end.

(** [k in d] *)
Definition mem (k : K) (d : list (K * V)) : bool :=
  match get k d with Some _ => true | None => false end.

(** [d[k] = v]: an existing key keeps its position, a new one goes last. *)
Fixpoint set (k : K) (v : V) (d : list (K * V)) : list (K * V) :=
  match d with
  | [] => [(k, v)]
  | (k', v') :: r =>
      if eq_dec k k' then (k, v) :: r else (k', v') :: set k v r
  end.

(** [del d[k]] *)
Definition del (k : K) (d : list (K * V)) : list (K * V) :=
  filter (fun kv => if eq_dec k (fst kv) then false else true) d.

(** [d[k]] mutated in place by [f].  The source raises [KeyError] on a
    missing key; every use below is guarded by a membership test, and the
    model leaves the dict as it is there. *)
Fixpoint alter (f : V -> V) (k : K) (d : list (K * V)) : list (K * V) :=
  match d with
  | [] => []
  | (k', v) :: r =>
      if eq_dec k k' then (k', f v) :: r else (k', v) :: alter f k r
  end.

Definition keys (d : list (K * V)) : list K := map fst d.
Definition values (d : list (K * V)) : list V := map snd d.

(** Keys are unique in a dict. *)
Definition wf (d : list (K * V)) : Prop := NoDup (keys d).
End Ops.
End Dict.

(** ** Truthiness of the values the handlers test *)

Definition truthy (s : string) : bool := negb (s =? "")%string.

Definition truthy_opt (o : option string) : bool :=
  match o with Some s => truthy s | None => false end.

Definition str_in (s : string) (l : list string) : bool :=
  existsb (String.eqb s) l.

(** [d.get(key) == 'literal'] *)
Definition is_str (o : option string) (literal : string) : bool :=
  match o with Some s => (s =? literal)%string | None => false end.

(** ** Python numbers and exceptions *)

Inductive Exception := ZeroDivisionError | OverflowError | TypeError.

(** How a call ends. *)
Inductive Result (A : Type) :=
| Returned (a : A)
| Raised (e : Exception).

Arguments Returned {A} a.
Arguments Raised {A} e.

(** Evaluation goes on with the value of [r], or stops at its exception. *)
Definition and_then {A B} (r : Result A) (k : A -> Result B) : Result B :=
  match r with
  | Returned a => k a
  | Raised e => Raised e
  end.

(** A Python [float]: binary64. *)
Definition float : Type := spec_float.
Definition prec : Z := 53.
Definition emax : Z := 1024.

Definition fadd : float -> float -> float := SFadd prec emax.
Definition fmul : float -> float -> float := SFmul prec emax.
Definition fdiv : float -> float -> float := SFdiv prec emax.

(** [f == 0.0], which holds of both zeros. *)
Definition is_zero (f : float) : bool :=
  match f with
  | S754_zero _ => true
  | _ => false
  end.

(** A rounding that leaves the range of the finite floats raises
    [OverflowError] where Python converts or divides ints. *)
Definition finite_or_overflow (f : float) : Result float :=
  match f with
  | S754_infinity _ => Raised OverflowError
  | _ => Returned f
  end.

(** [float(z)] for an int, as the arithmetic operators convert an int
    operand: the nearest float. *)
Definition float_of_int (z : Z) : Result float :=
  finite_or_overflow (binary_normalize prec emax z 0 false).

(** [a / b] on two ints: the float nearest to the quotient. *)
Definition int_true_div (a b : Z) : Result float :=
  if b =? 0 then Raised ZeroDivisionError
  else if a =? 0 then Returned (S754_zero (b <? 0))
  else
    let '(q, e, l) := SFdiv_core_binary prec emax (Z.abs a) 0 (Z.abs b) 0 in
    finite_or_overflow
      (binary_round_aux prec emax (xorb (a <? 0) (b <? 0)) q e l).

(** The float nearest to a rational: what a float operation returns when
    the exact result of its operands is [q] (an infinity beyond the
    range). *)
Definition nearest_float (q : Q) : float :=
  match Qnum q with
  | 0 => S754_zero false
  | n =>
      let '(m, e, l) :=
        SFdiv_core_binary prec emax (Z.abs n) 0 (Zpos (Qden q)) 0 in
      binary_round_aux prec emax (n <? 0) m e l
  end.

(** A value that is an [int] or a [float] at run time. *)
Inductive number :=
| PyInt (z : Z)
| PyFloat (f : float).

Coercion PyInt : Z >-> number.

Definition to_float (n : number) : Result float :=
  match n with
  | PyInt z => float_of_int z
  | PyFloat f => Returned f
  end.

(** [a + b] *)
Definition num_add (a b : number) : Result number :=
  match a, b with
  | PyInt x, PyInt y => Returned (PyInt (x + y))
  | _, _ =>
      and_then (to_float a) (fun x =>
      and_then (to_float b) (fun y =>
      Returned (PyFloat (fadd x y))))
  end.

(** [a * b] *)
Definition num_mul (a b : number) : Result number :=
  match a, b with
  | PyInt x, PyInt y => Returned (PyInt (x * y))
  | _, _ =>
      and_then (to_float a) (fun x =>
      and_then (to_float b) (fun y =>
      Returned (PyFloat (fmul x y))))
  end.

(** [a / b] *)
Definition num_div (a b : number) : Result number :=
  match a, b with
  | PyInt x, PyInt y =>
      and_then (int_true_div x y) (fun f => Returned (PyFloat f))
  | _, _ =>
      and_then (to_float a) (fun x =>
      and_then (to_float b) (fun y =>
      if is_zero y then Raised ZeroDivisionError
      else Returned (PyFloat (fdiv x y))))
  end.

(** The order of a float and an int, which Python decides exactly. *)
Definition float_compare_int (f : float) (z : Z) : option comparison :=
  match f with
  | S754_nan => None
  | S754_infinity s => Some (if s then Lt else Gt)
  | S754_zero _ => Some (0 ?= z)
  | S754_finite s m e =>
      let v := if s then Zneg m else Zpos m in
      Some (if 0 <=? e then (v * 2 ^ e ?= z) else (v ?= z * 2 ^ (- e)))
  end.

(** [a < b] *)
Definition num_lt (a b : number) : bool :=
  match a, b with
  | PyInt x, PyInt y => x <? y
  | PyFloat x, PyFloat y => SFltb x y
  | PyFloat x, PyInt y =>
      match float_compare_int x y with Some Lt => true | _ => false end
  | PyInt x, PyFloat y =>
      match float_compare_int y x with Some Gt => true | _ => false end
  end.

(** [max(a, b)]: [b] when [b > a], else [a]. *)
Definition py_max (a b : number) : number :=
  if num_lt a b then b else a.

(** ** Data model *)

(** [agent['metadata']] *)
Record Metadata := mkMetadata {
  currentTasks : option Z;
  maxConcurrentTasks : option Z
}.

(** The [register-agent] payload. *)
Record AgentInfo := mkAgentInfo {
  ai_id : option string;
  ai_type : option string;
  ai_capabilities : option (list string);
  ai_status : option string;
  ai_metadata : option Metadata
}.

(** An agent record as stored: the payload stamped by [register_agent]. *)
Record Agent := mkAgent {
  agent_id : string;
  agent_type : option string;
  agent_capabilities : option (list string);
  agent_status : option string;
  agent_metadata : option Metadata;
  socket_id : string;
  registered_at : Q;
  agent_environment : string
}.

(** [task_definition['requirements']] *)
Record Requirements := mkRequirements {
  req_capabilities : option (list string);
  req_agentTypes : option (list string)
}.

(** The [start-task] payload. *)
Record TaskDefinition := mkTaskDefinition {
  td_id : option string;
  td_sessionId : option string;
  td_requirements : option Requirements;
  td_collaborationMode : option string
}.

(** The [agent-progress] payload; [pd_fields] holds its free-form rest. *)
Record ProgressData := mkProgressData {
  pd_sessionId : option string;
  pd_taskId : option string;
  pd_status : option string;
  pd_fields : list (string * string)
}.

(** A task as stored in a session. *)
Record Task := mkTask {
  task_definition : TaskDefinition;
  startTime : Q;
  task_status : string;
  task_environment : string;
  lastProgress : option ProgressData;
  lastUpdate : option Q
}.

(** The [collaboration-request] payload. *)
Record RequestData := mkRequestData {
  rd_sessionId : option string;
  rd_requestId : option string;
  rd_targetAgent : option string;
  rd_fields : list (string * string)
}.

(** A collaboration request as stored in a session. *)
Record CollaborationRequest := mkCollaborationRequest {
  cr_data : RequestData;
  cr_timestamp : Q;
  cr_status : string
}.

Record Metrics := mkMetrics {
  totalTasks : Z;
  completedTasks : Z;
  errorCount : Z;
  avgExecutionTime : number
}.

Record Session := mkSession {
  sessionId : string;
  createdAt : Q;
  lastActivity : Q;
  session_status : string;
  agents : list (string * Agent);
  tasks : list (string * Task);
  activeStreams : list (string * unit);
  collaborationRequests : list (option string * CollaborationRequest);
  metrics : Metrics
}.

Record ServerStats := mkServerStats {
  start_time : Q;
  connections : Z;
  messages_processed : Z;
  tasks_completed : Z;
  errors : Z
}.

(** Where an emitted event goes: [room=...], or every connection. *)
Inductive Target :=
| Room (room : string)
| Everyone.

(** Outbound events, one constructor per event name. *)
Inductive Event :=
| EvError (message : string)
| EvAuthError (message : string)
| EvArgsWelcome (env : string) (timestamp : Q)
| EvAgentUnregistered (session agent reason : string) (timestamp : Q)
| EvSessionState (snapshot : Session)
| EvAgentRegistered (session : string) (agent : Agent) (timestamp : Q)
| EvTaskError (taskId error : string) (requirements : Requirements)
    (availableAgents : nat) (timestamp : Q)
| EvTaskAssigned (taskId agentId mode : string)
    (taskDefinition : TaskDefinition) (timestamp : Q)
| EvTaskProgress (session : string) (progress : ProgressData)
    (env : string) (serverTimestamp timestamp : Q)
| EvCollaborationRequest (request : RequestData) (timestamp : Q)
| EvCollaborationError (requestId : option string) (error : string)
    (timestamp : Q)
| EvBroadcast (event : string) (data : list (string * string))
    (env : string) (timestamp : Q)
| EvSimulatedProgress (session agentId taskId step status : string)
    (progress : Z) (message : string) (progress_timestamp : Q)
    (estimatedTimeRemaining executionTime memoryUsage cpuUsage errorCount : Z)
    (timestamp : Q)
| EvTaskCompleted (taskId agentId status output : string)
    (executionTime processed_items : Z) (accuracy confidence : Q)
    (timestamp : Q).

Record World := mkWorld {
  active_sessions : list (string * Session);
  registered_agents : list (string * Agent);
  server_stats : ServerStats;
  rooms : list (string * list string);
  outbox : list (Event * Target);
  ticks : nat
}.

(** ** Field updates *)

Definition with_active_sessions (f : list (string * Session) -> list (string * Session))
  (w : World) : World :=
  mkWorld (f (active_sessions w)) (registered_agents w) (server_stats w)
          (rooms w) (outbox w) (ticks w).

Definition with_registered_agents (f : list (string * Agent) -> list (string * Agent))
  (w : World) : World :=
  mkWorld (active_sessions w) (f (registered_agents w)) (server_stats w)
          (rooms w) (outbox w) (ticks w).

Definition with_server_stats (f : ServerStats -> ServerStats) (w : World) : World :=
  mkWorld (active_sessions w) (registered_agents w) (f (server_stats w))
          (rooms w) (outbox w) (ticks w).

Definition with_rooms (f : list (string * list string) -> list (string * list string))
  (w : World) : World :=
  mkWorld (active_sessions w) (registered_agents w) (server_stats w)
          (f (rooms w)) (outbox w) (ticks w).

Definition with_outbox (f : list (Event * Target) -> list (Event * Target))
  (w : World) : World :=
  mkWorld (active_sessions w) (registered_agents w) (server_stats w)
          (rooms w) (f (outbox w)) (ticks w).

Definition with_ticks (f : nat -> nat) (w : World) : World :=
  mkWorld (active_sessions w) (registered_agents w) (server_stats w)
          (rooms w) (outbox w) (f (ticks w)).

Definition set_lastActivity (t : Q) (s : Session) : Session :=
  mkSession (sessionId s) (createdAt s) t (session_status s) (agents s)
            (tasks s) (activeStreams s) (collaborationRequests s) (metrics s).

Definition with_agents (f : list (string * Agent) -> list (string * Agent))
  (s : Session) : Session :=
  mkSession (sessionId s) (createdAt s) (lastActivity s) (session_status s)
            (f (agents s)) (tasks s) (activeStreams s)
            (collaborationRequests s) (metrics s).

Definition with_tasks (f : list (string * Task) -> list (string * Task))
  (s : Session) : Session :=
  mkSession (sessionId s) (createdAt s) (lastActivity s) (session_status s)
            (agents s) (f (tasks s)) (activeStreams s)
            (collaborationRequests s) (metrics s).

Definition with_collaborationRequests
  (f : list (option string * CollaborationRequest) ->
       list (option string * CollaborationRequest))
  (s : Session) : Session :=
  mkSession (sessionId s) (createdAt s) (lastActivity s) (session_status s)
            (agents s) (tasks s) (activeStreams s)
            (f (collaborationRequests s)) (metrics s).

Definition with_metrics (f : Metrics -> Metrics) (s : Session) : Session :=
  mkSession (sessionId s) (createdAt s) (lastActivity s) (session_status s)
            (agents s) (tasks s) (activeStreams s)
            (collaborationRequests s) (f (metrics s)).

Definition incr_totalTasks (m : Metrics) : Metrics :=
  mkMetrics (totalTasks m + 1) (completedTasks m) (errorCount m)
            (avgExecutionTime m).

Definition incr_completedTasks (m : Metrics) : Metrics :=
  mkMetrics (totalTasks m) (completedTasks m + 1) (errorCount m)
            (avgExecutionTime m).

Definition set_avgExecutionTime (avg : number) (m : Metrics) : Metrics :=
  mkMetrics (totalTasks m) (completedTasks m) (errorCount m) avg.

Definition set_connections (n : Z) (st : ServerStats) : ServerStats :=
  mkServerStats (start_time st) n (messages_processed st)
                (tasks_completed st) (errors st).

Definition incr_messages_processed (st : ServerStats) : ServerStats :=
  mkServerStats (start_time st) (connections st) (messages_processed st + 1)
                (tasks_completed st) (errors st).

Definition incr_tasks_completed (st : ServerStats) : ServerStats :=
  mkServerStats (start_time st) (connections st) (messages_processed st)
                (tasks_completed st + 1) (errors st).

Definition incr_errors (st : ServerStats) : ServerStats :=
  mkServerStats (start_time st) (connections st) (messages_processed st)
                (tasks_completed st) (errors st + 1).

(** [task.update({'lastProgress': ..., 'lastUpdate': ...})] *)
Definition update_progress (p : ProgressData) (t : Q) (k : Task) : Task :=
  mkTask (task_definition k) (startTime k) (task_status k)
         (task_environment k) (Some p) (Some t).

(** ** The handler monad *)

Definition M (A : Type) : Type := World -> A * World.

Definition ret {A} (a : A) : M A := fun w => (a, w).

Definition bind {A B} (m : M A) (k : A -> M B) : M B :=
  fun w => let (a, w') := m w in k a w'.

Declare Scope handler_scope.
Delimit Scope handler_scope with handler.
Notation "x <- m ;; k" := (bind m (fun x => k))
  (at level 61, m at next level, right associativity) : handler_scope.
Notation "m ;; k" := (bind m (fun _ => k))
  (at level 61, right associativity) : handler_scope.
Local Open Scope handler_scope.

Definition get_world : M World := fun w => (w, w).

Definition modify (f : World -> World) : M unit := fun w => (tt, f w).

(** [await sio.emit(event, payload, room=...)] *)
Definition emit (e : Event) (to : Target) : M unit :=
  modify (with_outbox (fun o => o ++ [(e, to)])).

(** [for x in l: body(x)] *)
Fixpoint for_each {A} (l : list A) (body : A -> M unit) : M unit :=
  match l with
  | [] => ret tt
  | x :: r => body x ;; for_each r body
  end.

(** A loop that rebuilds the collection it walks: [for k, v in d.items()]
    with [v] mutated in place. *)
Fixpoint for_items {A} (l : list A) (body : A -> M A) : M (list A) :=
  match l with
  | [] => ret []
  | x :: r => y <- body x ;; r' <- for_items r body ;; ret (y :: r')
  end.

Definition exec {A} (m : M A) (w : World) : World := snd (m w).

(** The events a handler run added to the outbox. *)
Definition emitted {A} (m : M A) (w : World) : list (Event * Target) :=
  skipn (List.length (outbox w)) (outbox (exec m w)).

(** ** The server *)

(** What a deployment fixes: [environment], read once from the process
    environment ([os.getenv('ENVIRONMENT', 'development')]), and the wall
    clock, in seconds: [clock n] is the value of the n-th reading. *)
Class Deployment := {
  environment : string;
  clock : nat -> Q
}.

Section Server.

Context {deployment : Deployment}.

(** [datetime.now().timestamp()] *)
Definition timestamp : M Q := fun w => (clock (ticks w), with_ticks S w).

(** [datetime.now().timestamp() * 1000] *)
Definition now : M Q := t <- timestamp ;; ret (t * 1000)%Q.

(** [o.get(key, default)] on an optional field *)
Definition get_or {A} (o : option A) (default : A) : A :=
  match o with Some a => a | None => default end.

(** A value that passes [if x:], or nothing. *)
Definition if_truthy (o : option string) : option string :=
  match o with
  | Some s => if truthy s then Some s else None
  | None => None
  end.

(** *** The transport's room table ([sio.manager]) *)

(** The rooms a connection is in. *)
Definition get_rooms (w : World) (sid : string) : list string :=
  get_or (Dict.get sid (rooms w)) [].

(** [await sio.enter_room(sid, room)] *)
Definition enter_room (sid room : string) : M unit :=
  modify (with_rooms (fun r =>
    let mine := get_or (Dict.get sid r) [] in
    Dict.set sid (if str_in room mine then mine else mine ++ [room]) r)).

(** *** [disconnect] *)

(** [[agent_id for agent_id, agent in registered_agents.items()
      if agent.get('socket_id') == sid]] *)
Definition agents_to_remove (w : World) (sid : string) : list string :=
  map fst (filter (fun kv => (socket_id (snd kv) =? sid)%string)
                  (registered_agents w)).

(** The body of [for session_id, session in active_sessions.items()]. *)
Definition unregister_from (agent_id : string) (item : string * Session)
  : M (string * Session) :=
  let (session_id, session) := item in
  if Dict.mem agent_id (agents session) then
    let session' := with_agents (Dict.del agent_id) session in
    t <- now ;;
    emit (EvAgentUnregistered session_id agent_id "disconnection" t)
         (Room session_id) ;;
    ret (session_id, session')
  else ret (session_id, session).

(** The body of [for agent_id in agents_to_remove]. *)
Definition remove_agent (agent_id : string) : M unit :=
  modify (with_registered_agents (Dict.del agent_id)) ;;
  w <- get_world ;;
  sessions <- for_items (active_sessions w) (unregister_from agent_id) ;;
  modify (with_active_sessions (fun _ => sessions)).

Definition disconnect (sid : string) : M unit :=
  modify (with_server_stats
            (fun st => set_connections (Z.max 0 (connections st - 1)) st)) ;;
  w <- get_world ;;
  for_each (agents_to_remove w sid) remove_agent.

(** [await sio.disconnect(sid)]: the transport runs the server's own
    [disconnect] handler for the connection and then takes it out of its
    rooms. *)
Definition sio_disconnect (sid : string) : M unit :=
  disconnect sid ;;
  modify (with_rooms (Dict.del sid)).

(** *** [connect] *)

(** [api_key] is [auth.get('apiKey') if auth else None].  The transport
    has put the connection in the room of its own [sid]. *)
Definition connect (sid : string) (api_key : option string) : M bool :=
  enter_room sid sid ;;
  modify (with_server_stats (fun st => set_connections (connections st + 1) st)) ;;
  if str_in environment ["production"; "staging"]
     && (negb (truthy_opt api_key) && (environment =? "production")%string)
  then
    emit (EvAuthError "API key required in production") (Room sid) ;;
    sio_disconnect sid ;;
    ret false
  else
    t <- now ;;
    emit (EvArgsWelcome environment t) (Room sid) ;;
    ret true.

(** *** [join_session] *)

Definition new_session (session_id : string) (created last : Q) : Session :=
  mkSession session_id created last "active" [] [] [] []
            (mkMetrics 0 0 0 0).

(** [data_sessionId] is [data.get('sessionId')]. *)
Definition join_session (sid : string) (data_sessionId : option string) : M unit :=
  match if_truthy data_sessionId with
  | None => emit (EvError "Session ID required") (Room sid)
  | Some session_id =>
      enter_room sid session_id ;;
      w <- get_world ;;
      (if negb (Dict.mem session_id (active_sessions w)) then
         t1 <- now ;;
         t2 <- now ;;
         modify (with_active_sessions
                   (Dict.set session_id (new_session session_id t1 t2)))
       else ret tt) ;;
      t <- now ;;
      modify (with_active_sessions (Dict.alter (set_lastActivity t) session_id)) ;;
      w <- get_world ;;
      match Dict.get session_id (active_sessions w) with
      | Some session => emit (EvSessionState session) (Room sid)
      | None => ret tt
      end
  end.

(** *** [register_agent] *)

Definition stamp (agent_id sid : string) (t : Q) (agent_info : AgentInfo) : Agent :=
  mkAgent agent_id (ai_type agent_info) (ai_capabilities agent_info)
          (ai_status agent_info) (ai_metadata agent_info) sid t environment.

(** After the registry is written the handler calls
    [sio.manager.get_rooms(sid)].  The manager's method takes the
    namespace as a second, required argument, so the call raises
    [TypeError] before the loop over the rooms is entered: no session is
    given the agent and no [agent-registered] event is sent. *)
Definition register_agent (sid : string) (agent_info : AgentInfo)
  : M (Result unit) :=
  match if_truthy (ai_id agent_info) with
  | None =>
      emit (EvError "Agent ID required") (Room sid) ;;
      ret (Returned tt)
  | Some agent_id =>
      t <- now ;;
      let agent := stamp agent_id sid t agent_info in
      modify (with_registered_agents (Dict.set agent_id agent)) ;;
      ret (Raised TypeError)
  end.

(** *** [find_suitable_agents] *)

Definition no_requirements : Requirements := mkRequirements None None.

Definition current_tasks (agent : Agent) : Z :=
  get_or (currentTasks (get_or (agent_metadata agent) (mkMetadata None None))) 0.

Definition max_tasks (agent : Agent) : Z :=
  get_or (maxConcurrentTasks (get_or (agent_metadata agent) (mkMetadata None None))) 1.

(** [agent.get('type') not in required_agent_types] *)
Definition type_not_in (agent : Agent) (required_agent_types : list string) : bool :=
  match agent_type agent with
  | Some ty => negb (str_in ty required_agent_types)
  | None => true
  end.

(** [bool(required_agent_types)]: a list is truthy when non-empty. *)
Definition nonempty {A} (l : list A) : bool :=
  match l with [] => false | _ => true end.

(** One round of the loop over [session_agents.items()]. *)
Definition consider (required_capabilities required_agent_types : list string)
  (suitable_agents : list Agent) (item : string * Agent) : list Agent :=
  let agent := snd item in
  if nonempty required_agent_types && type_not_in agent required_agent_types
  then suitable_agents
  else
    let agent_capabilities := get_or (agent_capabilities agent) [] in
    if negb (forallb (fun cap => str_in cap agent_capabilities)
                     required_capabilities)
    then suitable_agents
    else
      if is_str (agent_status agent) "idle"
      then
        if current_tasks agent <? max_tasks agent
        then suitable_agents ++ [agent]
        else suitable_agents
      else suitable_agents.

Definition find_suitable_agents (w : World) (task_definition : TaskDefinition)
  (session_id : string) : list Agent :=
  match Dict.get session_id (active_sessions w) with
  | None => []
  | Some session =>
      let session_agents := agents session in
      let requirements := get_or (td_requirements task_definition) no_requirements in
      let required_capabilities := get_or (req_capabilities requirements) [] in
      let required_agent_types := get_or (req_agentTypes requirements) [] in
      fold_left (consider required_capabilities required_agent_types)
                session_agents []
  end.

(** *** [start_task] *)

(** [len(active_sessions.get(session_id, {}).get('agents', {}))] *)
Definition available_agents (w : World) (session_id : string) : nat :=
  match Dict.get session_id (active_sessions w) with
  | Some session => List.length (agents session)
  | None => O
  end.

Definition start_task (sid : string) (task_definition : TaskDefinition) : M unit :=
  let session_id := get_or (td_sessionId task_definition) "default" in
  match if_truthy (td_id task_definition) with
  | None => emit (EvError "Task ID required") (Room sid)
  | Some task_id =>
      modify (with_server_stats incr_messages_processed) ;;
      w <- get_world ;;
      (if Dict.mem session_id (active_sessions w) then
         t1 <- now ;;
         modify (with_active_sessions
                   (Dict.alter
                      (with_tasks
                         (Dict.set task_id
                            (mkTask task_definition t1 "started" environment
                                    None None)))
                      session_id)) ;;
         modify (with_active_sessions
                   (Dict.alter (with_metrics incr_totalTasks) session_id)) ;;
         t2 <- now ;;
         modify (with_active_sessions
                   (Dict.alter (set_lastActivity t2) session_id))
       else ret tt) ;;
      w <- get_world ;;
      let suitable_agents := find_suitable_agents w task_definition session_id in
      match suitable_agents with
      | [] =>
          w <- get_world ;;
          t <- now ;;
          emit (EvTaskError task_id "No suitable agents found for task"
                  (get_or (td_requirements task_definition) no_requirements)
                  (available_agents w session_id) t)
               (Room session_id) ;;
          modify (with_server_stats incr_errors)
      | first_agent :: _ =>
          let collaboration_mode :=
            get_or (td_collaborationMode task_definition) "sequential" in
          if (collaboration_mode =? "parallel")%string then
            for_each suitable_agents (fun agent =>
              t <- now ;;
              emit (EvTaskAssigned task_id (agent_id agent) "parallel"
                      task_definition t)
                   (Room session_id))
          else
            t <- now ;;
            emit (EvTaskAssigned task_id (agent_id first_agent) "sequential"
                    task_definition t)
                 (Room session_id)
      end
  end.

(** *** [agent_progress] *)

Definition agent_progress (sid : string) (progress_data : ProgressData) : M unit :=
  let session_id := get_or (pd_sessionId progress_data) "default" in
  modify (with_server_stats incr_messages_processed) ;;
  w <- get_world ;;
  match Dict.get session_id (active_sessions w), if_truthy (pd_taskId progress_data) with
  | Some session, Some task_id =>
      (if Dict.mem task_id (tasks session) then
         t <- now ;;
         modify (with_active_sessions
                   (Dict.alter
                      (with_tasks (Dict.alter (update_progress progress_data t) task_id))
                      session_id))
       else ret tt) ;;
      t <- now ;;
      modify (with_active_sessions (Dict.alter (set_lastActivity t) session_id)) ;;
      if is_str (pd_status progress_data) "completed" then
        modify (with_active_sessions
                  (Dict.alter (with_metrics incr_completedTasks) session_id)) ;;
        modify (with_server_stats incr_tasks_completed)
      else ret tt
  | _, _ => ret tt
  end ;;
  t1 <- now ;;
  t2 <- now ;;
  emit (EvTaskProgress session_id progress_data environment t1 t2)
       (Room session_id).

(** *** [collaboration_request] *)

(** The search loop over [registered_agents.items()], with its [break]. *)
Fixpoint find_target_socket (target_agent : string)
  (items : list (string * Agent)) : option string :=
  match items with
  | [] => None
  | (agent_id, agent) :: rest =>
      if (agent_id =? target_agent)%string then Some (socket_id agent)
      else find_target_socket target_agent rest
  end.

Definition collaboration_request (sid : string) (request_data : RequestData) : M unit :=
  let session_id := get_or (rd_sessionId request_data) "default" in
  let request_id := rd_requestId request_data in
  modify (with_server_stats incr_messages_processed) ;;
  w <- get_world ;;
  (if Dict.mem session_id (active_sessions w) then
     t <- now ;;
     modify (with_active_sessions
               (Dict.alter
                  (with_collaborationRequests
                     (Dict.set request_id
                        (mkCollaborationRequest request_data t "pending")))
                  session_id))
   else ret tt) ;;
  match if_truthy (rd_targetAgent request_data) with
  | Some target_agent =>
      w <- get_world ;;
      match if_truthy (find_target_socket target_agent (registered_agents w)) with
      | Some target_socket =>
          t <- now ;;
          emit (EvCollaborationRequest request_data t) (Room target_socket)
      | None =>
          t <- now ;;
          emit (EvCollaborationError request_id
                  ("Target agent " ++ target_agent ++ " not found")%string t)
               (Room sid)
      end
  | None =>
      t <- now ;;
      emit (EvCollaborationRequest request_data t) (Room session_id)
  end.

(** *** REST endpoints over the same state *)

Record MessageData := mkMessageData {
  md_sessionId : option string;
  md_event : option string;
  md_data : option (list (string * string))
}.

(** [POST /api/ws/broadcast]; the result is [targetSessions]. *)
Definition broadcast_message (message_data : MessageData) : M nat :=
  let event := get_or (md_event message_data) "broadcast" in
  let data := get_or (md_data message_data) [] in
  t <- now ;;
  w <- get_world ;;
  target_count <-
    match if_truthy (md_sessionId message_data) with
    | Some session_id =>
        emit (EvBroadcast event data environment t) (Room session_id) ;;
        ret 1%nat
    | None =>
        emit (EvBroadcast event data environment t) Everyone ;;
        ret (List.length (active_sessions w))
    end ;;
  modify (with_server_stats incr_messages_processed) ;;
  _ <- now ;;
  ret target_count.

Record Performance := mkPerformance {
  perf_active_sessions : nat;
  perf_registered_agents : nat;
  messages_per_second : number;
  error_rate : number
}.

Record Health := mkHealth {
  health_uptime : float;
  performance : Performance;
  health_timestamp : Q
}.

(** [datetime.now().timestamp() * 1000 - server_stats['start_time']]: the
    difference of two floats. *)
Definition uptime_at (t : Q) (w : World) : float :=
  nearest_float (t - start_time (server_stats w)).

(** [GET /health].  The reply is built field by field: a division that
    raises ends the call before the last clock reading. *)
Definition health_check : M (Result Health) :=
  t <- now ;;
  w <- get_world ;;
  let uptime := uptime_at t w in
  let rates :=
    and_then (num_div (PyFloat uptime) 1000) (fun seconds =>
    and_then (num_div (messages_processed (server_stats w))
                      (py_max seconds 1)) (fun messages_per_second =>
    and_then (num_div (errors (server_stats w))
                      (py_max (messages_processed (server_stats w)) 1))
             (fun ratio =>
    and_then (num_mul ratio 100) (fun error_rate =>
    Returned (messages_per_second, error_rate))))) in
  match rates with
  | Raised e => ret (Raised e)
  | Returned (messages_per_second, error_rate) =>
      t' <- now ;;
      ret (Returned
             (mkHealth uptime
                (mkPerformance (List.length (active_sessions w))
                               (List.length (registered_agents w))
                               messages_per_second error_rate)
                t'))
  end.

Record Stats := mkStats {
  stats_uptime : float;
  stats_active_sessions : nat;
  stats_registered_agents : nat;
  connected_clients : Z;
  stats_messages_processed : Z;
  stats_tasks_completed : Z;
  error_count : Z;
  task_queue_size : nat;
  stats_collaboration_requests : nat;
  stats_timestamp : Q
}.

(** [GET /api/ws/stats]; [task_queue] is never written and stays empty. *)
Definition get_websocket_stats : M Stats :=
  t <- now ;;
  w <- get_world ;;
  let uptime := uptime_at t w in
  t' <- now ;;
  ret (mkStats uptime
         (List.length (active_sessions w))
         (List.length (registered_agents w))
         (connections (server_stats w))
         (messages_processed (server_stats w))
         (tasks_completed (server_stats w))
         (errors (server_stats w))
         (list_sum (map (fun tasks : list unit => List.length tasks) []))
         (list_sum (map (fun kv => List.length (collaborationRequests (snd kv)))
                        (active_sessions w)))
         t').

(** *** The demonstration endpoints *)

(** [int(x)] on a float: truncation towards zero. *)
Definition int_of (x : Q) : Z := Z.quot (Qnum x) (Z.pos (Qden x)).

(** [str(n)] on an int *)
Definition str_of_int (n : Z) : string := NilZero.string_of_int (Z.to_int n).

(** [s.replace('-', ' ')] *)
Fixpoint replace_dash (s : string) : string :=
  match s with
  | EmptyString => EmptyString
  | String c r =>
      String (if Ascii.eqb c "-"%char then " "%char else c) (replace_dash r)
  end.

Record SimulationRequest := mkSimulationRequest {
  sr_sessionId : option string;
  sr_agentType : option string;
  sr_taskType : option string
}.

(** [POST /api/demo/simulate-agent], up to the point where it schedules
    [simulate_task_execution]; the result is the demo agent's id. *)
Definition simulate_agent_activity (request_data : SimulationRequest) : M string :=
  let session_id := get_or (sr_sessionId request_data) "demo-session" in
  let agent_type := get_or (sr_agentType request_data) "data-processor" in
  t0 <- timestamp ;;
  t1 <- now ;;
  let demo_agent :=
    mkAgent ("demo-agent-" ++ str_of_int (int_of t0))%string
            (Some agent_type)
            (Some ["data-analysis"; "machine-learning"; "visualization"])
            (Some "idle")
            (Some (mkMetadata (Some 0) (Some 3)))
            "demo" t1 environment in
  modify (with_registered_agents (Dict.set (agent_id demo_agent) demo_agent)) ;;
  w <- get_world ;;
  (if negb (Dict.mem session_id (active_sessions w)) then
     t2 <- now ;;
     t3 <- now ;;
     modify (with_active_sessions
               (Dict.set session_id (new_session session_id t2 t3)))
   else ret tt) ;;
  modify (with_active_sessions
            (Dict.alter (with_agents (Dict.set (agent_id demo_agent) demo_agent))
                        session_id)) ;;
  t4 <- now ;;
  emit (EvAgentRegistered session_id demo_agent t4) (Room session_id) ;;
  _ <- now ;;
  ret (agent_id demo_agent).

Definition steps : list (string * Z) :=
  [("initialization", 2); ("data-loading", 3); ("preprocessing", 4);
   ("analysis", 5); ("results-generation", 2); ("cleanup", 1)].

Definition total_duration : Z := fold_left Z.add (map snd steps) 0.

(** One round of the loop of [simulate_task_execution], up to its sleep. *)
Definition simulate_progress (session_id agent_id task_id : string)
  (i : Z) (step : string * Z) (elapsed_time : Z) : M unit :=
  let progress :=
    int_of (inject_Z elapsed_time / inject_Z total_duration * 100)%Q in
  t1 <- now ;;
  t2 <- now ;;
  emit (EvSimulatedProgress session_id agent_id task_id (fst step) "processing"
          progress
          ("Executing " ++ replace_dash (fst step) ++ "...")%string
          t1
          ((total_duration - elapsed_time) * 1000)
          (elapsed_time * 1000) (50 + i * 10) (30 + i * 15) 0
          t2)
       (Room session_id).

(** The loop; the result is [elapsed_time] at its end.  Other handlers
    may run during each [asyncio.sleep]. *)
Fixpoint simulate_steps (session_id agent_id task_id : string)
  (i : Z) (todo : list (string * Z)) (elapsed_time : Z) : M Z :=
  match todo with
  | [] => ret elapsed_time
  | step :: rest =>
      simulate_progress session_id agent_id task_id i step elapsed_time ;;
      simulate_steps session_id agent_id task_id (i + 1) rest
                     (elapsed_time + snd step)
  end.

(** [(current_avg * (completed - 1) + elapsed_time * 1000) / completed],
    read off the metrics after the increment. *)
Definition completion_average (elapsed_time : Z) (m : Metrics) : Result number :=
  let completed := completedTasks m in
  let current_avg := avgExecutionTime m in
  and_then (num_mul current_avg (completed - 1)) (fun weighted =>
  and_then (num_add weighted (elapsed_time * 1000)) (fun total =>
  num_div total completed)).

(** [metrics['completedTasks'] += 1] and the assignment to
    [metrics['avgExecutionTime']].  When the right-hand side raises, the
    assignment does not happen and the average stays what it was. *)
Definition record_completion (elapsed_time : Z) (m : Metrics) : Metrics :=
  let m' := incr_completedTasks m in
  match completion_average elapsed_time m' with
  | Returned avg => set_avgExecutionTime avg m'
  | Raised _ => m'
  end.

(** What [simulate_task_execution] does after its loop.  Where the
    average raises (a count of zero after the increment, or one beyond the
    range of a float) the source stops before
    [server_stats['tasks_completed'] += 1]; this function is total and
    counts the task there too. *)
Definition simulate_completion (session_id agent_id task_type task_id : string)
  (elapsed_time : Z) : M unit :=
  t <- now ;;
  emit (EvTaskCompleted task_id agent_id "success"
          (task_type ++ " completed successfully")%string
          (elapsed_time * 1000) 1000 (95 # 100) (87 # 100) t)
       (Room session_id) ;;
  w <- get_world ;;
  (if Dict.mem session_id (active_sessions w) then
     modify (with_active_sessions
               (Dict.alter (with_metrics (record_completion elapsed_time))
                           session_id))
   else ret tt) ;;
  modify (with_server_stats incr_tasks_completed).

Definition simulate_task_execution (session_id agent_id task_type : string) : M unit :=
  t <- timestamp ;;
  let task_id := ("demo-task-" ++ str_of_int (int_of t))%string in
  elapsed_time <- simulate_steps session_id agent_id task_id 0 steps 0 ;;
  simulate_completion session_id agent_id task_type task_id elapsed_time.

(** *** Runs of the server *)

(** What the outside world can ask of the server.  The background task of
    the demonstration endpoint is also offered in its pieces, which is how
    it interleaves with the handlers. *)
Inductive Request :=
| Connect (sid : string) (api_key : option string)
| Disconnect (sid : string)
| JoinSession (sid : string) (data_sessionId : option string)
| RegisterAgent (sid : string) (agent_info : AgentInfo)
| StartTask (sid : string) (task_definition : TaskDefinition)
| AgentProgress (sid : string) (progress_data : ProgressData)
| CollaborationRequestEvent (sid : string) (request_data : RequestData)
| BroadcastMessage (message_data : MessageData)
| HealthCheck
| GetWebsocketStats
| SimulateAgentActivity (request_data : SimulationRequest)
| SimulateTaskExecution (session_id agent_id task_type : string)
| SimulateProgress (session_id agent_id task_id : string) (i : Z)
    (step : string * Z) (elapsed_time : Z)
| SimulateCompletion (session_id agent_id task_type task_id : string)
    (elapsed_time : Z).

Definition discard {A} (m : M A) : M unit := _ <- m ;; ret tt.

Definition handle (r : Request) : M unit :=
  match r with
  | Connect sid api_key => discard (connect sid api_key)
  | Disconnect sid => disconnect sid
  | JoinSession sid data_sessionId => join_session sid data_sessionId
  | RegisterAgent sid agent_info => discard (register_agent sid agent_info)
  | StartTask sid task_definition => start_task sid task_definition
  | AgentProgress sid progress_data => agent_progress sid progress_data
  | CollaborationRequestEvent sid request_data =>
      collaboration_request sid request_data
  | BroadcastMessage message_data => discard (broadcast_message message_data)
  | HealthCheck => discard health_check
  | GetWebsocketStats => discard get_websocket_stats
  | SimulateAgentActivity request_data =>
      discard (simulate_agent_activity request_data)
  | SimulateTaskExecution session_id agent_id task_type =>
      simulate_task_execution session_id agent_id task_type
  | SimulateProgress session_id agent_id task_id i step elapsed_time =>
      simulate_progress session_id agent_id task_id i step elapsed_time
  | SimulateCompletion session_id agent_id task_type task_id elapsed_time =>
      simulate_completion session_id agent_id task_type task_id elapsed_time
  end.

(** The state at import time: empty registries, counters at zero and
    [start_time] read from the clock. *)
Definition initial_world : World :=
  mkWorld [] [] (mkServerStats (clock 0 * 1000)%Q 0 0 0 0) [] [] 1.

Fixpoint run (requests : list Request) (w : World) : World :=
  match requests with
  | [] => w
  | r :: rest => run rest (exec (handle r) w)
  end.

(** The states the server can be in. *)
Definition reachable (w : World) : Prop :=
  exists requests, w = run requests initial_world.

(** ** Vocabulary of the statements *)

(** The name under which an event goes out. *)
Definition event_name (e : Event) : string :=
  match e with
  | EvError _ => "error"
  | EvAuthError _ => "auth-error"
  | EvArgsWelcome _ _ => "args-welcome"
  | EvAgentUnregistered _ _ _ _ => "agent-unregistered"
  | EvSessionState _ => "session-state"
  | EvAgentRegistered _ _ _ => "agent-registered"
  | EvTaskError _ _ _ _ _ => "task-error"
  | EvTaskAssigned _ _ _ _ _ => "task-assigned"
  | EvTaskProgress _ _ _ _ _ => "task-progress"
  | EvCollaborationRequest _ _ => "collaboration-request"
  | EvCollaborationError _ _ _ => "collaboration-error"
  | EvBroadcast event _ _ _ => event
  | EvSimulatedProgress _ _ _ _ _ _ _ _ _ _ _ _ _ _ => "task-progress"
  | EvTaskCompleted _ _ _ _ _ _ _ _ _ => "task-completed"
  end.

(** The session after a submission is recorded in it. *)
Definition record_submission (task_id : string) (td : TaskDefinition)
  (t1 t2 : Q) (s : Session) : Session :=
  set_lastActivity t2
    (with_metrics incr_totalTasks
       (with_tasks
          (Dict.set task_id (mkTask td t1 "started" environment None None)) s)).

(** The task a session id and a task id identify, when there is one. *)
Definition stored_task (w : World) (session_id : string)
  (task_id : option string) : option Task :=
  match Dict.get session_id (active_sessions w), task_id with
  | Some session, Some t => Dict.get t (tasks session)
  | _, _ => None
  end.

(** The session after a progress report that names no stored task. *)
Definition touch_session (completed : bool) (t : Q) (s : Session) : Session :=
  if completed
  then with_metrics incr_completedTasks (set_lastActivity t s)
  else set_lastActivity t s.

(** The ids of the sessions that list an agent, in table order. *)
Definition sessions_listing (agent_id : string)
  (sessions : list (string * Session)) : list string :=
  Dict.keys (filter (fun ks => Dict.mem agent_id (agents (snd ks))) sessions).

(** The session/agent pairs that a list of agents stands for. *)
Definition listing_pairs (agent_ids : list string)
  (sessions : list (string * Session)) : list (string * string) :=
  flat_map (fun agent_id =>
              map (fun session_id => (session_id, agent_id))
                  (sessions_listing agent_id sessions))
           agent_ids.

(** One agent-unregistered event per pair, stamped by successive clock
    readings from the n-th on. *)
Fixpoint unregistered_events (pairs : list (string * string)) (n : nat)
  : list (Event * Target) :=
  match pairs with
  | [] => []
  | (session_id, agent_id) :: rest =>
      (EvAgentUnregistered session_id agent_id "disconnection" (clock n * 1000),
       Room session_id)
      :: unregistered_events rest (S n)
  end.

(** One task-assigned event per agent, in parallel mode, stamped by
    successive clock readings from the n-th on. *)
Fixpoint assigned_events (task_id session_id : string) (td : TaskDefinition)
  (suitable_agents : list Agent) (n : nat) : list (Event * Target) :=
  match suitable_agents with
  | [] => []
  | agent :: rest =>
      (EvTaskAssigned task_id (agent_id agent) "parallel" td (clock n * 1000),
       Room session_id)
      :: assigned_events task_id session_id td rest (S n)
  end.

(** A session table entry without a given agent. *)
Definition drop_agent (agent_id : string) (item : string * Session)
  : string * Session :=
  (fst item, with_agents (Dict.del agent_id) (snd item)).

(** Started where [P] holds, a computation ends where [Q] holds. *)
Definition triple {A} (P : World -> Prop) (m : M A) (Q : World -> Prop) : Prop :=
  forall w, P w -> Q (exec m w).

(** A property of the world that a computation keeps. *)
Definition preserves {A} (P : World -> Prop) (m : M A) : Prop := triple P m P.

(** Errors are counted among the messages processed. *)
Definition stats_ok (w : World) : Prop :=
  0 <= errors (server_stats w) <= messages_processed (server_stats w).

(** The same, after a message was counted and before its error is. *)
Definition stats_pending (w : World) : Prop :=
  0 <= errors (server_stats w) < messages_processed (server_stats w).

(** Since [w0], only events that satisfy [Q] were emitted. *)
Definition only_emits (Q : Event * Target -> Prop) (w0 w : World) : Prop :=
  exists events, outbox w = outbox w0 ++ events /\ Forall Q events.

(** The session table holds under [k] what it held in [w0]. *)
Definition session_kept (k : string) (w0 w : World) : Prop :=
  Dict.get k (active_sessions w) = Dict.get k (active_sessions w0).

(** An event that is no validation error and goes to a given room. *)
Definition accepted_in (room : string) (et : Event * Target) : Prop :=
  event_name (fst et) <> "error" /\ snd et = Room room.

(** The registry and the session table are dicts: no key occurs twice. *)
Definition world_wf (w : World) : Prop :=
  Dict.wf (registered_agents w) /\ Dict.wf (active_sessions w).

(** The rates of the specification, in its words: messages processed
    over max(uptime in seconds, 1), and errors over
    max(messages processed, 1), times 100. *)
Definition spec_messages_per_second (messages : Z) (uptime_in_seconds : number)
  : Result number :=
  num_div messages (py_max uptime_in_seconds 1).

Definition spec_error_rate (errors messages : Z) : Result number :=
  and_then (num_div errors (py_max messages 1)) (fun ratio =>
  num_mul ratio 100).

(** The matcher's policy as one predicate on an agent record. *)
Definition required_capabilities (task_definition : TaskDefinition) : list string :=
  get_or (req_capabilities (get_or (td_requirements task_definition) no_requirements)) [].

Definition required_agent_types (task_definition : TaskDefinition) : list string :=
  get_or (req_agentTypes (get_or (td_requirements task_definition) no_requirements)) [].

Definition eligible (task_definition : TaskDefinition) (agent : Agent) : bool :=
  negb (nonempty (required_agent_types task_definition)
        && type_not_in agent (required_agent_types task_definition))
  && forallb (fun cap => str_in cap (get_or (agent_capabilities agent) []))
             (required_capabilities task_definition)
  && is_str (agent_status agent) "idle"
  && (current_tasks agent <? max_tasks agent).

(** ** Vocabulary of the further properties *)

(** A property of every session of the session table, given its key. *)
Definition sessions_all (Q : string -> Session -> Prop) (w : World) : Prop :=
  forall k s, In (k, s) (active_sessions w) -> Q k s.

(** What every handler keeps of a session record: it sits under its own
    id, is active, has no stream, an error count of zero, counters that
    are not negative, and only tasks with status started. *)
Definition session_ok (k : string) (s : Session) : Prop :=
  sessionId s = k
  /\ session_status s = "active"
  /\ activeStreams s = []
  /\ errorCount (metrics s) = 0
  /\ 0 <= totalTasks (metrics s)
  /\ 0 <= completedTasks (metrics s)
  /\ (forall t task, In (t, task) (tasks s) -> task_status task = "started").

(** Every agent the session lists was seated by the demonstration
    endpoint: its socket is demo, it is idle and its limits are 0 of 3. *)
Definition seated_by_demo (k : string) (s : Session) : Prop :=
  forall a agent,
    In (a, agent) (agents s) ->
    socket_id agent = "demo"
    /\ agent_status agent = Some "idle"
    /\ agent_metadata agent = Some (mkMetadata (Some 0) (Some 3))
    /\ agent_capabilities agent
       = Some ["data-analysis"; "machine-learning"; "visualization"].

(** The server-wide counters are not negative. *)
Definition stats_nonneg (w : World) : Prop :=
  0 <= connections (server_stats w)
  /\ 0 <= messages_processed (server_stats w)
  /\ 0 <= tasks_completed (server_stats w)
  /\ 0 <= errors (server_stats w).

(** Every agent a session lists is held by the registry under the same
    id, and so are the ids of [extra]. *)
Definition agents_registered_with (extra : list string) (w : World) : Prop :=
  (forall k s a,
      In (k, s) (active_sessions w) ->
      Dict.get a (agents s) <> None ->
      Dict.get a (registered_agents w) <> None)
  /\ (forall x, In x extra -> Dict.get x (registered_agents w) <> None).

Definition agents_registered (w : World) : Prop := agents_registered_with [] w.

(** From [w0] to [w] the session table only grew at its end, and every
    session of [w0] is still there with its creation time and id. *)
Definition sessions_extend (w0 w : World) : Prop :=
  (exists added,
      Dict.keys (active_sessions w) = Dict.keys (active_sessions w0) ++ added)
  /\ (forall k s,
         Dict.get k (active_sessions w0) = Some s ->
         exists s', Dict.get k (active_sessions w) = Some s'
                    /\ createdAt s' = createdAt s
                    /\ sessionId s' = sessionId s).

(** The requests that [server_stats['messages_processed']] counts. *)
Definition counts_as_message (r : Request) : bool :=
  match r with
  | StartTask _ task_definition =>
      match if_truthy (td_id task_definition) with
      | Some _ => true
      | None => false
      end
  | AgentProgress _ _ => true
  | CollaborationRequestEvent _ _ => true
  | BroadcastMessage _ => true
  | _ => false
  end.

Definition messages_in (requests : list Request) : Z :=
  Z.of_nat (List.length (filter counts_as_message requests)).

(** The message counter has the value [c]. *)
Definition messages_are (c : Z) (w : World) : Prop :=
  messages_processed (server_stats w) = c.



(** [w'] differs from [w] in nothing but the clock readings taken. *)
Definition only_clock_read (w w' : World) : Prop :=
  active_sessions w' = active_sessions w
  /\ registered_agents w' = registered_agents w
  /\ server_stats w' = server_stats w
  /\ rooms w' = rooms w
  /\ outbox w' = outbox w.

(** *** [GET /api/ws/sessions] *)

(** One entry of [session_details]. *)
Record SessionDetail := mkSessionDetail {
  sd_sessionId : string;
  sd_status : string;
  agentCount : nat;
  taskCount : nat;
  sd_activeStreams : nat;
  sd_collaborationRequests : nat;
  sd_createdAt : Q;
  sd_lastActivity : Q;
  sd_metrics : Metrics
}.

Record SessionsReport := mkSessionsReport {
  sessions_count : nat;
  sessions_listed : list string;
  details : list SessionDetail;
  sessions_environment : string
}.

(** The body of [for session_id, session in active_sessions.items()]. *)
Definition session_detail (item : string * Session) : SessionDetail :=
  let (session_id, session) := item in
  mkSessionDetail session_id
                  (session_status session)
                  (List.length (agents session))
                  (List.length (tasks session))
                  (List.length (activeStreams session))
                  (List.length (collaborationRequests session))
                  (createdAt session)
                  (lastActivity session)
                  (metrics session).

(** The endpoint reads no clock and writes nothing, so the states the
    server reaches are the same with and without it. *)
Definition get_active_sessions : M SessionsReport :=
  w <- get_world ;;
  ret (mkSessionsReport (List.length (active_sessions w))
                        (Dict.keys (active_sessions w))
                        (map session_detail (active_sessions w))
                        environment).

(** A property of every session the session table holds under a key. *)
Definition sessions_hold (Q : string -> Session -> Prop) (w : World) : Prop :=
  forall k s, Dict.get k (active_sessions w) = Some s -> Q k s.

(** A session stores no more tasks than it counted; while [start_task]
    is between storing a task in session [pending] and counting it, that
    session may store one more. *)
Definition tasks_counted (pending : option string) (k : string) (s : Session)
  : Prop :=
  Z.of_nat (List.length (tasks s))
  <= totalTasks (metrics s) + (if is_str pending k then 1 else 0).

End Server.

(** ** A small deployment, for the examples *)

Module Sample.

#[export] Instance deployment : Deployment :=
  {| environment := "development";
     clock := fun n => inject_Z (1000 + Z.of_nat n) |}.

Definition alice_info : AgentInfo :=
  mkAgentInfo (Some "a1") (Some "nlp-agent") (Some ["nlp"; "summarize"])
              (Some "idle") (Some (mkMetadata (Some 0) (Some 1))).

Definition bob_info : AgentInfo :=
  mkAgentInfo (Some "a2") (Some "vision-agent") (Some ["vision"])
              (Some "busy") (Some (mkMetadata (Some 1) (Some 1))).

Definition carol_info : AgentInfo :=
  mkAgentInfo (Some "a3") (Some "nlp-agent") (Some ["nlp"])
              (Some "idle") (Some (mkMetadata (Some 2) (Some 2))).

Definition dave_info : AgentInfo :=
  mkAgentInfo (Some "a4") (Some "nlp-agent") (Some ["nlp"]) (Some "idle") None.

(** Two connections: c1 joins s1, s2 and quiet and registers alice and
    bob; c2 joins s1 and registers carol and dave.  The registrations
    reach the registry only. *)
Definition history : list Request :=
  [Connect "c1" None; Connect "c2" None;
   JoinSession "c1" (Some "s1"); JoinSession "c2" (Some "s1");
   JoinSession "c1" (Some "s2"); RegisterAgent "c1" alice_info;
   JoinSession "c1" (Some "quiet"); RegisterAgent "c1" bob_info;
   RegisterAgent "c2" carol_info; RegisterAgent "c2" dave_info].

(** The agents as a registration stamps them. *)
Definition alice : Agent := stamp "a1" "c1" 1010000 alice_info.
Definition bob : Agent := stamp "a2" "c1" 1018000 bob_info.
Definition carol : Agent := stamp "a3" "c2" 1025000 carol_info.
Definition dave : Agent := stamp "a4" "c2" 1028000 dave_info.

(** A fifth agent, at one task of two. *)
Definition frank : Agent :=
  mkAgent "a6" (Some "nlp-agent") (Some ["nlp"]) (Some "idle")
          (Some (mkMetadata (Some 1) (Some 2))) "c3" 1030000 "development".

(** A session that lists the given agents under their ids. *)
Definition seated (session_id : string) (created last : Q)
  (members : list Agent) : Session :=
  mkSession session_id created last "active"
            (map (fun agent => (agent_id agent, agent)) members)
            [] [] [] (mkMetrics 0 0 0 0).

(** A state in which sessions list agents of two connections: s1 lists
    all four, s2 alice and bob, quiet only bob.  It is written out: the
    server seats an agent only through the demonstration endpoint, so no
    sequence of requests leads here.  It exercises the matcher and the
    cleanup on agents that differ in status, limits and connection. *)
Definition world : World :=
  Eval vm_compute in
    mkWorld
      [("s1", seated "s1" 1003000 1029000 [alice; bob; carol; dave]);
       ("s2", seated "s2" 1007000 1021000 [alice; bob]);
       ("quiet", seated "quiet" 1015000 1023000 [bob])]
      [("a1", alice); ("a2", bob); ("a3", carol); ("a4", dave)]
      (mkServerStats 1000000 2 0 0 0)
      [("c1", ["c1"; "s1"; "s2"; "quiet"]); ("c2", ["c2"; "s1"])]
      [] 31.

(** Its sessions s1 and quiet. *)
Definition team : Session :=
  Eval vm_compute in
    get_or (Dict.get "s1" (active_sessions world)) (new_session "s1" 0 0).

Definition quiet : Session :=
  Eval vm_compute in
    get_or (Dict.get "quiet" (active_sessions world)) (new_session "quiet" 0 0).

(** The same state with a session lab that lists frank and carol. *)
Definition lab_session : Session :=
  Eval vm_compute in seated "lab" 1030000 1030000 [frank; carol].

Definition lab : World :=
  Eval vm_compute in
    with_active_sessions (Dict.set "lab" lab_session) world.

Definition needs_nlp : Requirements := mkRequirements (Some ["nlp"]) None.

Definition task_nlp : TaskDefinition :=
  mkTaskDefinition (Some "t1") (Some "s1") (Some needs_nlp) (Some "sequential").

Definition task_quiet : TaskDefinition :=
  mkTaskDefinition (Some "t2") (Some "quiet") (Some needs_nlp) None.

Definition task_lost : TaskDefinition :=
  mkTaskDefinition (Some "t3") (Some "nowhere") (Some needs_nlp) None.

Definition task_default : TaskDefinition :=
  mkTaskDefinition (Some "t4") None (Some needs_nlp) None.

Definition task_lab : TaskDefinition :=
  mkTaskDefinition (Some "t7") (Some "lab") (Some needs_nlp) None.

Definition progress_unknown : ProgressData :=
  mkProgressData (Some "s1") (Some "t9") (Some "processing") [("step", "load")].


Definition request_default : RequestData :=
  mkRequestData None (Some "r2") None [].

(** A report on task t4 that names no session. *)
Definition progress_t4 : ProgressData :=
  mkProgressData None (Some "t4") (Some "processing") [("step", "load")].

(** A connection joins the session called default; then a task that names
    no session is started. *)
Definition shared_history : list Request :=
  [Connect "c1" None; JoinSession "c1" (Some "default")].

Definition shared : World :=
  Eval vm_compute in run shared_history initial_world.

Definition shared_busy : World :=
  Eval vm_compute in
    run (shared_history ++ [StartTask "c1" task_default]) initial_world.

Definition shared_session : Session :=
  Eval vm_compute in
    get_or (Dict.get "default" (active_sessions shared))
           (new_session "default" 0 0).

Definition shared_busy_session : Session :=
  Eval vm_compute in
    get_or (Dict.get "default" (active_sessions shared_busy))
           (new_session "default" 0 0).

Definition task_t4 : Task :=
  Eval vm_compute in
    get_or (Dict.get "t4" (tasks shared_busy_session))
           (mkTask task_default 0 "started" environment None None).

(** Further payloads and states, for the properties beyond the claims. *)
Definition task_parallel : TaskDefinition :=
  mkTaskDefinition (Some "t5") (Some "s1") (Some needs_nlp) (Some "parallel").

Definition task_untitled : TaskDefinition :=
  mkTaskDefinition None (Some "s1") (Some needs_nlp) None.

Definition task_analysis : TaskDefinition :=
  mkTaskDefinition (Some "t6") (Some "demo-session")
    (Some (mkRequirements (Some ["data-analysis"]) None)) None.

Definition progress_done : ProgressData :=
  mkProgressData (Some "s1") (Some "t1") (Some "completed") [].

Definition request_alice : RequestData :=
  mkRequestData (Some "s1") (Some "r3") (Some "a1") [].

Definition message_s1 : MessageData :=
  mkMessageData (Some "s1") (Some "notice") (Some [("text", "hello")]).

Definition erin_info : AgentInfo :=
  mkAgentInfo (Some "a5") (Some "nlp-agent") (Some ["nlp"]) (Some "idle") None.

Definition demo_request : SimulationRequest :=
  mkSimulationRequest None None None.

Definition demo_agent : Agent :=
  mkAgent "demo-agent-1031" (Some "data-processor")
          (Some ["data-analysis"; "machine-learning"; "visualization"])
          (Some "idle") (Some (mkMetadata (Some 0) (Some 3)))
          "demo" 1032000 "development".

(** The state the history leads to, after c1 started task t1 in s1, and
    then after a report that t1 is completed. *)
Definition busy_history : list Request :=
  history ++ [StartTask "c1" task_nlp; AgentProgress "c1" progress_done].

Definition working : World :=
  Eval vm_compute in run (history ++ [StartTask "c1" task_nlp]) initial_world.

Definition finished : World :=
  Eval vm_compute in run busy_history initial_world.

Definition team_working : Session :=
  Eval vm_compute in
    get_or (Dict.get "s1" (active_sessions working)) (new_session "s1" 0 0).

Definition team_finished : Session :=
  Eval vm_compute in
    get_or (Dict.get "s1" (active_sessions finished)) (new_session "s1" 0 0).

Definition task_t1 : Task :=
  Eval vm_compute in
    get_or (Dict.get "t1" (tasks team_working))
           (mkTask task_nlp 0 "started" environment None None).

Definition task_t1_reported : Task :=
  Eval vm_compute in
    get_or (Dict.get "t1" (tasks team_finished))
           (mkTask task_nlp 0 "started" environment None None).

(** A second submission under the id t1. *)
Definition task_again : TaskDefinition :=
  mkTaskDefinition (Some "t1") (Some "s1") None (Some "parallel").

(** The state after that second submission. *)
Definition resubmitted : World :=
  Eval vm_compute in
    run (busy_history ++ [StartTask "c2" task_again]) initial_world.

(** The state the history leads to, and then the demonstration endpoint
    is called. *)
Definition staffed_history : list Request :=
  history ++ [SimulateAgentActivity demo_request].

Definition staffed : World :=
  Eval vm_compute in run staffed_history initial_world.

Definition demo_session : Session :=
  Eval vm_compute in
    get_or (Dict.get "demo-session" (active_sessions staffed))
           (new_session "demo-session" 0 0).

Definition staffed_agent : Agent :=
  Eval vm_compute in
    get_or (Dict.get "demo-agent-1017" (agents demo_session)) demo_agent.

(** A state with three messages processed, one of them an error: a task
    for a session that does not exist and two reports. *)
Definition loaded_history : list Request :=
  history ++ [StartTask "c1" task_lost; AgentProgress "c1" progress_unknown;
              AgentProgress "c1" progress_unknown].

Definition loaded : World :=
  Eval vm_compute in run loaded_history initial_world.

(** A production deployment, and one whose clock stands still. *)
Definition production : Deployment :=
  {| environment := "production";
     clock := fun n => inject_Z (1000 + Z.of_nat n) |}.

Definition frozen : Deployment :=
  {| environment := "development";
     clock := fun _ => inject_Z 1000 |}.

(** Where the clock stands still, a task arrives for a session that does
    not exist: one message, one error, no uptime. *)
Definition still_history : list Request := [StartTask "c1" task_lost].

Definition still : World :=
  Eval vm_compute in @run frozen still_history (@initial_world frozen).

End Sample.

Section ServerFacts.

Context {deployment : Deployment}.

(** ** Facts about dictionaries *)

Lemma dict_get_set_eq {K V} `{EqDec K} (k : K) (v : V) d :
  Dict.get k (Dict.set k v d) = Some v.
Proof.
  induction d as [|[k' v'] r IH]; simpl.
  - destruct (eq_dec k k); congruence.
  - destruct (eq_dec k k') as [->|n]; simpl.
    + destruct (eq_dec k' k'); congruence.
    + destruct (eq_dec k k'); [contradiction | exact IH].
Qed.

Lemma dict_get_set_ne {K V} `{EqDec K} (k k0 : K) (v : V) d :
  k0 <> k -> Dict.get k0 (Dict.set k v d) = Dict.get k0 d.
Proof.
  intros ne. induction d as [|[k' v'] r IH]; simpl.
  - destruct (eq_dec k0 k); [contradiction | reflexivity].
  - destruct (eq_dec k k') as [->|n]; simpl.
    + destruct (eq_dec k0 k'); [contradiction | reflexivity].
    + destruct (eq_dec k0 k'); [reflexivity | exact IH].
Qed.

Lemma dict_set_fresh {K V} `{EqDec K} (k : K) (v : V) d :
  Dict.get k d = None -> Dict.set k v d = d ++ [(k, v)].
Proof.
  induction d as [|[k' v'] r IH]; simpl; [reflexivity|].
  destruct (eq_dec k k'); [discriminate|].
  intros E. now rewrite IH.
Qed.

Lemma dict_keys_set_present {K V} `{EqDec K} (k : K) (v : V) d :
  Dict.get k d <> None -> Dict.keys (Dict.set k v d) = Dict.keys d.
Proof.
  unfold Dict.keys.
  induction d as [|[k' v'] r IH]; simpl; [congruence|].
  destruct (eq_dec k k') as [->|n]; simpl; [reflexivity|].
  intros E. now rewrite IH.
Qed.

Lemma dict_get_alter_eq {K V} `{EqDec K} (f : V -> V) (k : K) d :
  Dict.get k (Dict.alter f k d) = option_map f (Dict.get k d).
Proof.
  induction d as [|[k' v'] r IH]; simpl; [reflexivity|].
  destruct (eq_dec k k') as [->|n]; simpl.
  - destruct (eq_dec k' k'); congruence.
  - destruct (eq_dec k k'); [contradiction | exact IH].
Qed.

Lemma dict_get_alter_ne {K V} `{EqDec K} (f : V -> V) (k k0 : K) d :
  k0 <> k -> Dict.get k0 (Dict.alter f k d) = Dict.get k0 d.
Proof.
  intros ne. induction d as [|[k' v'] r IH]; simpl; [reflexivity|].
  destruct (eq_dec k k') as [->|n]; simpl.
  - destruct (eq_dec k0 k'); [contradiction | reflexivity].
  - destruct (eq_dec k0 k'); [reflexivity | exact IH].
Qed.

Lemma dict_keys_alter {K V} `{EqDec K} (f : V -> V) (k : K) d :
  Dict.keys (Dict.alter f k d) = Dict.keys d.
Proof.
  unfold Dict.keys.
  induction d as [|[k' v'] r IH]; simpl; [reflexivity|].
  destruct (eq_dec k k'); simpl; [reflexivity|].
  now rewrite IH.
Qed.

Lemma dict_alter_alter {K V} `{EqDec K} (f g : V -> V) (k : K) d :
  Dict.alter g k (Dict.alter f k d) = Dict.alter (fun v => g (f v)) k d.
Proof.
  induction d as [|[k' v'] r IH]; simpl; [reflexivity|].
  destruct (eq_dec k k') as [->|n]; simpl.
  - destruct (eq_dec k' k'); congruence.
  - destruct (eq_dec k k'); [contradiction | now rewrite IH].
Qed.

Lemma dict_get_del_eq {K V} `{EqDec K} (k : K) (d : list (K * V)) :
  Dict.get k (Dict.del k d) = None.
Proof.
  induction d as [|[k' v'] r IH]; simpl; [reflexivity|].
  destruct (eq_dec k k') as [->|n]; simpl; [exact IH|].
  destruct (eq_dec k k'); [contradiction | exact IH].
Qed.

Lemma dict_get_del_none {K V} `{EqDec K} (k k0 : K) (d : list (K * V)) :
  Dict.get k0 d = None -> Dict.get k0 (Dict.del k d) = None.
Proof.
  induction d as [|[k' v'] r IH]; simpl; [reflexivity|].
  destruct (eq_dec k0 k') as [->|n]; [discriminate|].
  intros E. destruct (eq_dec k k'); simpl; [now apply IH|].
  destruct (eq_dec k0 k'); [contradiction | now apply IH].
Qed.

Lemma dict_get_del_ne {K V} `{EqDec K} (k k0 : K) (d : list (K * V)) :
  k0 <> k -> Dict.get k0 (Dict.del k d) = Dict.get k0 d.
Proof.
  intros ne. induction d as [|[k' v'] r IH]; simpl; [reflexivity|].
  destruct (eq_dec k k') as [<-|n]; simpl.
  - destruct (eq_dec k0 k); [contradiction | exact IH].
  - destruct (eq_dec k0 k'); [reflexivity | exact IH].
Qed.

(** ** The matcher *)

Lemma str_in_In (s : string) (l : list string) : str_in s l = true <-> In s l.
Proof.
  unfold str_in. rewrite existsb_exists. split.
  - intros [x [Hin E]]. apply String.eqb_eq in E. now subst.
  - intros Hin. exists s. split; [exact Hin | apply String.eqb_refl].
Qed.

Lemma is_str_eq (o : option string) (s : string) :
  is_str o s = true <-> o = Some s.
Proof.
  destruct o as [x|]; simpl.
  - rewrite String.eqb_eq. split; congruence.
  - split; discriminate.
Qed.

Lemma consider_eligible (td : TaskDefinition) acc item :
  consider (required_capabilities td) (required_agent_types td) acc item
  = acc ++ (if eligible td (snd item) then [snd item] else []).
Proof.
  unfold consider, eligible.
  destruct (nonempty _ && type_not_in _ _); simpl; [now rewrite app_nil_r|].
  destruct (forallb _ _); simpl; [|now rewrite app_nil_r].
  destruct (is_str _ _); simpl; [|now rewrite app_nil_r].
  destruct (_ <? _); simpl; [reflexivity | now rewrite app_nil_r].
Qed.

Lemma fold_consider (td : TaskDefinition) (items : list (string * Agent)) acc :
  fold_left (consider (required_capabilities td) (required_agent_types td))
            items acc
  = acc ++ filter (eligible td) (Dict.values items).
Proof.
  revert acc. induction items as [|item rest IH]; intros acc; simpl.
  - now rewrite app_nil_r.
  - rewrite IH, consider_eligible, <- app_assoc.
    destruct (eligible td (snd item)); reflexivity.
Qed.

(** The loop of [find_suitable_agents] is a filter over the session's
    agents, in the order the dict holds them. *)
Lemma find_suitable_agents_filter w td session_id session :
  Dict.get session_id (active_sessions w) = Some session ->
  find_suitable_agents w td session_id
  = filter (eligible td) (Dict.values (agents session)).
Proof.
  intros E. unfold find_suitable_agents. rewrite E.
  exact (fold_consider td (agents session) []).
Qed.

Lemma find_suitable_agents_no_session w td session_id :
  Dict.get session_id (active_sessions w) = None ->
  find_suitable_agents w td session_id = [].
Proof. intros E. unfold find_suitable_agents. now rewrite E. Qed.

(** For an agent that has the required capabilities and an allowed type,
    the policy comes down to being idle with spare capacity. *)
Lemma eligible_capable td agent :
  (forall cap, In cap (required_capabilities td) ->
               In cap (get_or (agent_capabilities agent) [])) ->
  (required_agent_types td = [] \/
   exists ty, agent_type agent = Some ty /\ In ty (required_agent_types td)) ->
  eligible td agent = true <->
  agent_status agent = Some "idle" /\ current_tasks agent < max_tasks agent.
Proof.
  intros Hcaps Htype. unfold eligible.
  assert (Ht : nonempty (required_agent_types td)
               && type_not_in agent (required_agent_types td) = false).
  { destruct Htype as [-> | [ty [Ety Hin]]]; [reflexivity|].
    unfold type_not_in. rewrite Ety.
    apply str_in_In in Hin. rewrite Hin. apply andb_false_r. }
  assert (Hc : forallb (fun cap => str_in cap (get_or (agent_capabilities agent) []))
                       (required_capabilities td) = true).
  { apply forallb_forall. intros cap Hin. apply str_in_In. now apply Hcaps. }
  rewrite Ht, Hc. simpl.
  rewrite andb_true_iff, is_str_eq, Z.ltb_lt. reflexivity.
Qed.

(** The capacity test, on the fields of the agent's record. *)
Lemma capacity_on_fields agent :
  current_tasks agent < max_tasks agent <->
  match agent_metadata agent with
  | Some metadata =>
      match currentTasks metadata, maxConcurrentTasks metadata with
      | Some current, Some limit => current < limit
      | Some current, None => current < 1
      | None, Some limit => 0 < limit
      | None, None => 0 < 1
      end
  | None => 0 < 1
  end.
Proof.
  unfold current_tasks, max_tasks.
  destruct (agent_metadata agent) as [[[current|] [limit|]]|]; reflexivity.
Qed.

(** C1. For an agent A of an existing session S that has every capability
    the task T requires and whose type T allows (or T's list of types is
    empty), A is in [find_suitable_agents T S] exactly when A's status is
    idle and the currentTasks of A's metadata is below its
    maxConcurrentTasks, a missing currentTasks counting as 0 and a missing
    maxConcurrentTasks as 1.  The result is the session's agents in dict
    order, filtered: seating one more agent under a new id puts it last. *)
Theorem C1_find_suitable_agents_policy :
  forall (w : World) (T : TaskDefinition) (session_id : string) (session : Session),
    Dict.get session_id (active_sessions w) = Some session ->
    (forall key A,
        In (key, A) (agents session) ->
        (forall cap, In cap (required_capabilities T) ->
                     In cap (get_or (agent_capabilities A) [])) ->
        (required_agent_types T = [] \/
         exists ty, agent_type A = Some ty /\ In ty (required_agent_types T)) ->
        (In A (find_suitable_agents w T session_id) <->
         agent_status A = Some "idle"
         /\ match agent_metadata A with
            | Some metadata =>
                match currentTasks metadata, maxConcurrentTasks metadata with
                | Some current, Some limit => current < limit
                | Some current, None => current < 1
                | None, Some limit => 0 < limit
                | None, None => 0 < 1
                end
            | None => 0 < 1
            end))
    /\ find_suitable_agents w T session_id
       = filter (eligible T) (Dict.values (agents session))
    /\ (forall key A,
           Dict.get key (agents session) = None ->
           find_suitable_agents
             (with_active_sessions
                (Dict.alter (with_agents (Dict.set key A)) session_id) w) T session_id
           = find_suitable_agents w T session_id
               ++ (if eligible T A then [A] else [])).
Proof.
  intros w T session_id session E. rewrite (find_suitable_agents_filter _ _ _ _ E).
  split; [|split].
  - intros key A Hin Hcaps Htype.
    rewrite filter_In, (eligible_capable T A Hcaps Htype), capacity_on_fields.
    split; [tauto|]. intros Hok. split; [|exact Hok].
    unfold Dict.values. change A with (snd (key, A)). now apply in_map.
  - reflexivity.
  - intros key A Hfresh.
    erewrite find_suitable_agents_filter.
    2:{ simpl. rewrite dict_get_alter_eq, E. reflexivity. }
    simpl. rewrite (dict_set_fresh _ _ _ Hfresh).
    unfold Dict.values. rewrite map_app, filter_app. reflexivity.
Qed.

(** ** Running handlers *)

Lemma skipn_length_app {A} (l r : list A) : skipn (List.length l) (l ++ r) = r.
Proof. induction l; simpl; auto. Qed.

Ltac step_handler :=
  unfold bind, modify, get_world, emit, now, timestamp, ret; cbn.

(** Two worlds with the same fields are the same world. *)
Lemma world_ext (w1 w2 : World) :
  active_sessions w1 = active_sessions w2 ->
  registered_agents w1 = registered_agents w2 ->
  server_stats w1 = server_stats w2 ->
  rooms w1 = rooms w2 ->
  outbox w1 = outbox w2 ->
  ticks w1 = ticks w2 ->
  w1 = w2.
Proof. destruct w1, w2. simpl. intros. subst. reflexivity. Qed.

Ltac unfold_world := apply world_ext; cbn.

(** The matcher reads nothing but the agents of the session it is asked
    about. *)
Lemma find_suitable_agents_ext w1 w2 td session_id :
  option_map agents (Dict.get session_id (active_sessions w1))
  = option_map agents (Dict.get session_id (active_sessions w2)) ->
  find_suitable_agents w1 td session_id = find_suitable_agents w2 td session_id.
Proof.
  unfold find_suitable_agents.
  destruct (Dict.get session_id (active_sessions w1)) as [s1|],
           (Dict.get session_id (active_sessions w2)) as [s2|];
    simpl; congruence.
Qed.

(** ** The dispatcher: [start_task] *)

Lemma start_task_session_no_agent sid td task_id session w :
  if_truthy (td_id td) = Some task_id ->
  Dict.get (get_or (td_sessionId td) "default") (active_sessions w) = Some session ->
  find_suitable_agents w td (get_or (td_sessionId td) "default") = [] ->
  exec (start_task sid td) w
  = mkWorld
      (Dict.alter
         (record_submission task_id td (clock (ticks w) * 1000)
                            (clock (S (ticks w)) * 1000))
         (get_or (td_sessionId td) "default") (active_sessions w))
      (registered_agents w)
      (incr_errors (incr_messages_processed (server_stats w)))
      (rooms w)
      (outbox w ++
         [(EvTaskError task_id "No suitable agents found for task"
             (get_or (td_requirements td) no_requirements)
             (List.length (agents session))
             (clock (S (S (ticks w))) * 1000),
           Room (get_or (td_sessionId td) "default"))])
      (S (S (S (ticks w)))).
Proof.
  intros Hid Hs Hm.
  unfold exec, start_task. rewrite Hid.
  step_handler.
  unfold Dict.mem. rewrite Hs. cbn.
  match goal with |- context [find_suitable_agents ?W _ _] =>
    rewrite (find_suitable_agents_ext W w) end.
  2:{ cbn. rewrite !dict_alter_alter, dict_get_alter_eq, Hs. reflexivity. }
  rewrite Hm. cbn. unfold available_agents. cbn.
  rewrite !dict_alter_alter, dict_get_alter_eq, Hs. cbn.
  unfold_world; rewrite ?dict_alter_alter; reflexivity.
Qed.

Lemma start_task_no_session sid td task_id w :
  if_truthy (td_id td) = Some task_id ->
  Dict.get (get_or (td_sessionId td) "default") (active_sessions w) = None ->
  exec (start_task sid td) w
  = mkWorld
      (active_sessions w)
      (registered_agents w)
      (incr_errors (incr_messages_processed (server_stats w)))
      (rooms w)
      (outbox w ++
         [(EvTaskError task_id "No suitable agents found for task"
             (get_or (td_requirements td) no_requirements)
             O
             (clock (ticks w) * 1000),
           Room (get_or (td_sessionId td) "default"))])
      (S (ticks w)).
Proof.
  intros Hid Hs.
  unfold exec, start_task. rewrite Hid.
  step_handler.
  unfold Dict.mem. rewrite Hs. cbn.
  rewrite find_suitable_agents_no_session by exact Hs.
  cbn. unfold available_agents. cbn. rewrite Hs. reflexivity.
Qed.

Lemma start_task_one_agent sid td task_id first_agent others w :
  if_truthy (td_id td) = Some task_id ->
  (get_or (td_collaborationMode td) "sequential" =? "parallel")%string = false ->
  find_suitable_agents w td (get_or (td_sessionId td) "default")
  = first_agent :: others ->
  exec (start_task sid td) w
  = mkWorld
      (Dict.alter
         (record_submission task_id td (clock (ticks w) * 1000)
                            (clock (S (ticks w)) * 1000))
         (get_or (td_sessionId td) "default") (active_sessions w))
      (registered_agents w)
      (incr_messages_processed (server_stats w))
      (rooms w)
      (outbox w ++
         [(EvTaskAssigned task_id (agent_id first_agent) "sequential" td
             (clock (S (S (ticks w))) * 1000),
           Room (get_or (td_sessionId td) "default"))])
      (S (S (S (ticks w)))).
Proof.
  intros Hid Hmode Hm.
  destruct (Dict.get (get_or (td_sessionId td) "default") (active_sessions w))
    as [session|] eqn:Hs.
  2:{ rewrite find_suitable_agents_no_session in Hm by exact Hs. discriminate. }
  unfold exec, start_task. rewrite Hid.
  step_handler.
  unfold Dict.mem. rewrite Hs. cbn.
  match goal with |- context [find_suitable_agents ?W _ _] =>
    rewrite (find_suitable_agents_ext W w) end.
  2:{ cbn. rewrite !dict_alter_alter, dict_get_alter_eq, Hs. reflexivity. }
  rewrite Hm, Hmode. cbn.
  unfold_world; rewrite ?dict_alter_alter; reflexivity.
Qed.

(** C2 (amended). When [start_task] is called on a task that has an
    identifier, whose session exists, and for which the matcher finds no
    suitable agent: exactly one event goes out, a task-error to the
    session's room carrying the task id, the requirements and the number of
    agents in the session (so no task-assigned event); the server-wide
    error counter and the session's totalTasks each grow by one; and the
    task stays recorded with status started, since no handler ever moves a
    stored task to another status. *)
Theorem C2_start_task_without_suitable_agent :
  forall (sid : string) (td : TaskDefinition) (task_id : string)
         (session : Session) (w : World),
    let session_id := get_or (td_sessionId td) "default" in
    let w' := exec (start_task sid td) w in
    if_truthy (td_id td) = Some task_id ->
    Dict.get session_id (active_sessions w) = Some session ->
    find_suitable_agents w td session_id = [] ->
    emitted (start_task sid td) w
    = [(EvTaskError task_id "No suitable agents found for task"
          (get_or (td_requirements td) no_requirements)
          (List.length (agents session))
          (clock (S (S (ticks w))) * 1000),
        Room session_id)]
    /\ (exists session',
           Dict.get session_id (active_sessions w') = Some session'
           /\ option_map task_status (Dict.get task_id (tasks session'))
              = Some "started"
           /\ totalTasks (metrics session') = totalTasks (metrics session) + 1)
    /\ errors (server_stats w') = errors (server_stats w) + 1.
Proof.
  intros sid td task_id session w session_id w' Hid Hs Hm.
  subst w'. unfold emitted.
  rewrite (start_task_session_no_agent sid td task_id session w Hid Hs Hm).
  cbn. split; [apply skipn_length_app|]. split; [|reflexivity].
  exists (record_submission task_id td (clock (ticks w) * 1000)
            (clock (S (ticks w)) * 1000) session).
  split.
  - fold session_id. rewrite dict_get_alter_eq. fold session_id in Hs.
    now rewrite Hs.
  - cbn. rewrite dict_get_set_eq. split; reflexivity.
Qed.

(** C3 (amended). When [start_task] is called on a task that has an
    identifier but whose sessionId names no existing session, no session is
    created and the task is recorded nowhere: the session table is left as
    it was.  The matcher finds nothing, so the call ends in one task-error
    event that reports zero available agents, and the server-wide counters
    of messages and errors each grow by one. *)
Theorem C3_start_task_unknown_session :
  forall (sid : string) (td : TaskDefinition) (task_id : string) (w : World),
    let session_id := get_or (td_sessionId td) "default" in
    let w' := exec (start_task sid td) w in
    if_truthy (td_id td) = Some task_id ->
    Dict.get session_id (active_sessions w) = None ->
    active_sessions w' = active_sessions w
    /\ emitted (start_task sid td) w
       = [(EvTaskError task_id "No suitable agents found for task"
             (get_or (td_requirements td) no_requirements)
             O (clock (ticks w) * 1000),
           Room session_id)]
    /\ messages_processed (server_stats w')
       = messages_processed (server_stats w) + 1
    /\ errors (server_stats w') = errors (server_stats w) + 1.
Proof.
  intros sid td task_id w session_id w' Hid Hs.
  subst w'. unfold emitted.
  rewrite (start_task_no_session sid td task_id w Hid Hs).
  cbn. repeat split. apply skipn_length_app.
Qed.

(** C5. When [start_task] is called with collaboration mode sequential, or
    with none (sequential is the default), and the matcher's result is not
    empty, exactly one event goes out: a task-assigned event that names the
    first agent of the matcher's result. *)
Theorem C5_sequential_assigns_first_agent :
  forall (sid : string) (td : TaskDefinition) (task_id : string)
         (first_agent : Agent) (others : list Agent) (w : World),
    let session_id := get_or (td_sessionId td) "default" in
    if_truthy (td_id td) = Some task_id ->
    td_collaborationMode td = None \/ td_collaborationMode td = Some "sequential" ->
    find_suitable_agents w td session_id = first_agent :: others ->
    emitted (start_task sid td) w
    = [(EvTaskAssigned task_id (agent_id first_agent) "sequential" td
          (clock (S (S (ticks w))) * 1000),
        Room session_id)].
Proof.
  intros sid td task_id first_agent others w session_id Hid Hmode Hm.
  unfold emitted.
  rewrite (start_task_one_agent sid td task_id first_agent others w Hid).
  - cbn. apply skipn_length_app.
  - destruct Hmode as [-> | ->]; reflexivity.
  - exact Hm.
Qed.

(** ** Progress reports: [agent_progress] *)

Lemma dict_get_alter_proj {K V W} `{EqDec K} (g : V -> W) (f : V -> V)
  (k k0 : K) d :
  (forall v, g (f v) = g v) ->
  option_map g (Dict.get k0 (Dict.alter f k d)) = option_map g (Dict.get k0 d).
Proof.
  intros Hg. destruct (eq_dec k0 k) as [->|ne].
  - rewrite dict_get_alter_eq. destruct (Dict.get k d); simpl; [|reflexivity].
    now rewrite Hg.
  - now rewrite dict_get_alter_ne.
Qed.

Lemma agent_progress_skipped sid pd w :
  Dict.get (get_or (pd_sessionId pd) "default") (active_sessions w) = None
  \/ if_truthy (pd_taskId pd) = None ->
  exec (agent_progress sid pd) w
  = mkWorld (active_sessions w) (registered_agents w)
      (incr_messages_processed (server_stats w)) (rooms w)
      (outbox w ++
         [(EvTaskProgress (get_or (pd_sessionId pd) "default") pd environment
             (clock (ticks w) * 1000) (clock (S (ticks w)) * 1000),
           Room (get_or (pd_sessionId pd) "default"))])
      (S (S (ticks w))).
Proof.
  intros Hskip. unfold exec, agent_progress. step_handler.
  destruct (Dict.get (get_or (pd_sessionId pd) "default") (active_sessions w))
    as [session|] eqn:Hs.
  - destruct Hskip as [Hno | Hno]; [discriminate|]. rewrite Hno. reflexivity.
  - reflexivity.
Qed.

Lemma agent_progress_untracked sid pd session task_id w :
  Dict.get (get_or (pd_sessionId pd) "default") (active_sessions w) = Some session ->
  if_truthy (pd_taskId pd) = Some task_id ->
  Dict.get task_id (tasks session) = None ->
  exec (agent_progress sid pd) w
  = mkWorld
      (Dict.alter
         (touch_session (is_str (pd_status pd) "completed")
                        (clock (ticks w) * 1000))
         (get_or (pd_sessionId pd) "default") (active_sessions w))
      (registered_agents w)
      (if is_str (pd_status pd) "completed"
       then incr_tasks_completed (incr_messages_processed (server_stats w))
       else incr_messages_processed (server_stats w))
      (rooms w)
      (outbox w ++
         [(EvTaskProgress (get_or (pd_sessionId pd) "default") pd environment
             (clock (S (ticks w)) * 1000) (clock (S (S (ticks w))) * 1000),
           Room (get_or (pd_sessionId pd) "default"))])
      (S (S (S (ticks w)))).
Proof.
  intros Hs Hid Hk. unfold exec, agent_progress. step_handler.
  rewrite Hs, Hid. unfold Dict.mem. rewrite Hk. cbn.
  unfold touch_session.
  destruct (is_str (pd_status pd) "completed"); cbn; unfold_world;
    rewrite ?dict_alter_alter; reflexivity.
Qed.

(** C4 (amended). A progress report whose sessionId and taskId identify no
    stored task is still broadcast to the session's room as one
    task-progress event, the payload with two server timestamps, and no
    task record of any session is touched.  When the session does not
    exist or the report has no task id, the session table stays as it was;
    when the session exists and the report has a task id, that session's
    lastActivity is refreshed, every other session stays as it was and,
    unless the reported status is completed, nothing else of the session
    changes. *)
Theorem C4_agent_progress_without_stored_task :
  forall (sid : string) (pd : ProgressData) (w : World),
    let session_id := get_or (pd_sessionId pd) "default" in
    let w' := exec (agent_progress sid pd) w in
    stored_task w session_id (pd_taskId pd) = None ->
    (exists n,
        emitted (agent_progress sid pd) w
        = [(EvTaskProgress session_id pd environment
              (clock n * 1000) (clock (S n) * 1000),
            Room session_id)]
        /\ ticks w' = S (S n))
    /\ (forall k,
           option_map tasks (Dict.get k (active_sessions w'))
           = option_map tasks (Dict.get k (active_sessions w)))
    /\ (Dict.get session_id (active_sessions w) = None
         \/ if_truthy (pd_taskId pd) = None ->
         active_sessions w' = active_sessions w)
    /\ (forall session task_id,
           Dict.get session_id (active_sessions w) = Some session ->
           if_truthy (pd_taskId pd) = Some task_id ->
           (exists session',
               Dict.get session_id (active_sessions w') = Some session'
               /\ lastActivity session' = (clock (ticks w) * 1000)%Q
               /\ (is_str (pd_status pd) "completed" = false ->
                    session' = set_lastActivity (clock (ticks w) * 1000) session))
           /\ (forall k, k <> session_id ->
                  Dict.get k (active_sessions w') = Dict.get k (active_sessions w))).
Proof.
  intros sid pd w session_id w' Hnone. subst w'. unfold emitted.
  destruct (Dict.get session_id (active_sessions w)) as [session|] eqn:Hs.
  2:{ rewrite (agent_progress_skipped sid pd w) by (left; exact Hs). cbn.
      split; [exists (ticks w); split; [apply skipn_length_app | reflexivity]|].
      split; [reflexivity|]. split; [reflexivity|]. intros; discriminate. }
  destruct (if_truthy (pd_taskId pd)) as [task_id|] eqn:Hid.
  2:{ rewrite (agent_progress_skipped sid pd w) by (right; exact Hid). cbn.
      split; [exists (ticks w); split; [apply skipn_length_app | reflexivity]|].
      split; [reflexivity|]. split; [reflexivity|]. intros; discriminate. }
  assert (Hk : Dict.get task_id (tasks session) = None).
  { unfold stored_task in Hnone. rewrite Hs in Hnone.
    unfold if_truthy in Hid. destruct (pd_taskId pd) as [t|]; [|discriminate].
    destruct (truthy t); [|discriminate]. now injection Hid as <-. }
  rewrite (agent_progress_untracked sid pd session task_id w Hs Hid Hk). cbn.
  split; [exists (S (ticks w)); split; [apply skipn_length_app | reflexivity]|].
  split.
  { intros k. apply dict_get_alter_proj. intros v. unfold touch_session.
    destruct (is_str _ _); reflexivity. }
  split; [intros [Hno | Hno]; discriminate|].
  intros session0 task_id0 [= <-] _. split.
  - exists (touch_session (is_str (pd_status pd) "completed")
              (clock (ticks w) * 1000) session).
    fold session_id. rewrite dict_get_alter_eq, Hs. split; [reflexivity|].
    unfold touch_session. destruct (is_str _ _); split; try reflexivity.
    discriminate.
  - intros k ne. fold session_id. now apply dict_get_alter_ne.
Qed.

(** ** The collaboration router: [collaboration_request] *)

(** The search loop finds what a lookup by key finds. *)
Lemma find_target_socket_get target items :
  find_target_socket target items = option_map socket_id (Dict.get target items).
Proof.
  induction items as [|[agent_id agent] rest IH]; simpl; [reflexivity|].
  destruct (eq_dec target agent_id) as [->|ne].
  - now rewrite String.eqb_refl.
  - destruct (String.eqb_spec agent_id target); [congruence | exact IH].
Qed.



(** ** Disconnection cleanup: [disconnect] *)

Lemma dict_del_absent {K V} `{EqDec K} (k : K) (d : list (K * V)) :
  Dict.get k d = None -> Dict.del k d = d.
Proof.
  unfold Dict.del.
  induction d as [|[k' v'] r IH]; simpl; [reflexivity|].
  destruct (eq_dec k k'); [discriminate|].
  intros E. now rewrite IH.
Qed.

Lemma dict_mem_del_ne {K V} `{EqDec K} (k k0 : K) (d : list (K * V)) :
  k0 <> k -> Dict.mem k0 (Dict.del k d) = Dict.mem k0 d.
Proof. intros ne. unfold Dict.mem. now rewrite dict_get_del_ne. Qed.

Lemma drop_agent_absent agent_id item :
  Dict.mem agent_id (agents (snd item)) = false ->
  drop_agent agent_id item = item.
Proof.
  destruct item as [k s]. unfold drop_agent, Dict.mem. simpl.
  destruct (Dict.get agent_id (agents s)) eqn:E; [discriminate|]. intros _.
  f_equal. destruct s; unfold with_agents; simpl in *.
  now rewrite (dict_del_absent _ _ E).
Qed.

Lemma unregistered_events_app p1 p2 n :
  unregistered_events (p1 ++ p2) n
  = unregistered_events p1 n ++ unregistered_events p2 (List.length p1 + n).
Proof.
  revert n. induction p1 as [|[k a] r IH]; intros n; simpl; [reflexivity|].
  now rewrite IH, Nat.add_succ_r.
Qed.

(** The loop over the session table, for one agent. *)
Lemma for_items_unregister agent_id sessions : forall w,
  for_items sessions (unregister_from agent_id) w
  = (map (drop_agent agent_id) sessions,
     mkWorld (active_sessions w) (registered_agents w) (server_stats w)
       (rooms w)
       (outbox w ++
          unregistered_events
            (map (fun session_id => (session_id, agent_id))
                 (sessions_listing agent_id sessions))
            (ticks w))
       (List.length (sessions_listing agent_id sessions) + ticks w)).
Proof.
  induction sessions as [|[k s] rest IH]; intros w.
  - simpl. rewrite app_nil_r. now destruct w.
  - simpl. unfold bind at 1. unfold unregister_from at 1.
    unfold sessions_listing. simpl.
    destruct (Dict.mem agent_id (agents s)) eqn:Hm.
    + step_handler. unfold bind. rewrite IH. cbn.
      unfold sessions_listing. rewrite <- app_assoc, Nat.add_succ_r.
      reflexivity.
    + step_handler. unfold bind. rewrite IH. cbn.
      rewrite (drop_agent_absent agent_id (k, s) Hm). reflexivity.
Qed.

Lemma remove_agent_exec agent_id w :
  exec (remove_agent agent_id) w
  = mkWorld (map (drop_agent agent_id) (active_sessions w))
      (Dict.del agent_id (registered_agents w)) (server_stats w) (rooms w)
      (outbox w ++
         unregistered_events
           (map (fun session_id => (session_id, agent_id))
                (sessions_listing agent_id (active_sessions w)))
           (ticks w))
      (List.length (sessions_listing agent_id (active_sessions w)) + ticks w).
Proof.
  unfold exec, remove_agent. unfold bind, modify, get_world. cbn.
  rewrite for_items_unregister. reflexivity.
Qed.

Lemma sessions_listing_drop a a' sessions :
  a' <> a ->
  sessions_listing a' (map (drop_agent a) sessions) = sessions_listing a' sessions.
Proof.
  intros ne. unfold sessions_listing, Dict.keys.
  induction sessions as [|[k s] rest IH]; simpl; [reflexivity|].
  rewrite (dict_mem_del_ne a a' (agents s) ne).
  destruct (Dict.mem a' (agents s)); simpl; now rewrite IH.
Qed.

Lemma listing_pairs_drop a l sessions :
  ~ In a l ->
  listing_pairs l (map (drop_agent a) sessions) = listing_pairs l sessions.
Proof.
  unfold listing_pairs. induction l as [|a' r IH]; simpl; [reflexivity|].
  intros Hn. rewrite IH by tauto.
  rewrite sessions_listing_drop by (intros ->; tauto). reflexivity.
Qed.

(** The table and the registry after a list of agents is dropped. *)
Lemma for_each_remove_agent l : forall w,
  NoDup l ->
  exec (for_each l remove_agent) w
  = mkWorld
      (fold_left (fun ss a => map (drop_agent a) ss) l (active_sessions w))
      (fold_left (fun d a => Dict.del a d) l (registered_agents w))
      (server_stats w) (rooms w)
      (outbox w ++ unregistered_events (listing_pairs l (active_sessions w)) (ticks w))
      (List.length (listing_pairs l (active_sessions w)) + ticks w).
Proof.
  induction l as [|a r IH]; intros w Hnd.
  - unfold exec. simpl. rewrite app_nil_r. now destruct w.
  - inversion Hnd as [|? ? Hna Hr]; subst.
    unfold exec in *. simpl. unfold bind at 1.
    pose proof (remove_agent_exec a w) as Ha. unfold exec in Ha.
    destruct (remove_agent a w) as [[] w1]. simpl in Ha. subst w1.
    rewrite IH by exact Hr. cbn.
    rewrite (listing_pairs_drop a r _ Hna).
    unfold listing_pairs at 3 4. simpl. fold (listing_pairs r (active_sessions w)).
    rewrite unregistered_events_app, <- app_assoc, !length_app, !length_map.
    rewrite Nat.add_assoc, (Nat.add_comm (List.length (listing_pairs _ _))).
    reflexivity.
Qed.

Lemma NoDup_keys_filter {K V} (p : K * V -> bool) (d : list (K * V)) :
  NoDup (map fst d) -> NoDup (map fst (filter p d)).
Proof.
  induction d as [|kv r IH]; simpl; [constructor|].
  intros Hnd. inversion Hnd as [|? ? Hn Hr]; subst.
  destruct (p kv); simpl; [|now apply IH].
  constructor; [|now apply IH].
  intros Hin. apply Hn. apply in_map_iff in Hin as [x [E Hx]].
  apply filter_In in Hx as [Hx _]. rewrite <- E. now apply in_map.
Qed.

Lemma agents_to_remove_NoDup w sid :
  Dict.wf (registered_agents w) -> NoDup (agents_to_remove w sid).
Proof. apply NoDup_keys_filter. Qed.

Lemma agents_to_remove_In w sid a :
  In a (agents_to_remove w sid) <->
  exists agent, In (a, agent) (registered_agents w) /\ socket_id agent = sid.
Proof.
  unfold agents_to_remove. rewrite in_map_iff. split.
  - intros [[k agent] [E Hin]]. simpl in E. subst k.
    apply filter_In in Hin as [Hin Hs]. simpl in Hs.
    apply String.eqb_eq in Hs. now exists agent.
  - intros [agent [Hin Hs]]. exists (a, agent). split; [reflexivity|].
    apply filter_In. split; [exact Hin|]. simpl. now apply String.eqb_eq.
Qed.

Lemma fold_del_none {K V} `{EqDec K} (l : list K) : forall (d : list (K * V)) a,
  Dict.get a d = None -> Dict.get a (fold_left (fun d a => Dict.del a d) l d) = None.
Proof.
  induction l as [|x r IH]; intros d a E; simpl; [exact E|].
  apply IH. now apply dict_get_del_none.
Qed.

Lemma fold_del_gone {K V} `{EqDec K} (l : list K) : forall (d : list (K * V)) a,
  In a l -> Dict.get a (fold_left (fun d a => Dict.del a d) l d) = None.
Proof.
  induction l as [|x r IH]; intros d a Hin; simpl; [contradiction|].
  destruct Hin as [-> | Hin].
  - apply fold_del_none, dict_get_del_eq.
  - now apply IH.
Qed.

Lemma fold_drop_agents l : forall sessions,
  fold_left (fun ss a => map (drop_agent a) ss) l sessions
  = map (fun item =>
           (fst item,
            with_agents (fun d => fold_left (fun d a => Dict.del a d) l d)
                        (snd item)))
        sessions.
Proof.
  induction l as [|a r IH]; intros sessions; simpl.
  - rewrite <- (map_id sessions) at 1. apply map_ext.
    intros [k s]. simpl. now destruct s.
  - rewrite IH, map_map. apply map_ext. intros [k s]. reflexivity.
Qed.

Lemma disconnect_exec sid w :
  exec (disconnect sid) w
  = exec (for_each (agents_to_remove w sid) remove_agent)
         (with_server_stats
            (fun st => set_connections (Z.max 0 (connections st - 1)) st) w).
Proof. reflexivity. Qed.

Lemma sessions_listing_In a sessions k :
  In k (sessions_listing a sessions) <->
  exists s, In (k, s) sessions /\ Dict.mem a (agents s) = true.
Proof.
  unfold sessions_listing, Dict.keys. rewrite in_map_iff. split.
  - intros [[k' s] [E Hin]]. simpl in E. subst k'.
    apply filter_In in Hin. now exists s.
  - intros [s [Hin Hm]]. exists (k, s). split; [reflexivity|].
    now apply filter_In.
Qed.

Lemma listing_pairs_In l sessions k a :
  In (k, a) (listing_pairs l sessions) <->
  In a l /\ exists s, In (k, s) sessions /\ Dict.mem a (agents s) = true.
Proof.
  unfold listing_pairs. rewrite in_flat_map. split.
  - intros [a' [Hl Hin]]. apply in_map_iff in Hin as [k' [[= -> ->] Hk]].
    split; [exact Hl|]. now apply sessions_listing_In.
  - intros [Hl Hs]. exists a. split; [exact Hl|].
    apply in_map_iff. exists k. split; [reflexivity|].
    now apply sessions_listing_In.
Qed.

Lemma NoDup_map_injective {A B} (f : A -> B) (l : list A) :
  (forall x y, f x = f y -> x = y) -> NoDup l -> NoDup (map f l).
Proof.
  intros Hinj. induction 1 as [|x r Hn Hr IH]; simpl; constructor; [|exact IH].
  intros Hin. apply in_map_iff in Hin as [y [E Hy]].
  apply Hinj in E. now subst.
Qed.

Lemma listing_pairs_NoDup l sessions :
  NoDup l -> Dict.wf sessions -> NoDup (listing_pairs l sessions).
Proof.
  intros Hl Hs. unfold listing_pairs.
  induction Hl as [|a r Hna Hr IH]; simpl; [constructor|].
  apply NoDup_app.
  - apply NoDup_map_injective.
    + intros x y [= ->]. reflexivity.
    + unfold sessions_listing. now apply NoDup_keys_filter.
  - exact IH.
  - intros [k a'] Hin1 Hin2.
    apply in_map_iff in Hin1 as [k' [E _]]. injection E as -> <-.
    apply (listing_pairs_In r sessions k a) in Hin2 as [Hin2 _].
    contradiction.
Qed.

(** C7. When a connection disconnects, for every agent the registry
    held for it (the removed agents): the registry holds no record under
    that id any more, no session lists it any more, and the events that go
    out are one agent-unregistered event, with reason disconnection, to
    the session's room, for each pair of a session and a removed agent the
    session listed, each pair once. *)
Theorem C7_disconnect_cleanup :
  forall (sid : string) (w : World),
    Dict.wf (registered_agents w) ->
    Dict.wf (active_sessions w) ->
    let w' := exec (disconnect sid) w in
    let removed := agents_to_remove w sid in
    let pairs := listing_pairs removed (active_sessions w) in
    (forall a, In a removed <->
               exists agent, In (a, agent) (registered_agents w)
                             /\ socket_id agent = sid)
    /\ (forall a, In a removed -> Dict.get a (registered_agents w') = None)
    /\ (forall a k s', In a removed -> In (k, s') (active_sessions w') ->
                       Dict.get a (agents s') = None)
    /\ emitted (disconnect sid) w = unregistered_events pairs (ticks w)
    /\ NoDup pairs
    /\ (forall k a, In (k, a) pairs <->
                    In a removed /\
                    exists s, In (k, s) (active_sessions w)
                              /\ Dict.mem a (agents s) = true).
Proof.
  intros sid w Hreg Hss w' removed pairs. subst w' pairs removed.
  pose proof (agents_to_remove_NoDup w sid Hreg) as Hnd.
  unfold emitted. rewrite disconnect_exec.
  rewrite (for_each_remove_agent _ _ Hnd). cbn.
  split; [apply agents_to_remove_In|].
  split; [intros a Hin; now apply fold_del_gone|].
  split.
  { intros a k s' Hin Hs'. rewrite fold_drop_agents in Hs'.
    apply in_map_iff in Hs' as [[k0 s0] [[= <- <-] _]].
    simpl. now apply fold_del_gone. }
  split; [apply skipn_length_app|].
  split; [now apply listing_pairs_NoDup|].
  intros k a. apply listing_pairs_In.
Qed.

(** ** Joining a session: [join_session] *)

Lemma dict_get_keys {K V} `{EqDec K} (k : K) (d : list (K * V)) :
  Dict.get k d <> None <-> In k (Dict.keys d).
Proof.
  unfold Dict.keys. induction d as [|[k' v'] r IH]; simpl; [tauto|].
  destruct (eq_dec k k') as [->|ne].
  - split; [now left | congruence].
  - rewrite IH. split; [tauto|]. intros [E | Hin]; [congruence | exact Hin].
Qed.

Lemma dict_keys_set {K V} `{EqDec K} (k : K) (v : V) d :
  Dict.keys (Dict.set k v d)
  = if Dict.mem k d then Dict.keys d else Dict.keys d ++ [k].
Proof.
  unfold Dict.mem. destruct (Dict.get k d) eqn:E.
  - apply dict_keys_set_present. congruence.
  - rewrite (dict_set_fresh _ _ _ E). unfold Dict.keys. now rewrite map_app.
Qed.

Lemma dict_wf_set {K V} `{EqDec K} (k : K) (v : V) d :
  Dict.wf d -> Dict.wf (Dict.set k v d).
Proof.
  unfold Dict.wf. rewrite dict_keys_set. unfold Dict.mem.
  destruct (Dict.get k d) eqn:E; [tauto|].
  intros Hnd. apply NoDup_app; [exact Hnd | repeat constructor; tauto |].
  intros a Hin [<- | []]. apply dict_get_keys in Hin. congruence.
Qed.

Lemma if_truthy_some s : truthy s = true -> if_truthy (Some s) = Some s.
Proof. intros E. simpl. now rewrite E. Qed.

(** The session table and the clock after a join of an existing session. *)
Lemma join_session_existing sid session_id session w :
  truthy session_id = true ->
  Dict.get session_id (active_sessions w) = Some session ->
  let w' := exec (join_session sid (Some session_id)) w in
  active_sessions w'
  = Dict.alter (set_lastActivity (clock (ticks w) * 1000)) session_id
               (active_sessions w)
  /\ ticks w' = S (ticks w).
Proof.
  intros Ht Hs. unfold exec, join_session. rewrite (if_truthy_some _ Ht).
  unfold enter_room. step_handler. unfold Dict.mem. rewrite Hs. cbn.
  rewrite dict_get_alter_eq, Hs. cbn. split; reflexivity.
Qed.

Lemma dict_alter_last {K V} `{EqDec K} (f : V -> V) (k : K) (v : V) d :
  Dict.get k d = None ->
  Dict.alter f k (d ++ [(k, v)]) = d ++ [(k, f v)].
Proof.
  induction d as [|[k' v'] r IH]; simpl.
  - destruct (eq_dec k k); [reflexivity | congruence].
  - destruct (eq_dec k k'); [discriminate|]. intros E. now rewrite IH.
Qed.

Lemma dict_get_last {K V} `{EqDec K} (k : K) (v : V) d :
  Dict.get k d = None -> Dict.get k (d ++ [(k, v)]) = Some v.
Proof.
  induction d as [|[k' v'] r IH]; simpl.
  - destruct (eq_dec k k); [reflexivity | congruence].
  - destruct (eq_dec k k'); [discriminate | exact IH].
Qed.

(** The session table and the clock after a join that creates the session. *)
Lemma join_session_new sid session_id w :
  truthy session_id = true ->
  Dict.get session_id (active_sessions w) = None ->
  let w' := exec (join_session sid (Some session_id)) w in
  active_sessions w'
  = active_sessions w
      ++ [(session_id,
           new_session session_id (clock (ticks w) * 1000)
                       (clock (S (S (ticks w))) * 1000))]
  /\ ticks w' = S (S (S (ticks w))).
Proof.
  intros Ht Hs. unfold exec, join_session. rewrite (if_truthy_some _ Ht).
  unfold enter_room. step_handler. unfold Dict.mem. rewrite Hs. cbn.
  rewrite dict_get_alter_eq, dict_get_set_eq. cbn.
  rewrite (dict_set_fresh _ _ _ Hs), (dict_alter_last _ _ _ _ Hs).
  split; reflexivity.
Qed.

(** C8. Two calls of [join_session] in a row, by one connection and with
    the same non-empty session id, leave one session record under that id:
    the second call adds no key to the session table, the record's
    createdAt is what the first call left, and each call stamps
    lastActivity with the clock reading it makes last, the second call
    with a reading made after the first call returned. *)
Theorem C8_join_session_twice :
  forall (sid session_id : string) (w : World),
    truthy session_id = true ->
    let w1 := exec (join_session sid (Some session_id)) w in
    let w2 := exec (join_session sid (Some session_id)) w1 in
    exists s1 s2,
      Dict.get session_id (active_sessions w1) = Some s1
      /\ Dict.get session_id (active_sessions w2) = Some s2
      /\ Dict.keys (active_sessions w2) = Dict.keys (active_sessions w1)
      /\ createdAt s2 = createdAt s1
      /\ lastActivity s1 = (clock (pred (ticks w1)) * 1000)%Q
      /\ lastActivity s2 = (clock (pred (ticks w2)) * 1000)%Q
      /\ ticks w2 = S (ticks w1)
      /\ (Dict.wf (active_sessions w) ->
          count_occ string_dec (Dict.keys (active_sessions w2)) session_id
          = 1%nat).
Proof.
  intros sid session_id w Ht w1 w2.
  assert (H1 : exists s1,
             Dict.get session_id (active_sessions w1) = Some s1
             /\ lastActivity s1 = (clock (pred (ticks w1)) * 1000)%Q
             /\ (Dict.wf (active_sessions w) -> Dict.wf (active_sessions w1))).
  { subst w1.
    destruct (Dict.get session_id (active_sessions w)) as [s|] eqn:Hs.
    - destruct (join_session_existing sid session_id s w Ht Hs) as [-> ->].
      rewrite dict_get_alter_eq, Hs. simpl. eexists.
      split; [reflexivity|]. split; [reflexivity|].
      unfold Dict.wf. now rewrite dict_keys_alter.
    - destruct (join_session_new sid session_id w Ht Hs) as [-> ->].
      rewrite (dict_get_last _ _ _ Hs). eexists.
      split; [reflexivity|]. split; [reflexivity|].
      rewrite <- (dict_set_fresh _ _ _ Hs). apply dict_wf_set. }
  destruct H1 as [s1 [Hs1 [Hl1 Hwf]]].
  destruct (join_session_existing sid session_id s1 w1 Ht Hs1) as [Hss Htk].
  fold w2 in Hss, Htk.
  exists s1, (set_lastActivity (clock (ticks w1) * 1000) s1).
  rewrite Hss, Htk, dict_get_alter_eq, Hs1, dict_keys_alter. simpl.
  repeat split; try assumption.
  intros Hw. apply NoDup_count_occ'; [now apply Hwf|].
  apply dict_get_keys. congruence.
Qed.

(** ** Server statistics: [health_check] *)

Lemma triple_bind {A B} (P R Q : World -> Prop) (m : M A) (k : A -> M B) :
  triple P m R -> (forall a, triple R (k a) Q) -> triple P (bind m k) Q.
Proof.
  intros Hm Hk w H. unfold exec, bind. specialize (Hm w H). unfold exec in Hm.
  destruct (m w) as [a w1]. exact (Hk a w1 Hm).
Qed.

Lemma triple_weaken {A} (P Q : World -> Prop) (m : M A) :
  preserves P m -> (forall w, P w -> Q w) -> triple P m Q.
Proof. intros Hm Hq w H. apply Hq, Hm, H. Qed.

Lemma preserves_ret {A} (P : World -> Prop) (a : A) : preserves P (ret a).
Proof. intros w H. exact H. Qed.

Lemma preserves_get_world (P : World -> Prop) : preserves P get_world.
Proof. intros w H. exact H. Qed.

Lemma preserves_bind {A B} (P : World -> Prop) (m : M A) (k : A -> M B) :
  preserves P m -> (forall a, preserves P (k a)) -> preserves P (bind m k).
Proof. apply triple_bind. Qed.

Lemma preserves_for_each {A} (P : World -> Prop) (l : list A) (body : A -> M unit) :
  (forall x, preserves P (body x)) -> preserves P (for_each l body).
Proof.
  intros Hb. induction l as [|x r IH]; simpl.
  - apply preserves_ret.
  - apply preserves_bind; [apply Hb | intros _; exact IH].
Qed.

Lemma preserves_for_items {A} (P : World -> Prop) (l : list A) (body : A -> M A) :
  (forall x, preserves P (body x)) -> preserves P (for_items l body).
Proof.
  intros Hb. induction l as [|x r IH]; simpl.
  - apply preserves_ret.
  - apply preserves_bind; [apply Hb | intros y].
    apply preserves_bind; [exact IH | intros r']. apply preserves_ret.
Qed.

Ltac stats_step :=
  let w := fresh "w" in
  let H := fresh "H" in
  intros w H; unfold stats_ok, stats_pending in *; cbn in *; lia.

Ltac keep_step leaf :=
  match goal with
  | |- preserves _ _ => unfold preserves
  | |- triple _ (bind _ _) _ => apply preserves_bind; [|intro]
  | |- triple _ (ret _) _ => apply preserves_ret
  | |- triple _ get_world _ => apply preserves_get_world
  | |- triple _ (for_each _ _) _ => apply preserves_for_each; intro
  | |- triple _ (for_items _ _) _ => apply preserves_for_items; intro
  | |- triple _ (let _ := _ in _) _ => cbv zeta
  | |- triple _ (if ?b then _ else _) _ => destruct b
  | |- triple _ (match ?x with _ => _ end) _ => destruct x
  | |- triple _ (modify _) _ => leaf
  | |- triple _ timestamp _ => leaf
  end.

Ltac keep_with leaf :=
  unfold discard, now, emit, enter_room, sio_disconnect;
  repeat keep_step leaf.

Ltac keep := keep_with stats_step.

Lemma start_task_stats_ok sid td : preserves stats_ok (start_task sid td).
Proof.
  unfold start_task.
  destruct (if_truthy (td_id td)) as [task_id|]; [|keep].
  apply triple_bind with (R := stats_pending); [stats_step | intros _].
  apply triple_bind with (R := stats_pending); [keep | intros w1].
  apply triple_bind with (R := stats_pending); [keep | intros _].
  apply triple_bind with (R := stats_pending); [keep | intros w2].
  destruct (find_suitable_agents w2 td _) as [|first_agent others].
  - apply triple_bind with (R := stats_pending); [keep | intros w3].
    apply triple_bind with (R := stats_pending); [keep | intros t].
    apply triple_bind with (R := stats_pending); [keep | intros _].
    stats_step.
  - apply triple_weaken; [keep | unfold stats_pending, stats_ok; intros; lia].
Qed.

Lemma simulate_steps_stats_ok session_id agent_id task_id todo :
  forall i elapsed_time,
    preserves stats_ok
      (simulate_steps session_id agent_id task_id i todo elapsed_time).
Proof.
  induction todo as [|step rest IH]; intros i elapsed_time; simpl.
  - apply preserves_ret.
  - apply preserves_bind; [unfold simulate_progress; keep | intros _; apply IH].
Qed.

Lemma handle_stats_ok r : preserves stats_ok (handle r).
Proof.
  destruct r; cbn [handle].
  - unfold connect, sio_disconnect, disconnect, remove_agent, unregister_from.
    keep.
  - unfold disconnect, remove_agent, unregister_from. keep.
  - unfold join_session. keep.
  - unfold register_agent. keep.
  - apply start_task_stats_ok.
  - unfold agent_progress. keep.
  - unfold collaboration_request. keep.
  - unfold broadcast_message. keep.
  - unfold health_check. keep.
  - unfold get_websocket_stats. keep.
  - unfold simulate_agent_activity. keep.
  - unfold simulate_task_execution.
    apply preserves_bind; [keep | intros t].
    apply preserves_bind; [apply simulate_steps_stats_ok | intros elapsed].
    unfold simulate_completion. keep.
  - unfold simulate_progress. keep.
  - unfold simulate_completion. keep.
Qed.

Lemma run_stats_ok requests : forall w, stats_ok w -> stats_ok (run requests w).
Proof.
  induction requests as [|r rest IH]; intros w H; simpl; [exact H|].
  apply IH, handle_stats_ok, H.
Qed.

(** In every state the server reaches, no more errors were counted than
    messages were. *)
Lemma reachable_stats_ok w : reachable w -> stats_ok w.
Proof.
  intros [requests ->]. apply run_stats_ok. unfold stats_ok. simpl. lia.
Qed.

(** *** Python arithmetic *)

Lemma float_of_thousand :
  float_of_int 1000 = Returned (S754_finite false 8796093022208000 (-43)).
Proof. vm_compute. reflexivity. Qed.

Lemma float_of_hundred :
  float_of_int 100 = Returned (S754_finite false 7036874417766400 (-46)).
Proof. vm_compute. reflexivity. Qed.

Lemma finite_or_overflow_raises f e :
  finite_or_overflow f = Raised e -> e = OverflowError.
Proof. destruct f; simpl; congruence. Qed.

Lemma float_of_int_raises z e : float_of_int z = Raised e -> e = OverflowError.
Proof. apply finite_or_overflow_raises. Qed.

(** Dividing two ints raises [ZeroDivisionError] for a zero divisor and for
    nothing else. *)
Lemma int_true_div_raises a b e :
  int_true_div a b = Raised e ->
  (e = ZeroDivisionError /\ b = 0) \/ (e = OverflowError /\ b <> 0).
Proof.
  unfold int_true_div. destruct (Z.eqb_spec b 0) as [->|ne].
  - intros [= <-]. now left.
  - destruct (a =? 0); [discriminate|].
    destruct (SFdiv_core_binary prec emax (Z.abs a) 0 (Z.abs b) 0) as [[q x] l].
    intros H. apply finite_or_overflow_raises in H. now right.
Qed.

Lemma int_true_div_zero b : b <> 0 -> int_true_div 0 b = Returned (S754_zero (b <? 0)).
Proof.
  intros ne. unfold int_true_div.
  destruct (Z.eqb_spec b 0); [contradiction | reflexivity].
Qed.

(** A float that is not below 1 is not a zero. *)
Lemma not_below_one_not_zero f :
  num_lt (PyFloat f) (PyInt 1) = false -> is_zero f = false.
Proof. destruct f; simpl; [discriminate | reflexivity..]. Qed.

(** [max(x, 1)] is never zero: a division by it raises no
    [ZeroDivisionError]. *)
Lemma div_by_floor_raises (a : Z) (x : number) e :
  num_div a (py_max x 1) = Raised e -> e = OverflowError.
Proof.
  unfold py_max. destruct (num_lt x 1) eqn:Hlt.
  - simpl. destruct (int_true_div a 1) as [f|e'] eqn:Hd; simpl; [discriminate|].
    intros [= <-]. apply int_true_div_raises in Hd as [[_ H]|[H _]];
      [discriminate | exact H].
  - destruct x as [z|f].
    + simpl in Hlt. apply Z.ltb_ge in Hlt. simpl.
      destruct (int_true_div a z) as [f|e'] eqn:Hd; simpl; [discriminate|].
      intros [= <-]. apply int_true_div_raises in Hd as [[_ H]|[H _]];
        [lia | exact H].
    + apply not_below_one_not_zero in Hlt. unfold num_div, to_float.
      destruct (float_of_int a) as [fa|e'] eqn:Ha; simpl.
      * rewrite Hlt. discriminate.
      * intros [= <-]. now apply float_of_int_raises in Ha.
Qed.

Lemma div_by_thousand (u : float) :
  num_div (PyFloat u) 1000
  = Returned (PyFloat (fdiv u (S754_finite false 8796093022208000 (-43)))).
Proof. unfold num_div, to_float. rewrite float_of_thousand. reflexivity. Qed.

Lemma times_hundred (f : float) :
  num_mul (PyFloat f) 100
  = Returned (PyFloat (fmul f (S754_finite false 7036874417766400 (-46)))).
Proof. unfold num_mul, to_float. rewrite float_of_hundred. reflexivity. Qed.

Lemma num_div_ints_float (a b : Z) n :
  num_div a b = Returned n -> exists f, n = PyFloat f.
Proof.
  simpl. destruct (int_true_div a b) as [f|]; simpl; [|discriminate].
  intros [= <-]. now exists f.
Qed.

(** *** Shifting a mantissa *)

Lemma digits2_pos_size p : digits2_pos p = Pos.size p.
Proof. induction p; simpl; congruence. Qed.

Lemma shr_1_m mrs : 0 <= shr_m mrs -> shr_m (shr_1 mrs) = Z.div2 (shr_m mrs).
Proof.
  destruct mrs as [m r s]. simpl. intros Hm.
  destruct m as [|p|p]; [reflexivity | destruct p; reflexivity | lia].
Qed.

Lemma iter_shr_1_m n : forall mrs,
  0 <= shr_m mrs ->
  shr_m (iter_pos shr_1 n mrs) = Z.shiftr (shr_m mrs) (Zpos n).
Proof.
  assert (Hnn : forall mrs, 0 <= shr_m mrs -> 0 <= shr_m (shr_1 mrs)).
  { intros mrs H. rewrite shr_1_m by exact H. rewrite Z.div2_div.
    apply Z.div_pos; lia. }
  induction n as [n IH|n IH|]; intros mrs Hm; simpl.
  - rewrite IH, IH, shr_1_m by
      (try (rewrite IH by auto; apply Z.shiftr_nonneg); auto).
    rewrite Z.div2_spec, !Z.shiftr_shiftr by lia. f_equal. lia.
  - rewrite IH, IH by
      (try (rewrite IH by auto; apply Z.shiftr_nonneg); auto).
    rewrite !Z.shiftr_shiftr by lia. f_equal. lia.
  - rewrite shr_1_m by exact Hm. now rewrite Z.div2_spec.
Qed.

Lemma pos_ge_pow2_digits p : 2 ^ (Zpos (digits2_pos p) - 1) <= Zpos p.
Proof.
  rewrite digits2_pos_size.
  pose proof (Pos.size_le p) as H.
  assert (H2 : 2 ^ Zpos (Pos.size p) <= 2 * Zpos p).
  { change (2 * Zpos p) with (Zpos p~0). rewrite <- Pos2Z.inj_pow. exact H. }
  replace (Zpos (Pos.size p)) with (Zpos (Pos.size p) - 1 + 1) in H2 by lia.
  rewrite Z.pow_add_r, Z.pow_1_r in H2 by lia. lia.
Qed.

(** Rounding a positive mantissa to the precision of the format leaves a
    positive mantissa, when the exponent is not below the least one. *)
Lemma shr_fexp_positive m e l :
  0 < m -> emin prec emax <= e ->
  0 < shr_m (fst (shr_fexp prec emax m e l))
  /\ emin prec emax <= snd (shr_fexp prec emax m e l).
Proof.
  intros Hm He. unfold shr_fexp, shr.
  destruct m as [|p|p]; try lia.
  assert (Hrec : shr_m (shr_record_of_loc (Zpos p) l) = Zpos p)
    by (destruct l as [|[]]; reflexivity).
  destruct (fexp prec emax (Zdigits2 (Zpos p) + e) - e) as [|n|n] eqn:Hn;
    cbn [fst snd]; rewrite ?Hrec; try (split; lia).
  rewrite iter_shr_1_m by (rewrite Hrec; lia). rewrite Hrec.
  split; [|lia].
  assert (Hlt : Zpos n <= Zpos (digits2_pos p) - 1).
  { unfold fexp, emin, prec, emax in *. cbn [Zdigits2] in Hn. lia. }
  rewrite Z.shiftr_div_pow2 by lia.
  pose proof (pos_ge_pow2_digits p) as Hp.
  assert (Hpow : 2 ^ Zpos n <= 2 ^ (Zpos (digits2_pos p) - 1))
    by (apply Z.pow_le_mono_r; lia).
  apply Z.div_str_pos. lia.
Qed.

Lemma round_nearest_even_positive m l : 0 < m -> 0 < round_nearest_even m l.
Proof.
  intros Hm. destruct l as [|[]]; simpl; try lia.
  destruct (Z.even m); lia.
Qed.

(** So the rounding of a non-zero value is not a zero. *)
Lemma binary_round_aux_nonzero s m e l :
  0 < m -> emin prec emax <= e ->
  is_zero (binary_round_aux prec emax s m e l) = false
  /\ binary_round_aux prec emax s m e l <> S754_nan.
Proof.
  intros Hm He. unfold binary_round_aux.
  destruct (shr_fexp_positive m e l Hm He) as [H1 H1e].
  destruct (shr_fexp prec emax m e l) as [mrs' e'] eqn:E1. cbn [fst snd] in H1, H1e.
  assert (Hr : 0 < round_nearest_even (shr_m mrs') (loc_of_shr_record mrs'))
    by now apply round_nearest_even_positive.
  destruct (shr_fexp_positive _ e' loc_Exact Hr H1e) as [H2 _].
  destruct (shr_fexp prec emax _ e' loc_Exact) as [mrs'' e''] eqn:E2.
  cbn [fst] in H2.
  destruct (shr_m mrs'') as [|q|q]; try lia.
  destruct (e'' <=? emax - prec); split; (reflexivity || discriminate).
Qed.

Lemma float_of_int_nonzero z f :
  z <> 0 -> float_of_int z = Returned f -> is_zero f = false.
Proof.
  intros Hz. unfold float_of_int, binary_normalize.
  assert (Hround : forall s p,
             is_zero (binary_round prec emax s p 0) = false).
  { intros s p. unfold binary_round.
    destruct (shl_align p 0 _) as [mz ez] eqn:E.
    apply binary_round_aux_nonzero; [lia|].
    unfold shl_align in E.
    destruct (fexp prec emax (Zpos (digits2_pos p) + 0) - 0) eqn:Ef;
      injection E as <- <-; unfold fexp, emin, prec, emax in *; lia. }
  assert (Hfin : forall g, is_zero g = false ->
                           finite_or_overflow g = Returned f ->
                           is_zero f = false).
  { intros g Hg. destruct g; simpl; try discriminate; now intros [= <-]. }
  destruct z as [|p|p]; [contradiction | |]; apply Hfin, Hround.
Qed.

Lemma to_float_raises n e : to_float n = Raised e -> e = OverflowError.
Proof. destruct n; simpl; [apply float_of_int_raises | discriminate]. Qed.

(** Sums and products raise only when an int is beyond the floats. *)
Lemma num_add_raises a b e : num_add a b = Raised e -> e = OverflowError.
Proof.
  destruct a as [x|x], b as [y|y]; simpl; try discriminate;
    try (destruct (float_of_int _) eqn:H; simpl; try discriminate;
         intros [= <-]; now apply float_of_int_raises in H).
Qed.

Lemma num_mul_raises a b e : num_mul a b = Raised e -> e = OverflowError.
Proof.
  destruct a as [x|x], b as [y|y]; simpl; try discriminate;
    try (destruct (float_of_int _) eqn:H; simpl; try discriminate;
         intros [= <-]; now apply float_of_int_raises in H).
Qed.

(** A division by an int that is not zero raises no
    [ZeroDivisionError], whatever the dividend. *)
Lemma div_by_nonzero_int_raises (a : number) (c : Z) e :
  c <> 0 -> num_div a c = Raised e -> e = OverflowError.
Proof.
  intros Hc. destruct a as [x|x]; simpl.
  - destruct (int_true_div x c) as [f|e'] eqn:Hd; simpl; [discriminate|].
    intros [= <-]. apply int_true_div_raises in Hd as [[_ H]|[H _]];
      [contradiction | exact H].
  - destruct (float_of_int c) as [y|e'] eqn:Hy; simpl.
    + rewrite (float_of_int_nonzero c y Hc Hy). discriminate.
    + intros [= <-]. now apply float_of_int_raises in Hy.
Qed.

(** *** [health_check] *)

(** The rates as [health_check] derives them, before the reply is built. *)
Lemma health_check_result w :
  fst (health_check w)
  = let st := server_stats w in
    let uptime := uptime_at (clock (ticks w) * 1000) w in
    match
      and_then (num_div (PyFloat uptime) 1000) (fun seconds =>
      and_then (num_div (messages_processed st) (py_max seconds 1))
               (fun messages_per_second =>
      and_then (num_div (errors st) (py_max (messages_processed st) 1))
               (fun ratio =>
      and_then (num_mul ratio 100) (fun error_rate =>
      Returned (messages_per_second, error_rate)))))
    with
    | Raised e => Raised e
    | Returned (messages_per_second, error_rate) =>
        Returned
          (mkHealth uptime
             (mkPerformance (List.length (active_sessions w))
                            (List.length (registered_agents w))
                            messages_per_second error_rate)
             (clock (S (ticks w)) * 1000)%Q)
    end.
Proof.
  cbv beta iota zeta delta [health_check now bind timestamp get_world ret].
  unfold uptime_at.
  cbn [server_stats active_sessions registered_agents with_ticks].
  match goal with
  | |- fst (match ?r with _ => _ end _) = _ => destruct r as [[a b]|e]
  end; reflexivity.
Qed.

(** C9. [health_check] never divides by zero: whatever the state, the only
    exception its arithmetic can raise is [OverflowError] (a count beyond
    the range of a float), never [ZeroDivisionError].  When it returns,
    messages-per-second is the messages processed over
    max(uptime in seconds, 1) and the error rate is the errors over
    max(messages processed, 1), times 100, in Python's arithmetic.  In a
    state the server can reach with no message processed it returns, and
    the error rate is exactly 0.0, whatever the uptime. *)
Theorem C9_health_check_rates :
  (forall (w : World) (e : Exception),
      fst (health_check w) = Raised e -> e = OverflowError)
  /\ (forall (w : World) (health : Health),
         fst (health_check w) = Returned health ->
         let st := server_stats w in
         health_uptime health = uptime_at (clock (ticks w) * 1000) w
         /\ exists uptime_in_seconds,
              num_div (PyFloat (health_uptime health)) 1000
              = Returned uptime_in_seconds
              /\ spec_messages_per_second (messages_processed st)
                                          uptime_in_seconds
                 = Returned (messages_per_second (performance health))
              /\ spec_error_rate (errors st) (messages_processed st)
                 = Returned (error_rate (performance health)))
  /\ (forall (w : World),
         reachable w ->
         messages_processed (server_stats w) = 0 ->
         exists health,
           fst (health_check w) = Returned health
           /\ error_rate (performance health) = PyFloat (S754_zero false)).
Proof.
  split; [|split].
  - intros w e. rewrite health_check_result. cbv zeta.
    rewrite div_by_thousand. cbn [and_then].
    destruct (num_div (messages_processed (server_stats w)) _) as [mps|e1] eqn:H1;
      cbn [and_then].
    2:{ intros [= <-]. exact (div_by_floor_raises _ _ _ H1). }
    destruct (num_div (errors (server_stats w)) _) as [ratio|e2] eqn:H2;
      cbn [and_then].
    2:{ intros [= <-]. exact (div_by_floor_raises _ _ _ H2). }
    unfold py_max in H2.
    assert (Hf : exists f, ratio = PyFloat f).
    { destruct (num_lt _ 1); exact (num_div_ints_float _ _ _ H2). }
    destruct Hf as [f ->]. rewrite times_hundred. cbn [and_then]. discriminate.
  - intros w health. rewrite health_check_result. cbv zeta.
    unfold spec_messages_per_second, spec_error_rate.
    destruct (num_div (PyFloat _) 1000) as [seconds|] eqn:H0; cbn [and_then];
      [|discriminate].
    destruct (num_div (messages_processed (server_stats w)) _) as [mps|] eqn:H1;
      cbn [and_then]; [|discriminate].
    destruct (num_div (errors (server_stats w)) _) as [ratio|] eqn:H2;
      cbn [and_then]; [|discriminate].
    destruct (num_mul ratio 100) as [rate|] eqn:H3; cbn [and_then];
      [|discriminate].
    intros [= <-]. cbn [health_uptime performance messages_per_second error_rate].
    split; [reflexivity|]. exists seconds.
    split; [exact H0|]. split; [exact H1|]. reflexivity.
  - intros w Hr Hm.
    pose proof (reachable_stats_ok w Hr) as [He0 He1].
    assert (He : errors (server_stats w) = 0) by lia.
    rewrite health_check_result. cbv zeta. rewrite Hm, He.
    rewrite div_by_thousand. cbn [and_then].
    set (seconds := fdiv _ _).
    assert (H1 : exists mps,
               num_div 0 (py_max (PyFloat seconds) 1) = Returned mps).
    { unfold py_max. destruct (num_lt (PyFloat seconds) 1) eqn:Hlt.
      - eexists. reflexivity.
      - apply not_below_one_not_zero in Hlt.
        unfold num_div, to_float, float_of_int.
        cbn [binary_normalize finite_or_overflow and_then]. rewrite Hlt.
        eexists. reflexivity. }
    destruct H1 as [mps ->]. cbn [and_then].
    eexists. split; reflexivity.
Qed.

(** ** What each coordination handler emits *)

Lemma for_each_assign task_id session_id td (body : Agent -> M unit) :
  (forall agent w,
      body agent w
      = (tt,
         with_outbox
           (fun o => o ++ [(EvTaskAssigned task_id (agent_id agent) "parallel" td
                              (clock (ticks w) * 1000),
                            Room session_id)])
           (with_ticks S w))) ->
  forall suitable_agents w,
    exec (for_each suitable_agents body) w
    = mkWorld (active_sessions w) (registered_agents w) (server_stats w) (rooms w)
        (outbox w ++ assigned_events task_id session_id td suitable_agents (ticks w))
        (List.length suitable_agents + ticks w).
Proof.
  intros Hbody. induction suitable_agents as [|agent rest IH]; intros w.
  - unfold exec. simpl. rewrite app_nil_r. now destruct w.
  - unfold exec in *. simpl. unfold bind at 1. rewrite Hbody, IH. cbn.
    rewrite <- app_assoc, Nat.add_succ_r. reflexivity.
Qed.

(** In parallel mode every suitable agent gets its own task-assigned
    event, in the matcher's order. *)
Lemma start_task_parallel sid td task_id first_agent others w :
  if_truthy (td_id td) = Some task_id ->
  td_collaborationMode td = Some "parallel" ->
  find_suitable_agents w td (get_or (td_sessionId td) "default")
  = first_agent :: others ->
  emitted (start_task sid td) w
  = assigned_events task_id (get_or (td_sessionId td) "default") td
                    (first_agent :: others) (S (S (ticks w))).
Proof.
  intros Hid Hmode Hm.
  destruct (Dict.get (get_or (td_sessionId td) "default") (active_sessions w))
    as [session|] eqn:Hs.
  2:{ rewrite find_suitable_agents_no_session in Hm by exact Hs. discriminate. }
  unfold emitted, exec, start_task. rewrite Hid.
  step_handler. unfold Dict.mem. rewrite Hs. cbn.
  match goal with |- context [find_suitable_agents ?W _ _] =>
    rewrite (find_suitable_agents_ext W w) end.
  2:{ cbn. rewrite !dict_alter_alter, dict_get_alter_eq, Hs. reflexivity. }
  rewrite Hm, Hmode. cbn.
  match goal with |- context [for_each others ?body ?W] =>
    pose proof (for_each_assign task_id (get_or (td_sessionId td) "default")
                  td body (fun _ _ => eq_refl) others W) as Hl
  end.
  unfold exec in Hl. rewrite Hl. cbn.
  rewrite <- app_assoc. apply skipn_length_app.
Qed.

(** A task with an identifier always gets an answer. *)
Lemma start_task_answers sid td task_id w :
  if_truthy (td_id td) = Some task_id ->
  emitted (start_task sid td) w <> [].
Proof.
  intros Hid.
  destruct (find_suitable_agents w td (get_or (td_sessionId td) "default"))
    as [|first_agent others] eqn:Hm.
  - destruct (Dict.get (get_or (td_sessionId td) "default") (active_sessions w))
      as [session|] eqn:Hs.
    + unfold emitted.
      rewrite (start_task_session_no_agent sid td task_id session w Hid Hs Hm).
      cbn. rewrite skipn_length_app. discriminate.
    + unfold emitted. rewrite (start_task_no_session sid td task_id w Hid Hs).
      cbn. rewrite skipn_length_app. discriminate.
  - destruct (get_or (td_collaborationMode td) "sequential" =? "parallel")%string
      eqn:Hmode.
    + apply String.eqb_eq in Hmode.
      assert (Hp : td_collaborationMode td = Some "parallel").
      { destruct (td_collaborationMode td); simpl in Hmode;
          [now subst | discriminate]. }
      rewrite (start_task_parallel sid td task_id first_agent others w Hid Hp Hm).
      discriminate.
    + unfold emitted.
      rewrite (start_task_one_agent sid td task_id first_agent others w
                 Hid Hmode Hm).
      cbn. rewrite skipn_length_app. discriminate.
Qed.

(** Every progress report is forwarded, as one task-progress event to the
    room of its session. *)
Lemma agent_progress_emitted sid pd w :
  exists n,
    emitted (agent_progress sid pd) w
    = [(EvTaskProgress (get_or (pd_sessionId pd) "default") pd environment
          (clock n * 1000) (clock (S n) * 1000),
        Room (get_or (pd_sessionId pd) "default"))].
Proof.
  unfold emitted, exec, agent_progress. step_handler.
  destruct (Dict.get _ (active_sessions w)) as [session|];
    [destruct (if_truthy (pd_taskId pd)) as [task_id|];
     [destruct (Dict.mem task_id (tasks session));
      destruct (is_str (pd_status pd) "completed")|]|];
    cbn; eexists; apply skipn_length_app.
Qed.

(** Every collaboration request is answered by exactly one event. *)
Lemma collaboration_request_answers sid rd w :
  emitted (collaboration_request sid rd) w <> [].
Proof.
  unfold emitted, exec, collaboration_request. step_handler.
  destruct (Dict.mem _ (active_sessions w)); cbn;
    (destruct (if_truthy (rd_targetAgent rd)) as [target|]; cbn;
     [destruct (if_truthy (find_target_socket target (registered_agents w)))|]);
    cbn; rewrite skipn_length_app; discriminate.
Qed.

(** A collaboration request without a target goes to the room of its
    session. *)
Lemma collaboration_request_broadcast sid rd w :
  if_truthy (rd_targetAgent rd) = None ->
  exists t,
    emitted (collaboration_request sid rd) w
    = [(EvCollaborationRequest rd t, Room (get_or (rd_sessionId rd) "default"))].
Proof.
  intros Ht. unfold emitted, exec, collaboration_request. step_handler.
  destruct (Dict.mem _ (active_sessions w)); cbn; rewrite Ht; cbn;
    eexists; apply skipn_length_app.
Qed.

(** ** The fallback session of payloads without a sessionId *)

Ltac frame_step :=
  let w := fresh "w" in
  let H := fresh "H" in
  intros w H; unfold session_kept in *; cbn in *;
  rewrite ?dict_get_alter_ne by assumption; exact H.

Ltac emit_step :=
  let w := fresh "w" in
  let evs := fresh "evs" in
  let E := fresh "E" in
  let F := fresh "F" in
  intros w [evs [E F]]; unfold only_emits, exec, modify; cbn;
  first
    [ exists evs; split; [exact E | exact F]
    | match goal with
      | |- exists _, _ ++ [?x] = _ /\ _ =>
          exists (evs ++ [x]); split;
          [ rewrite E, app_assoc; reflexivity
          | apply Forall_app; split;
            [ exact F
            | constructor;
              [ first [ split; [discriminate | reflexivity] | discriminate ]
              | constructor ] ] ]
      end ].

Lemma only_emits_emitted {A} (Q : Event * Target -> Prop) (m : M A) w :
  preserves (only_emits Q w) m -> Forall Q (emitted m w).
Proof.
  intros Hm. destruct (Hm w) as [evs [E F]].
  - exists []. rewrite app_nil_r. split; [reflexivity | constructor].
  - unfold emitted. rewrite E, skipn_length_app. exact F.
Qed.

Lemma start_task_default_room sid td w0 :
  td_sessionId td = None ->
  if_truthy (td_id td) <> None ->
  preserves (only_emits (accepted_in "default") w0) (start_task sid td).
Proof.
  intros Hs Hid. unfold start_task. rewrite Hs.
  destruct (if_truthy (td_id td)) as [task_id|]; [|congruence].
  unfold accepted_in. simpl get_or. keep_with emit_step.
Qed.

Lemma start_task_default_frame sid td k w0 :
  td_sessionId td = None ->
  k <> "default" ->
  preserves (session_kept k w0) (start_task sid td).
Proof.
  intros Hs Hk. unfold start_task. rewrite Hs. simpl get_or.
  keep_with frame_step.
Qed.

Lemma agent_progress_default_frame sid pd k w0 :
  pd_sessionId pd = None ->
  k <> "default" ->
  preserves (session_kept k w0) (agent_progress sid pd).
Proof.
  intros Hs Hk. unfold agent_progress. rewrite Hs. simpl get_or.
  keep_with frame_step.
Qed.

Lemma collaboration_request_no_error sid rd w0 :
  preserves (only_emits (fun et => event_name (fst et) <> "error") w0)
            (collaboration_request sid rd).
Proof. unfold collaboration_request. keep_with emit_step. Qed.

Lemma collaboration_request_default_frame sid rd k w0 :
  rd_sessionId rd = None ->
  k <> "default" ->
  preserves (session_kept k w0) (collaboration_request sid rd).
Proof.
  intros Hs Hk. unfold collaboration_request. rewrite Hs. simpl get_or.
  keep_with frame_step.
Qed.

(** Whenever the session exists, [start_task] records the submission in it. *)
Lemma start_task_records sid td task_id session w :
  if_truthy (td_id td) = Some task_id ->
  Dict.get (get_or (td_sessionId td) "default") (active_sessions w) = Some session ->
  Dict.get (get_or (td_sessionId td) "default")
           (active_sessions (exec (start_task sid td) w))
  = Some (record_submission task_id td (clock (ticks w) * 1000)
                            (clock (S (ticks w)) * 1000) session).
Proof.
  intros Hid Hs. unfold exec, start_task. rewrite Hid.
  step_handler. unfold Dict.mem. rewrite Hs. cbn.
  match goal with |- context [find_suitable_agents ?W _ _] => set (w1 := W) end.
  assert (H1 : Dict.get (get_or (td_sessionId td) "default") (active_sessions w1)
               = Some (record_submission task_id td (clock (ticks w) * 1000)
                         (clock (S (ticks w)) * 1000) session)).
  { subst w1. cbn. rewrite !dict_alter_alter, dict_get_alter_eq, Hs. reflexivity. }
  clearbody w1.
  destruct (find_suitable_agents w1 td _) as [|first_agent others]; [exact H1|].
  destruct (_ =? "parallel")%string; [|exact H1].
  match goal with |- context [for_each ?l ?body] =>
    pose proof (preserves_for_each
                  (fun w' => active_sessions w' = active_sessions w1) l body) as Hl
  end.
  unfold preserves, triple, exec in Hl. rewrite Hl; [exact H1 | | reflexivity].
  intros agent w' Hw'. exact Hw'.
Qed.

(** Whenever the session exists, [collaboration_request] stores the request
    in it. *)
Lemma collaboration_request_stores sid rd session w :
  Dict.get (get_or (rd_sessionId rd) "default") (active_sessions w) = Some session ->
  Dict.get (get_or (rd_sessionId rd) "default")
           (active_sessions (exec (collaboration_request sid rd) w))
  = Some (with_collaborationRequests
            (Dict.set (rd_requestId rd)
               (mkCollaborationRequest rd (clock (ticks w) * 1000) "pending"))
            session).
Proof.
  intros Hs. unfold exec, collaboration_request.
  step_handler. unfold Dict.mem. rewrite Hs. cbn.
  destruct (if_truthy (rd_targetAgent rd)) as [target|]; cbn.
  - destruct (if_truthy (find_target_socket target (registered_agents w)));
      cbn; rewrite dict_get_alter_eq, Hs; reflexivity.
  - rewrite dict_get_alter_eq, Hs. reflexivity.
Qed.

(** The session after a progress report on one of its tasks. *)
Lemma agent_progress_tracked sid pd session task_id task w :
  Dict.get (get_or (pd_sessionId pd) "default") (active_sessions w) = Some session ->
  if_truthy (pd_taskId pd) = Some task_id ->
  Dict.get task_id (tasks session) = Some task ->
  exec (agent_progress sid pd) w
  = mkWorld
      (Dict.alter
         (fun s =>
            touch_session (is_str (pd_status pd) "completed")
              (clock (S (ticks w)) * 1000)
              (with_tasks
                 (Dict.alter (update_progress pd (clock (ticks w) * 1000)) task_id)
                 s))
         (get_or (pd_sessionId pd) "default") (active_sessions w))
      (registered_agents w)
      (if is_str (pd_status pd) "completed"
       then incr_tasks_completed (incr_messages_processed (server_stats w))
       else incr_messages_processed (server_stats w))
      (rooms w)
      (outbox w ++
         [(EvTaskProgress (get_or (pd_sessionId pd) "default") pd environment
             (clock (S (S (ticks w))) * 1000) (clock (S (S (S (ticks w)))) * 1000),
           Room (get_or (pd_sessionId pd) "default"))])
      (S (S (S (S (ticks w))))).
Proof.
  intros Hs Hid Hk. unfold exec, agent_progress. step_handler.
  rewrite Hs, Hid. unfold Dict.mem. rewrite Hk. cbn.
  unfold touch_session.
  destruct (is_str (pd_status pd) "completed"); cbn; unfold_world;
    rewrite ?dict_alter_alter; reflexivity.
Qed.

(** C10. A start-task, agent-progress or collaboration-request payload
    without a sessionId is not turned away with a validation error: the
    handler goes on with the session id default.  It answers with events
    none of which is an error event; every event it sends to a session
    goes to the room default; no session other than default is touched;
    and default, when it exists, is the session that records the task,
    takes the progress report into the task it names, or stores the
    request. *)
Theorem C10_missing_session_id_defaults :
  (forall (sid : string) (td : TaskDefinition) (task_id : string) (w : World),
      td_sessionId td = None ->
      if_truthy (td_id td) = Some task_id ->
      let w' := exec (start_task sid td) w in
      emitted (start_task sid td) w <> []
      /\ Forall (accepted_in "default") (emitted (start_task sid td) w)
      /\ (forall k, k <> "default" ->
                    Dict.get k (active_sessions w') = Dict.get k (active_sessions w))
      /\ (forall s, Dict.get "default" (active_sessions w) = Some s ->
                    exists s',
                      Dict.get "default" (active_sessions w') = Some s'
                      /\ option_map task_definition (Dict.get task_id (tasks s'))
                         = Some td))
  /\ (forall (sid : string) (pd : ProgressData) (w : World),
         pd_sessionId pd = None ->
         let w' := exec (agent_progress sid pd) w in
         (exists n,
             emitted (agent_progress sid pd) w
             = [(EvTaskProgress "default" pd environment
                   (clock n * 1000) (clock (S n) * 1000),
                 Room "default")])
         /\ (forall k, k <> "default" ->
                       Dict.get k (active_sessions w') = Dict.get k (active_sessions w))
         /\ (forall s task_id task,
                Dict.get "default" (active_sessions w) = Some s ->
                if_truthy (pd_taskId pd) = Some task_id ->
                Dict.get task_id (tasks s) = Some task ->
                exists s',
                  Dict.get "default" (active_sessions w') = Some s'
                  /\ option_map lastProgress (Dict.get task_id (tasks s'))
                     = Some (Some pd)
                  /\ option_map task_definition (Dict.get task_id (tasks s'))
                     = Some (task_definition task)
                  /\ lastActivity s' = (clock (S (ticks w)) * 1000)%Q))
  /\ (forall (sid : string) (rd : RequestData) (w : World),
         rd_sessionId rd = None ->
         let w' := exec (collaboration_request sid rd) w in
         emitted (collaboration_request sid rd) w <> []
         /\ Forall (fun et => event_name (fst et) <> "error")
                   (emitted (collaboration_request sid rd) w)
         /\ (if_truthy (rd_targetAgent rd) = None ->
             exists t,
               emitted (collaboration_request sid rd) w
               = [(EvCollaborationRequest rd t, Room "default")])
         /\ (forall k, k <> "default" ->
                       Dict.get k (active_sessions w') = Dict.get k (active_sessions w))
         /\ (forall s, Dict.get "default" (active_sessions w) = Some s ->
                       exists s',
                         Dict.get "default" (active_sessions w') = Some s'
                         /\ option_map cr_data
                              (Dict.get (rd_requestId rd) (collaborationRequests s'))
                            = Some rd)).
Proof.
  split; [|split].
  - intros sid td task_id w Hs Hid w'. subst w'. split; [|split; [|split]].
    + now apply (start_task_answers sid td task_id).
    + apply only_emits_emitted, start_task_default_room; congruence.
    + intros k Hk.
      apply (start_task_default_frame sid td k w Hs Hk w). reflexivity.
    + intros s Hd. pose proof (start_task_records sid td task_id s w Hid) as Hr.
      rewrite Hs in Hr. simpl get_or in Hr. rewrite (Hr Hd).
      eexists. split; [reflexivity|]. cbn. now rewrite dict_get_set_eq.
  - intros sid pd w Hs w'. subst w'. split; [|split].
    + pose proof (agent_progress_emitted sid pd w) as He.
      rewrite Hs in He. exact He.
    + intros k Hk.
      apply (agent_progress_default_frame sid pd k w Hs Hk w). reflexivity.
    + intros s task_id task Hd Hid Hk.
      pose proof (agent_progress_tracked sid pd s task_id task w) as Hr.
      rewrite Hs in Hr. simpl get_or in Hr. rewrite (Hr Hd Hid Hk).
      cbn [active_sessions]. rewrite dict_get_alter_eq, Hd. cbn [option_map].
      eexists. split; [reflexivity|].
      unfold touch_session.
      destruct (is_str (pd_status pd) "completed"); cbn;
        rewrite dict_get_alter_eq, Hk; repeat split.
  - intros sid rd w Hs w'. subst w'. split; [|split; [|split; [|split]]].
    + apply collaboration_request_answers.
    + apply only_emits_emitted, collaboration_request_no_error.
    + intros Ht. pose proof (collaboration_request_broadcast sid rd w Ht) as He.
      rewrite Hs in He. exact He.
    + intros k Hk.
      apply (collaboration_request_default_frame sid rd k w Hs Hk w). reflexivity.
    + intros s Hd. pose proof (collaboration_request_stores sid rd s w) as Hr.
      rewrite Hs in Hr. simpl get_or in Hr. rewrite (Hr Hd).
      eexists. split; [reflexivity|]. cbn. now rewrite dict_get_set_eq.
Qed.

(** ** Unique keys in every reachable state *)

Lemma dict_wf_del {K V} `{EqDec K} (k : K) (d : list (K * V)) :
  Dict.wf d -> Dict.wf (Dict.del k d).
Proof. apply NoDup_keys_filter. Qed.

Lemma dict_wf_alter {K V} `{EqDec K} (f : V -> V) (k : K) (d : list (K * V)) :
  Dict.wf d -> Dict.wf (Dict.alter f k d).
Proof. unfold Dict.wf. now rewrite dict_keys_alter. Qed.

Ltac wf_step :=
  let w := fresh "w" in
  let H1 := fresh "H" in
  let H2 := fresh "H" in
  intros w [H1 H2]; unfold world_wf, exec, modify; cbn;
  split;
  first [ assumption
        | apply dict_wf_set; assumption
        | apply dict_wf_alter; assumption
        | apply dict_wf_del; assumption ].

Lemma remove_agent_wf agent_id : preserves world_wf (remove_agent agent_id).
Proof.
  intros w [H1 H2]. rewrite remove_agent_exec. split; cbn.
  - now apply dict_wf_del.
  - unfold Dict.wf, Dict.keys. rewrite map_map. exact H2.
Qed.

Lemma simulate_steps_wf session_id agent_id task_id todo :
  forall i elapsed_time,
    preserves world_wf
      (simulate_steps session_id agent_id task_id i todo elapsed_time).
Proof.
  induction todo as [|step rest IH]; intros i elapsed_time; simpl.
  - apply preserves_ret.
  - apply preserves_bind;
      [unfold simulate_progress; keep_with wf_step | intros _; apply IH].
Qed.

Lemma disconnect_wf sid : preserves world_wf (disconnect sid).
Proof.
  unfold disconnect.
  apply preserves_bind; [keep_with wf_step | intros _].
  apply preserves_bind; [keep_with wf_step | intros w].
  apply preserves_for_each. intros a. apply remove_agent_wf.
Qed.

Lemma handle_wf r : preserves world_wf (handle r).
Proof.
  destruct r; cbn [handle].
  - unfold connect. keep_with wf_step. apply disconnect_wf.
  - apply disconnect_wf.
  - unfold join_session. keep_with wf_step.
  - unfold register_agent. keep_with wf_step.
  - unfold start_task. keep_with wf_step.
  - unfold agent_progress. keep_with wf_step.
  - unfold collaboration_request. keep_with wf_step.
  - unfold broadcast_message. keep_with wf_step.
  - unfold health_check. keep_with wf_step.
  - unfold get_websocket_stats. keep_with wf_step.
  - unfold simulate_agent_activity. keep_with wf_step.
  - unfold simulate_task_execution.
    apply preserves_bind; [keep_with wf_step | intros t].
    apply preserves_bind; [apply simulate_steps_wf | intros elapsed].
    unfold simulate_completion. keep_with wf_step.
  - unfold simulate_progress. keep_with wf_step.
  - unfold simulate_completion. keep_with wf_step.
Qed.

Lemma run_wf requests : forall w, world_wf w -> world_wf (run requests w).
Proof.
  induction requests as [|r rest IH]; intros w H; simpl; [exact H|].
  apply IH, handle_wf, H.
Qed.

(** The registry and the session table of a state the server reaches have
    unique keys, as the dicts they model. *)
Lemma reachable_world_wf w : reachable w -> world_wf w.
Proof.
  intros [requests ->]. apply run_wf. split; constructor.
Qed.

(** ** Further properties of the handlers *)

(** X1. In parallel mode [start_task] emits one task-assigned event per
    suitable agent, in the matcher's order, each to the session's room
    with mode parallel and the task's definition; there are as many events
    as suitable agents. *)
Theorem X1_parallel_assigns_every_agent :
  forall (sid : string) (td : TaskDefinition) (task_id : string)
         (first_agent : Agent) (others : list Agent) (w : World),
    let session_id := get_or (td_sessionId td) "default" in
    if_truthy (td_id td) = Some task_id ->
    td_collaborationMode td = Some "parallel" ->
    find_suitable_agents w td session_id = first_agent :: others ->
    emitted (start_task sid td) w
    = assigned_events task_id session_id td (first_agent :: others)
                      (S (S (ticks w)))
    /\ List.length (emitted (start_task sid td) w)
       = List.length (find_suitable_agents w td session_id)
    /\ map (fun et => snd et) (emitted (start_task sid td) w)
       = map (fun _ => Room session_id) (first_agent :: others).
Proof.
  intros sid td task_id first_agent others w session_id Hid Hmode Hm.
  rewrite (start_task_parallel sid td task_id first_agent others w Hid Hmode Hm).
  fold session_id. rewrite Hm. split; [reflexivity|].
  generalize (S (S (ticks w))). generalize (first_agent :: others).
  intros l. induction l as [|a r IH]; intros n; simpl.
  - split; reflexivity.
  - destruct (IH (S n)) as [H1 H2]. now rewrite H1, H2.
Qed.

(** X2. A payload without its identifier, or with an empty one, is turned
    away before anything is counted or stored: [start_task] without a task
    id, [join_session] without a session id and [register_agent] without
    an agent id each emit one error event to the sender's room and leave
    the rest of the state as it was, message counter, room table and clock
    included. *)
Theorem X2_missing_identifier_rejected :
  (forall (sid : string) (td : TaskDefinition) (w : World),
      if_truthy (td_id td) = None ->
      exec (start_task sid td) w
      = with_outbox (fun o => o ++ [(EvError "Task ID required", Room sid)]) w)
  /\ (forall (sid : string) (data_sessionId : option string) (w : World),
         if_truthy data_sessionId = None ->
         exec (join_session sid data_sessionId) w
         = with_outbox
             (fun o => o ++ [(EvError "Session ID required", Room sid)]) w)
  /\ (forall (sid : string) (agent_info : AgentInfo) (w : World),
         if_truthy (ai_id agent_info) = None ->
         exec (register_agent sid agent_info) w
         = with_outbox
             (fun o => o ++ [(EvError "Agent ID required", Room sid)]) w).
Proof.
  split; [|split].
  - intros sid td w H. unfold exec, start_task. now rewrite H.
  - intros sid d w H. unfold exec, join_session. now rewrite H.
  - intros sid info w H. unfold exec, register_agent. now rewrite H.
Qed.

(** X3. A progress report on a stored task is merged into the task: the
    task keeps its definition, start time and status and gets the report
    as lastProgress and a fresh lastUpdate; the session's lastActivity is
    refreshed and its totalTasks kept.  A report with status completed
    adds one to the session's completedTasks and to the server's
    tasks_completed; any other report leaves both as they were. *)
Theorem X3_agent_progress_on_stored_task :
  forall (sid : string) (pd : ProgressData) (session : Session)
         (task_id : string) (task : Task) (w : World),
    let session_id := get_or (pd_sessionId pd) "default" in
    let w' := exec (agent_progress sid pd) w in
    let completed := is_str (pd_status pd) "completed" in
    Dict.get session_id (active_sessions w) = Some session ->
    if_truthy (pd_taskId pd) = Some task_id ->
    Dict.get task_id (tasks session) = Some task ->
    exists session',
      Dict.get session_id (active_sessions w') = Some session'
      /\ Dict.get task_id (tasks session')
         = Some (mkTask (task_definition task) (startTime task) (task_status task)
                        (task_environment task) (Some pd)
                        (Some (clock (ticks w) * 1000)%Q))
      /\ Dict.keys (tasks session') = Dict.keys (tasks session)
      /\ lastActivity session' = (clock (S (ticks w)) * 1000)%Q
      /\ totalTasks (metrics session') = totalTasks (metrics session)
      /\ completedTasks (metrics session')
         = completedTasks (metrics session) + (if completed then 1 else 0)
      /\ tasks_completed (server_stats w')
         = tasks_completed (server_stats w) + (if completed then 1 else 0)
      /\ messages_processed (server_stats w')
         = messages_processed (server_stats w) + 1.
Proof.
  intros sid pd session task_id task w session_id w' completed Hs Hid Hk.
  subst w'. rewrite (agent_progress_tracked sid pd session task_id task w Hs Hid Hk).
  cbn. fold session_id. rewrite dict_get_alter_eq. fold session_id in Hs.
  rewrite Hs. cbn. eexists. split; [reflexivity|].
  fold completed. unfold touch_session.
  destruct completed; cbn; rewrite dict_get_alter_eq, Hk; cbn;
    (split; [reflexivity|]); (split; [apply dict_keys_alter|]);
    repeat split; lia.
Qed.

(** X4. A collaboration request whose target is registered goes to the
    room of the connection that registered the target and nowhere else,
    whatever session the request names and whether or not the target is
    listed in it: the target is looked up in the global registry. *)
Theorem X4_collaboration_request_to_registered_target :
  forall (sid : string) (rd : RequestData) (target : string) (agent : Agent)
         (w : World),
    if_truthy (rd_targetAgent rd) = Some target ->
    Dict.get target (registered_agents w) = Some agent ->
    truthy (socket_id agent) = true ->
    exists t,
      emitted (collaboration_request sid rd) w
      = [(EvCollaborationRequest rd t, Room (socket_id agent))].
Proof.
  intros sid rd target agent w Ht Hreg Hsock.
  unfold emitted, exec, collaboration_request. step_handler.
  destruct (Dict.mem _ (active_sessions w)); cbn; rewrite Ht; cbn;
    rewrite find_target_socket_get, Hreg; cbn; rewrite Hsock; cbn;
    eexists; apply skipn_length_app.
Qed.

(** X5. A collaboration request is kept, with status pending and the time
    of storage, under its request id in the session it names when that
    session exists, replacing an earlier request with the same id; when
    the session does not exist the request is stored nowhere, and in both
    cases no other session changes and the request counts as one message. *)
Theorem X5_collaboration_request_storage :
  forall (sid : string) (rd : RequestData) (w : World),
    let session_id := get_or (rd_sessionId rd) "default" in
    let w' := exec (collaboration_request sid rd) w in
    (forall session,
        Dict.get session_id (active_sessions w) = Some session ->
        exists session',
          Dict.get session_id (active_sessions w') = Some session'
          /\ Dict.get (rd_requestId rd) (collaborationRequests session')
             = Some (mkCollaborationRequest rd (clock (ticks w) * 1000) "pending")
          /\ agents session' = agents session
          /\ tasks session' = tasks session
          /\ metrics session' = metrics session
          /\ lastActivity session' = lastActivity session)
    /\ (Dict.get session_id (active_sessions w) = None ->
        active_sessions w' = active_sessions w)
    /\ (forall k, k <> session_id ->
                  Dict.get k (active_sessions w') = Dict.get k (active_sessions w))
    /\ messages_processed (server_stats w')
       = messages_processed (server_stats w) + 1
    /\ registered_agents w' = registered_agents w.
Proof.
  intros sid rd w session_id w'. subst w' session_id.
  split; [|split; [|split]].
  - intros session Hs. rewrite (collaboration_request_stores sid rd session w Hs).
    eexists. split; [reflexivity|]. cbn. rewrite dict_get_set_eq.
    repeat split.
  - intros Hs. unfold exec, collaboration_request. step_handler.
    unfold Dict.mem. rewrite Hs. cbn.
    destruct (if_truthy (rd_targetAgent rd)) as [target|]; cbn;
      [destruct (if_truthy (find_target_socket target (registered_agents w)))|];
      reflexivity.
  - intros k Hk. unfold exec, collaboration_request. step_handler.
    destruct (Dict.mem _ (active_sessions w)); cbn;
      (destruct (if_truthy (rd_targetAgent rd)) as [target|]; cbn;
       [destruct (if_truthy (find_target_socket target (registered_agents w)))|]);
      cbn; rewrite ?dict_get_alter_ne by exact Hk; reflexivity.
  - unfold exec, collaboration_request. step_handler.
    destruct (Dict.mem _ (active_sessions w)); cbn;
      (destruct (if_truthy (rd_targetAgent rd)) as [target|]; cbn;
       [destruct (if_truthy (find_target_socket target (registered_agents w)))|]);
      cbn; split; reflexivity.
Qed.

(** X6. [broadcast_message] sends exactly one event, named by the
    message's event field or broadcast when there is none, carrying the
    message's data (none when missing): to the room of the session the
    message names, with a target count of 1, or to every connection when
    it names none, with the number of sessions as target count.  It counts
    as one message and changes neither sessions nor agents. *)
Theorem X6_broadcast_message :
  forall (md : MessageData) (w : World),
    let w' := exec (broadcast_message md) w in
    let event := EvBroadcast (get_or (md_event md) "broadcast")
                             (get_or (md_data md) []) environment
                             (clock (ticks w) * 1000) in
    (forall session_id,
        if_truthy (md_sessionId md) = Some session_id ->
        emitted (broadcast_message md) w = [(event, Room session_id)]
        /\ fst (broadcast_message md w) = 1%nat)
    /\ (if_truthy (md_sessionId md) = None ->
        emitted (broadcast_message md) w = [(event, Everyone)]
        /\ fst (broadcast_message md w) = List.length (active_sessions w))
    /\ event_name event = get_or (md_event md) "broadcast"
    /\ messages_processed (server_stats w')
       = messages_processed (server_stats w) + 1
    /\ active_sessions w' = active_sessions w
    /\ registered_agents w' = registered_agents w.
Proof.
  intros md w w' event. subst w' event.
  unfold emitted, exec, broadcast_message. step_handler.
  split; [|split].
  - intros session_id H. rewrite H. cbn. split; [apply skipn_length_app | reflexivity].
  - intros H. rewrite H. cbn. split; [apply skipn_length_app | reflexivity].
  - destruct (if_truthy (md_sessionId md)); cbn; repeat split.
Qed.

Lemma connect_rejects_iff (api_key : option string) :
  str_in environment ["production"; "staging"]
  && (negb (truthy_opt api_key) && (environment =? "production")%string) = true
  <-> environment = "production" /\ if_truthy api_key = None.
Proof.
  assert (Hkey : negb (truthy_opt api_key) = true <-> if_truthy api_key = None).
  { destruct api_key as [k|]; simpl; [|tauto].
    destruct (truthy k); simpl; split; congruence. }
  rewrite !andb_true_iff, Hkey, String.eqb_eq. split.
  - tauto.
  - intros [He Hk]. split; [|tauto]. rewrite He. reflexivity.
Qed.




(** ** Registration: [register_agent] *)

Lemma dict_mem_alter {K V} `{EqDec K} (f : V -> V) (k k0 : K) (d : list (K * V)) :
  Dict.mem k0 (Dict.alter f k d) = Dict.mem k0 d.
Proof.
  unfold Dict.mem. destruct (eq_dec k0 k) as [->|ne].
  - rewrite dict_get_alter_eq. now destruct (Dict.get k d).
  - now rewrite dict_get_alter_ne.
Qed.

Lemma dict_get_In {K V} `{EqDec K} (k : K) (v : V) (d : list (K * V)) :
  Dict.get k d = Some v -> In (k, v) d.
Proof.
  induction d as [|[k' v'] r IH]; simpl; [discriminate|].
  destruct (eq_dec k k') as [->|n].
  - intros [= ->]. now left.
  - intros E. right. now apply IH.
Qed.

(** [register_agent] with an agent id: the registry is written, and the
    handler ends in the transport call that raises. *)
Lemma register_agent_exec sid agent_info agent_id w :
  if_truthy (ai_id agent_info) = Some agent_id ->
  exec (register_agent sid agent_info) w
  = with_registered_agents
      (Dict.set agent_id (stamp agent_id sid (clock (ticks w) * 1000) agent_info))
      (with_ticks S w).
Proof.
  intros Hid. unfold exec, register_agent. rewrite Hid. step_handler.
  unfold_world; reflexivity.
Qed.

Lemma register_agent_raises sid agent_info agent_id w :
  if_truthy (ai_id agent_info) = Some agent_id ->
  fst (register_agent sid agent_info w) = Raised TypeError.
Proof. intros Hid. unfold register_agent. rewrite Hid. reflexivity. Qed.

(** X10. [register_agent] with an agent id puts the payload, stamped with
    the connection, the registration time and the environment, into the
    registry under that id (replacing a record with the same id), and
    ends there with [TypeError], raised by its call of
    [sio.manager.get_rooms] without a namespace.  Whatever rooms the
    connection is in, no session is given the agent or has its
    lastActivity refreshed, no agent-registered event is sent, and the
    matcher returns for every task what it returned before. *)
Theorem X10_register_agent :
  forall (sid : string) (agent_info : AgentInfo) (agent_id : string) (w : World),
    let w' := exec (register_agent sid agent_info) w in
    let agent := stamp agent_id sid (clock (ticks w) * 1000) agent_info in
    if_truthy (ai_id agent_info) = Some agent_id ->
    fst (register_agent sid agent_info w) = Raised TypeError
    /\ registered_agents w' = Dict.set agent_id agent (registered_agents w)
    /\ Dict.get agent_id (registered_agents w') = Some agent
    /\ socket_id agent = sid
    /\ active_sessions w' = active_sessions w
    /\ emitted (register_agent sid agent_info) w = []
    /\ server_stats w' = server_stats w
    /\ rooms w' = rooms w
    /\ (forall task_definition session_id,
           find_suitable_agents w' task_definition session_id
           = find_suitable_agents w task_definition session_id).
Proof.
  intros sid agent_info agent_id w w' agent Hid. subst w' agent.
  unfold emitted. rewrite (register_agent_exec sid agent_info agent_id w Hid).
  cbn [registered_agents active_sessions server_stats rooms outbox
       with_registered_agents with_ticks].
  split; [exact (register_agent_raises sid agent_info agent_id w Hid)|].
  split; [reflexivity|].
  split; [apply dict_get_set_eq|].
  split; [reflexivity|].
  split; [reflexivity|].
  split.
  { rewrite <- (app_nil_r (outbox w)) at 2. apply skipn_length_app. }
  split; [reflexivity|]. split; [reflexivity|].
  intros task_definition session_id. apply find_suitable_agents_ext. reflexivity.
Qed.

(** ** More on disconnection *)

Lemma dict_get_map_values {K V} `{EqDec K} (g : V -> V) (k : K) (d : list (K * V)) :
  Dict.get k (map (fun item => (fst item, g (snd item))) d)
  = option_map g (Dict.get k d).
Proof.
  induction d as [|[k' v'] r IH]; simpl; [reflexivity|].
  destruct (eq_dec k k'); [reflexivity | exact IH].
Qed.

Lemma dict_In_get {K V} `{EqDec K} (k : K) (v : V) (d : list (K * V)) :
  Dict.wf d -> In (k, v) d -> Dict.get k d = Some v.
Proof.
  unfold Dict.wf, Dict.keys.
  induction d as [|[k' v'] r IH]; simpl; [contradiction|].
  intros Hnd Hin. inversion Hnd as [|? ? Hn Hr]; subst.
  destruct Hin as [[= -> ->] | Hin].
  - destruct (eq_dec k k); congruence.
  - destruct (eq_dec k k') as [->|ne]; [|now apply IH].
    exfalso. apply Hn. change k' with (fst (k', v)). now apply in_map.
Qed.

Lemma fold_del_other {K V} `{EqDec K} (l : list K) : forall (d : list (K * V)) a,
  ~ In a l -> Dict.get a (fold_left (fun d a => Dict.del a d) l d) = Dict.get a d.
Proof.
  induction l as [|x r IH]; intros d a Hn; simpl; [reflexivity|].
  rewrite IH by (intros Hin; apply Hn; now right).
  apply dict_get_del_ne. intros ->. apply Hn. now left.
Qed.

(** The state a disconnection leaves. *)
Lemma disconnect_result sid w :
  Dict.wf (registered_agents w) ->
  let removed := agents_to_remove w sid in
  exec (disconnect sid) w
  = mkWorld
      (map (fun item =>
              (fst item,
               with_agents (fun d => fold_left (fun d a => Dict.del a d) removed d)
                           (snd item)))
           (active_sessions w))
      (fold_left (fun d a => Dict.del a d) removed (registered_agents w))
      (set_connections (Z.max 0 (connections (server_stats w) - 1)) (server_stats w))
      (rooms w)
      (outbox w ++ unregistered_events (listing_pairs removed (active_sessions w))
                                       (ticks w))
      (List.length (listing_pairs removed (active_sessions w)) + ticks w).
Proof.
  intros Hwf removed. rewrite disconnect_exec.
  rewrite (for_each_remove_agent _ _ (agents_to_remove_NoDup w sid Hwf)).
  cbn. rewrite fold_drop_agents. reflexivity.
Qed.

(** X11. A disconnection touches nothing but the agents of the closing
    connection: the connection counter drops by one but not below zero and
    the other counters stay; no session is removed, and every session
    keeps its tasks, metrics, collaboration requests and timestamps and
    every agent that is not removed; an agent registered by another
    connection stays in the registry.  A connection that registered no
    agent leaves sessions and registry as they were and emits nothing. *)
Theorem X11_disconnect_leaves_the_rest :
  forall (sid : string) (w : World),
    let w' := exec (disconnect sid) w in
    let removed := agents_to_remove w sid in
    Dict.wf (registered_agents w) ->
    server_stats w'
    = set_connections (Z.max 0 (connections (server_stats w) - 1)) (server_stats w)
    /\ 0 <= connections (server_stats w')
    /\ Dict.keys (active_sessions w') = Dict.keys (active_sessions w)
    /\ (forall k s,
           Dict.get k (active_sessions w) = Some s ->
           exists s',
             Dict.get k (active_sessions w') = Some s'
             /\ tasks s' = tasks s
             /\ metrics s' = metrics s
             /\ collaborationRequests s' = collaborationRequests s
             /\ createdAt s' = createdAt s
             /\ lastActivity s' = lastActivity s
             /\ (forall a, ~ In a removed ->
                           Dict.get a (agents s') = Dict.get a (agents s)))
    /\ (forall a agent,
           Dict.get a (registered_agents w) = Some agent ->
           socket_id agent <> sid ->
           Dict.get a (registered_agents w') = Some agent)
    /\ (removed = [] ->
        emitted (disconnect sid) w = []
        /\ active_sessions w' = active_sessions w
        /\ registered_agents w' = registered_agents w).
Proof.
  intros sid w w' removed Hwf. subst w'. unfold emitted.
  rewrite (disconnect_result sid w Hwf). fold removed. cbn.
  split; [reflexivity|]. split; [lia|].
  split; [unfold Dict.keys; rewrite map_map; reflexivity|].
  split.
  { intros k s Hs. rewrite dict_get_map_values, Hs. cbn. eexists.
    split; [reflexivity|]. cbn. repeat split.
    intros a Ha. now apply fold_del_other. }
  split.
  { intros a agent Hget Hsock. rewrite fold_del_other; [exact Hget|].
    intros Hin. apply agents_to_remove_In in Hin as [agent' [Hin Hs]].
    apply (dict_In_get _ _ _ Hwf) in Hin. congruence. }
  intros Hnone. rewrite Hnone. cbn.
  split; [apply skipn_length_app|].
  split; [|reflexivity].
  rewrite <- (map_id (active_sessions w)) at 2. apply map_ext.
  intros [k s]. cbn. now destruct s.
Qed.

(** The state a connection that is let in leaves. *)
Lemma connect_accepted sid api_key w :
  str_in environment ["production"; "staging"]
  && (negb (truthy_opt api_key) && (environment =? "production")%string) = false ->
  connect sid api_key w
  = (true,
     with_outbox
       (fun o => o ++ [(EvArgsWelcome environment (clock (ticks w) * 1000),
                        Room sid)])
       (with_ticks S
          (with_server_stats
             (fun st => set_connections (connections st + 1) st)
             (exec (enter_room sid sid) w)))).
Proof.
  intros Hc. unfold connect, exec. rewrite Hc. unfold enter_room. step_handler.
  reflexivity.
Qed.

(** The state a connection that is turned away leaves: the transport
    runs [disconnect] on what the handler had written. *)
Lemma connect_rejected sid api_key w :
  str_in environment ["production"; "staging"]
  && (negb (truthy_opt api_key) && (environment =? "production")%string) = true ->
  connect sid api_key w
  = (false,
     with_rooms (Dict.del sid)
       (exec (disconnect sid)
          (with_outbox
             (fun o => o ++ [(EvAuthError "API key required in production",
                              Room sid)])
             (with_server_stats
                (fun st => set_connections (connections st + 1) st)
                (exec (enter_room sid sid) w))))).
Proof.
  intros Hc. unfold connect. rewrite Hc.
  unfold sio_disconnect, exec, enter_room, emit, bind, modify, ret.
  cbn [fst snd].
  match goal with
  | |- (let (_, w') := (let (_, w'') := disconnect sid ?W in _) in _) = _ =>
      destruct (disconnect sid W) as [[] w1]
  end.
  reflexivity.
Qed.

(** X7. [connect] turns a connection away exactly when the environment is
    production and no non-empty API key comes with it; staging and every
    other environment let a connection in without a key.  A connection
    that is let in gets one args-welcome event and counts as one more
    connection.  A connection that is turned away gets one auth-error
    event and is then disconnected by the server itself, which runs the
    [disconnect] handler: the connection counter is back where it was
    (floored at zero), the agents registered under the connection's id are
    unregistered, and the connection is in no room. *)
Theorem X7_connect_policy :
  forall (sid : string) (api_key : option string) (w : World),
    let w' := exec (connect sid api_key) w in
    let accepted := fst (connect sid api_key w) in
    let removed := agents_to_remove w sid in
    (accepted = false <->
     environment = "production" /\ if_truthy api_key = None)
    /\ (accepted = true ->
        emitted (connect sid api_key) w
        = [(EvArgsWelcome environment (clock (ticks w) * 1000), Room sid)]
        /\ In sid (get_rooms w' sid)
        /\ connections (server_stats w') = connections (server_stats w) + 1
        /\ active_sessions w' = active_sessions w
        /\ registered_agents w' = registered_agents w)
    /\ (accepted = false ->
        Dict.wf (registered_agents w) ->
        connections (server_stats w') = Z.max 0 (connections (server_stats w))
        /\ Dict.get sid (rooms w') = None
        /\ emitted (connect sid api_key) w
           = (EvAuthError "API key required in production", Room sid)
             :: unregistered_events (listing_pairs removed (active_sessions w))
                                    (ticks w)
        /\ (forall a, In a removed ->
                      Dict.get a (registered_agents w') = None)
        /\ (removed = [] ->
            emitted (connect sid api_key) w
            = [(EvAuthError "API key required in production", Room sid)]
            /\ active_sessions w' = active_sessions w
            /\ registered_agents w' = registered_agents w)).
Proof.
  intros sid api_key w w' accepted removed. subst w' accepted removed.
  pose proof (connect_rejects_iff api_key) as Hrej.
  unfold emitted, exec.
  destruct (str_in environment ["production"; "staging"]
            && (negb (truthy_opt api_key) && (environment =? "production")%string))
    eqn:Hc.
  - rewrite (connect_rejected sid api_key w Hc). cbn [fst snd].
    split; [split; [intros _; now apply Hrej | reflexivity]|].
    split; [discriminate|].
    intros _ Hwf.
    match goal with
    | |- context [exec (disconnect sid) ?W] =>
        set (w1 := W);
        assert (Hd := disconnect_result sid w1 Hwf); cbv zeta in Hd;
        rewrite Hd;
        change (agents_to_remove w1 sid) with (agents_to_remove w sid);
        change (active_sessions w1) with (active_sessions w);
        change (registered_agents w1) with (registered_agents w);
        change (ticks w1) with (ticks w);
        change (outbox w1)
          with (outbox w ++ [(EvAuthError "API key required in production",
                              Room sid)]);
        change (connections (server_stats w1))
          with (connections (server_stats w) + 1)
    end.
    cbn [server_stats rooms outbox registered_agents active_sessions with_rooms
         connections set_connections].
    split; [f_equal; lia|].
    split; [apply dict_get_del_eq|].
    assert (Hev : forall events,
               skipn (List.length (outbox w))
                     ((outbox w
                       ++ [(EvAuthError "API key required in production",
                            Room sid)]) ++ events)
               = (EvAuthError "API key required in production", Room sid)
                 :: events).
    { intros events. rewrite <- app_assoc. apply skipn_length_app. }
    split; [apply Hev|].
    split; [intros a Hin; now apply fold_del_gone|].
    intros Hnone. rewrite Hnone. cbn [fold_left listing_pairs flat_map
                                      unregistered_events].
    split; [apply Hev|]. split; [|reflexivity].
    rewrite <- (map_id (active_sessions w)) at 2. apply map_ext.
    intros [k s]. simpl. now destruct s.
  - rewrite (connect_accepted sid api_key w Hc). cbn [fst snd].
    split; [split; [discriminate | intros H; apply Hrej in H; discriminate]|].
    split; [|discriminate].
    intros _. unfold enter_room, exec, modify. cbn.
    split; [apply skipn_length_app|]. split; [|repeat split].
    unfold get_rooms. cbn. rewrite dict_get_set_eq. cbn.
    destruct (str_in sid (get_or (Dict.get sid (rooms w)) [])) eqn:Hin.
    + now apply str_in_In.
    + apply in_or_app. right. now left.
Qed.

(** X12. Registration and disconnection undo each other for the registry:
    an agent a connection registers is held under its id, and after that
    connection disconnects neither the registry nor any session holds a
    record under that id, whoever had registered the id before. *)
Theorem X12_register_then_disconnect :
  forall (sid : string) (agent_info : AgentInfo) (agent_id : string) (w : World),
    let w1 := exec (register_agent sid agent_info) w in
    let w2 := exec (disconnect sid) w1 in
    Dict.wf (registered_agents w) ->
    if_truthy (ai_id agent_info) = Some agent_id ->
    Dict.get agent_id (registered_agents w1)
    = Some (stamp agent_id sid (clock (ticks w) * 1000) agent_info)
    /\ In agent_id (agents_to_remove w1 sid)
    /\ Dict.get agent_id (registered_agents w2) = None
    /\ (forall k s, In (k, s) (active_sessions w2) ->
                    Dict.get agent_id (agents s) = None).
Proof.
  intros sid agent_info agent_id w w1 w2 Hwf Hid.
  assert (Hreg : registered_agents w1
                 = Dict.set agent_id
                     (stamp agent_id sid (clock (ticks w) * 1000) agent_info)
                     (registered_agents w)).
  { subst w1. now rewrite (register_agent_exec sid agent_info agent_id w Hid). }
  assert (Hwf1 : Dict.wf (registered_agents w1))
    by (rewrite Hreg; now apply dict_wf_set).
  assert (Hget : Dict.get agent_id (registered_agents w1)
                 = Some (stamp agent_id sid (clock (ticks w) * 1000) agent_info))
    by (rewrite Hreg; apply dict_get_set_eq).
  assert (Hin : In agent_id (agents_to_remove w1 sid)).
  { apply agents_to_remove_In. eexists. split; [apply dict_get_In, Hget|].
    reflexivity. }
  split; [exact Hget|]. split; [exact Hin|].
  subst w2. rewrite (disconnect_result sid w1 Hwf1). cbn.
  split; [now apply fold_del_gone|].
  intros k s Hs. apply in_map_iff in Hs as [[k0 s0] [[= <- <-] _]].
  cbn. now apply fold_del_gone.
Qed.

(** ** What every reachable session looks like *)

Lemma dict_alter_In {K V} `{EqDec K} (f : V -> V) (k k' : K) (v' : V) d :
  In (k', v') (Dict.alter f k d) ->
  In (k', v') d \/ (k' = k /\ exists v, In (k, v) d /\ v' = f v).
Proof.
  induction d as [|[k0 v0] r IH]; simpl; [tauto|].
  destruct (eq_dec k k0) as [->|ne]; simpl.
  - intros [[= <- <-] | Hin]; [|tauto].
    right. split; [reflexivity|]. exists v0. split; [now left | reflexivity].
  - intros [E | Hin]; [tauto|].
    destruct (IH Hin) as [Hold | [Hk [v [Hv Hf]]]]; [tauto|].
    right. split; [exact Hk|]. exists v. split; [now right | exact Hf].
Qed.

Lemma dict_set_In {K V} `{EqDec K} (k k' : K) (v v' : V) d :
  In (k', v') (Dict.set k v d) -> In (k', v') d \/ (k' = k /\ v' = v).
Proof.
  induction d as [|[k0 v0] r IH]; simpl.
  - intros [[= <- <-] | []]. now right.
  - destruct (eq_dec k k0) as [->|ne]; simpl.
    + intros [[= <- <-] | Hin]; [now right | tauto].
    + intros [E | Hin]; [tauto|]. destruct (IH Hin); tauto.
Qed.

Lemma sessions_all_alter Q (f : Session -> Session) k w :
  (forall s, Q k s -> Q k (f s)) ->
  sessions_all Q w ->
  sessions_all Q (with_active_sessions (Dict.alter f k) w).
Proof.
  intros Hf Hw k' s' Hin. cbn in Hin.
  apply dict_alter_In in Hin as [Hold | [-> [s [Hs ->]]]].
  - now apply Hw.
  - apply Hf. now apply Hw.
Qed.

Lemma sessions_all_set Q k v w :
  Q k v ->
  sessions_all Q w ->
  sessions_all Q (with_active_sessions (Dict.set k v) w).
Proof.
  intros Hv Hw k' s' Hin. cbn in Hin.
  apply dict_set_In in Hin as [Hold | [-> ->]]; [now apply Hw | exact Hv].
Qed.

Lemma sessions_all_drop Q a w :
  (forall k s, Q k s -> Q k (with_agents (Dict.del a) s)) ->
  sessions_all Q w ->
  sessions_all Q (exec (remove_agent a) w).
Proof.
  intros Hf Hw k s' Hin. rewrite remove_agent_exec in Hin. cbn in Hin.
  apply in_map_iff in Hin as [[k0 s0] [[= <- <-] Hin]].
  apply Hf. now apply Hw.
Qed.

Lemma session_ok_new k t1 t2 : session_ok k (new_session k t1 t2).
Proof. unfold session_ok. cbn. repeat split; try lia; contradiction. Qed.

Lemma session_ok_set_lastActivity k t s :
  session_ok k s -> session_ok k (set_lastActivity t s).
Proof. exact (fun H => H). Qed.

Lemma session_ok_with_agents k f s :
  session_ok k s -> session_ok k (with_agents f s).
Proof. exact (fun H => H). Qed.

Lemma session_ok_with_collaborationRequests k f s :
  session_ok k s -> session_ok k (with_collaborationRequests f s).
Proof. exact (fun H => H). Qed.

Lemma session_ok_incr_totalTasks k s :
  session_ok k s -> session_ok k (with_metrics incr_totalTasks s).
Proof.
  intros (H1 & H2 & H3 & H4 & H5 & H6 & H7). unfold session_ok. cbn.
  repeat split; try assumption. lia.
Qed.

Lemma session_ok_incr_completedTasks k s :
  session_ok k s -> session_ok k (with_metrics incr_completedTasks s).
Proof.
  intros (H1 & H2 & H3 & H4 & H5 & H6 & H7). unfold session_ok. cbn.
  repeat split; try assumption. lia.
Qed.

(** What a completion does to the counts, whatever becomes of the
    average. *)
Lemma record_completion_counts elapsed m :
  totalTasks (record_completion elapsed m) = totalTasks m
  /\ completedTasks (record_completion elapsed m) = completedTasks m + 1
  /\ errorCount (record_completion elapsed m) = errorCount m.
Proof.
  unfold record_completion.
  destruct (completion_average elapsed (incr_completedTasks m));
    split; [reflexivity | split; reflexivity | reflexivity | split; reflexivity].
Qed.

Lemma session_ok_record_completion k elapsed s :
  session_ok k s -> session_ok k (with_metrics (record_completion elapsed) s).
Proof.
  intros (H1 & H2 & H3 & H4 & H5 & H6 & H7).
  destruct (record_completion_counts elapsed (metrics s)) as (Ht & Hc & He).
  unfold session_ok.
  cbn [sessionId session_status activeStreams metrics tasks with_metrics].
  rewrite Ht, Hc, He. repeat split; try assumption. lia.
Qed.

Lemma session_ok_submit k task_id task_definition t s :
  session_ok k s ->
  session_ok k
    (with_tasks
       (Dict.set task_id (mkTask task_definition t "started" environment None None))
       s).
Proof.
  intros (H1 & H2 & H3 & H4 & H5 & H6 & H7). unfold session_ok. cbn.
  repeat split; try assumption.
  intros t0 task Hin. apply dict_set_In in Hin as [Hold | [_ ->]];
    [now apply (H7 t0) | reflexivity].
Qed.

Lemma session_ok_progress k task_id pd t s :
  session_ok k s ->
  session_ok k (with_tasks (Dict.alter (update_progress pd t) task_id) s).
Proof.
  intros (H1 & H2 & H3 & H4 & H5 & H6 & H7). unfold session_ok. cbn.
  repeat split; try assumption.
  intros t0 task Hin. apply dict_alter_In in Hin as [Hold | [_ [v [Hv ->]]]].
  - now apply (H7 t0).
  - cbn. now apply (H7 task_id).
Qed.

Create HintDb session_ok.
#[local] Hint Resolve session_ok_new session_ok_set_lastActivity
  session_ok_with_agents session_ok_with_collaborationRequests
  session_ok_incr_totalTasks session_ok_incr_completedTasks
  session_ok_record_completion session_ok_submit session_ok_progress
  : session_ok.

Ltac session_step :=
  let w := fresh "w" in
  let H := fresh "H" in
  intros w H; unfold exec, modify; cbn [snd];
  first
    [ exact H
    | apply sessions_all_alter; [intros; auto with session_ok | exact H]
    | apply sessions_all_set; [auto with session_ok | exact H] ].

Lemma simulate_steps_sessions_ok session_id agent_id task_id todo :
  forall i elapsed_time,
    preserves (sessions_all session_ok)
      (simulate_steps session_id agent_id task_id i todo elapsed_time).
Proof.
  induction todo as [|step rest IH]; intros i elapsed_time; simpl.
  - apply preserves_ret.
  - apply preserves_bind;
      [unfold simulate_progress; keep_with session_step | intros _; apply IH].
Qed.

Lemma disconnect_sessions_ok sid :
  preserves (sessions_all session_ok) (disconnect sid).
Proof.
  unfold disconnect.
  apply preserves_bind; [keep_with session_step | intros _].
  apply preserves_bind; [keep_with session_step | intros w].
  apply preserves_for_each. intros a w0 H0.
  apply sessions_all_drop; [intros; auto with session_ok | exact H0].
Qed.

Lemma handle_sessions_ok r : preserves (sessions_all session_ok) (handle r).
Proof.
  destruct r; cbn [handle].
  - unfold connect. keep_with session_step. apply disconnect_sessions_ok.
  - apply disconnect_sessions_ok.
  - unfold join_session. keep_with session_step.
  - unfold register_agent. keep_with session_step.
  - unfold start_task. keep_with session_step.
  - unfold agent_progress. keep_with session_step.
  - unfold collaboration_request. keep_with session_step.
  - unfold broadcast_message. keep_with session_step.
  - unfold health_check. keep_with session_step.
  - unfold get_websocket_stats. keep_with session_step.
  - unfold simulate_agent_activity. keep_with session_step.
  - unfold simulate_task_execution.
    apply preserves_bind; [keep_with session_step | intros t].
    apply preserves_bind; [apply simulate_steps_sessions_ok | intros elapsed].
    unfold simulate_completion. keep_with session_step.
  - unfold simulate_progress. keep_with session_step.
  - unfold simulate_completion. keep_with session_step.
Qed.

Lemma reachable_sessions_ok w : reachable w -> sessions_all session_ok w.
Proof.
  intros [requests ->].
  assert (Hrun : forall l w0, sessions_all session_ok w0 ->
                              sessions_all session_ok (run l w0)).
  { induction l as [|r rest IH]; intros w0 H0; simpl; [exact H0|].
    apply IH, handle_sessions_ok, H0. }
  apply Hrun. intros k s [].
Qed.

(** X14. In every state the server reaches, every stored task has status
    started: [start_task] stores it so, a progress report, completed or
    not, leaves the status alone, and no handler removes or rewrites a
    task otherwise. *)
Theorem X14_stored_tasks_stay_started :
  forall (w : World) (k : string) (s : Session) (t : string) (task : Task),
    reachable w ->
    Dict.get k (active_sessions w) = Some s ->
    Dict.get t (tasks s) = Some task ->
    task_status task = "started".
Proof.
  intros w k s t task Hr Hs Ht.
  destruct (reachable_sessions_ok w Hr k s (dict_get_In _ _ _ Hs))
    as (_ & _ & _ & _ & _ & _ & Htasks).
  apply (Htasks t). now apply dict_get_In.
Qed.

(** X15. In every state the server reaches, a session record sits under
    its own sessionId, its status is active, it has no active stream and
    its errorCount is zero: no handler closes a session, opens a stream or
    counts an error against a session, whatever the server-wide error
    counter says. *)
Theorem X15_session_bookkeeping_never_written :
  forall (w : World) (k : string) (s : Session),
    reachable w ->
    Dict.get k (active_sessions w) = Some s ->
    sessionId s = k
    /\ session_status s = "active"
    /\ activeStreams s = []
    /\ errorCount (metrics s) = 0.
Proof.
  intros w k s Hr Hs.
  destruct (reachable_sessions_ok w Hr k s (dict_get_In _ _ _ Hs))
    as (H1 & H2 & H3 & H4 & _).
  repeat split; assumption.
Qed.

Ltac nonneg_step :=
  let w := fresh "w" in
  let H := fresh "H" in
  intros w H; unfold stats_nonneg in *; cbn in *; lia.

Lemma simulate_steps_nonneg session_id agent_id task_id todo :
  forall i elapsed_time,
    preserves stats_nonneg
      (simulate_steps session_id agent_id task_id i todo elapsed_time).
Proof.
  induction todo as [|step rest IH]; intros i elapsed_time; simpl.
  - apply preserves_ret.
  - apply preserves_bind;
      [unfold simulate_progress; keep_with nonneg_step | intros _; apply IH].
Qed.

Lemma handle_nonneg r : preserves stats_nonneg (handle r).
Proof.
  destruct r; cbn [handle].
  - unfold connect, sio_disconnect, disconnect, remove_agent, unregister_from.
    keep_with nonneg_step.
  - unfold disconnect, remove_agent, unregister_from. keep_with nonneg_step.
  - unfold join_session. keep_with nonneg_step.
  - unfold register_agent. keep_with nonneg_step.
  - unfold start_task. keep_with nonneg_step.
  - unfold agent_progress. keep_with nonneg_step.
  - unfold collaboration_request. keep_with nonneg_step.
  - unfold broadcast_message. keep_with nonneg_step.
  - unfold health_check. keep_with nonneg_step.
  - unfold get_websocket_stats. keep_with nonneg_step.
  - unfold simulate_agent_activity. keep_with nonneg_step.
  - unfold simulate_task_execution.
    apply preserves_bind; [keep_with nonneg_step | intros t].
    apply preserves_bind; [apply simulate_steps_nonneg | intros elapsed].
    unfold simulate_completion. keep_with nonneg_step.
  - unfold simulate_progress. keep_with nonneg_step.
  - unfold simulate_completion. keep_with nonneg_step.
Qed.

(** X16. No counter is ever negative in a state the server reaches: not
    the server's connections (a disconnection without a counted
    connection is floored at zero), messages processed, tasks completed
    and errors, and not a session's totalTasks and completedTasks. *)
Theorem X16_counters_never_negative :
  forall (w : World),
    reachable w ->
    0 <= connections (server_stats w)
    /\ 0 <= messages_processed (server_stats w)
    /\ 0 <= tasks_completed (server_stats w)
    /\ 0 <= errors (server_stats w)
    /\ (forall k s, Dict.get k (active_sessions w) = Some s ->
                    0 <= totalTasks (metrics s)
                    /\ 0 <= completedTasks (metrics s)).
Proof.
  intros w Hr.
  assert (Hs : stats_nonneg w).
  { destruct Hr as [requests ->].
    assert (Hrun : forall l w0, stats_nonneg w0 -> stats_nonneg (run l w0)).
    { induction l as [|r rest IH]; intros w0 H0; simpl; [exact H0|].
      apply IH, handle_nonneg, H0. }
    apply Hrun. unfold stats_nonneg. cbn. lia. }
  destruct Hs as (H1 & H2 & H3 & H4).
  repeat split; try assumption;
    destruct (reachable_sessions_ok w Hr k s (dict_get_In _ _ _ H))
      as (_ & _ & _ & _ & H5 & H6 & _); assumption.
Qed.

(** X17. The update of a session's metrics at the end of a simulated
    task adds one to completedTasks and leaves totalTasks and errorCount
    alone.  With a completedTasks that is not negative, as in every state
    the server reaches, its division is by a count of at least one: the
    only exception the arithmetic can raise is [OverflowError], never
    [ZeroDivisionError].  While the average is still the 0 a session
    starts with, the new average is the float nearest to the execution
    time in milliseconds over the new count, a count that includes the
    completions agents reported, whose times were never added. *)
Theorem X17_record_completion_average :
  forall (elapsed_time : Z) (m : Metrics),
    let m' := record_completion elapsed_time m in
    0 <= completedTasks m ->
    completedTasks m' = completedTasks m + 1
    /\ totalTasks m' = totalTasks m
    /\ errorCount m' = errorCount m
    /\ (forall e,
           completion_average elapsed_time (incr_completedTasks m) = Raised e ->
           e = OverflowError)
    /\ (forall average,
           avgExecutionTime m = PyInt 0 ->
           int_true_div (elapsed_time * 1000) (completedTasks m + 1)
           = Returned average ->
           avgExecutionTime m' = PyFloat average).
Proof.
  intros elapsed_time m m' Hc. subst m'.
  destruct (record_completion_counts elapsed_time m) as (Ht & Hn & He).
  split; [exact Hn|]. split; [exact Ht|]. split; [exact He|]. split.
  - intros e. unfold completion_average.
    cbn [completedTasks avgExecutionTime incr_completedTasks].
    destruct (num_mul _ _) as [weighted|e1] eqn:H1; cbn [and_then].
    2:{ intros [= <-]. exact (num_mul_raises _ _ _ H1). }
    destruct (num_add _ _) as [total|e2] eqn:H2; cbn [and_then].
    2:{ intros [= <-]. exact (num_add_raises _ _ _ H2). }
    apply div_by_nonzero_int_raises. lia.
  - intros average Havg Hdiv. unfold record_completion, completion_average.
    cbn [completedTasks avgExecutionTime incr_completedTasks].
    rewrite Havg. cbn [num_mul num_add and_then]. rewrite Z.mul_0_l, Z.add_0_l.
    cbn [num_div]. rewrite Hdiv. reflexivity.
Qed.

(** ** Sessions list registered agents only *)

Lemma arw_alter_keep extra (f : Session -> Session) k w :
  (forall s, agents (f s) = agents s) ->
  agents_registered_with extra w ->
  agents_registered_with extra (with_active_sessions (Dict.alter f k) w).
Proof.
  intros Hf [Hs Hx]. split; [|exact Hx].
  intros k' s' a Hin Ha. cbn in Hin.
  apply dict_alter_In in Hin as [Hold | [-> [s [Hin ->]]]].
  - now apply (Hs k' s').
  - rewrite Hf in Ha. now apply (Hs k s).
Qed.

Lemma arw_alter_enlist extra x v k w :
  In x extra ->
  agents_registered_with extra w ->
  agents_registered_with extra
    (with_active_sessions (Dict.alter (with_agents (Dict.set x v)) k) w).
Proof.
  intros Hin [Hs Hx]. split; [|exact Hx].
  intros k' s' a Hin' Ha. cbn in Hin'.
  apply dict_alter_In in Hin' as [Hold | [-> [s [Hs' ->]]]].
  - now apply (Hs k' s').
  - cbn in Ha. destruct (eq_dec a x) as [->|ne].
    + now apply Hx.
    + rewrite dict_get_set_ne in Ha by exact ne. now apply (Hs k s).
Qed.

Lemma arw_set_new extra k t1 t2 w :
  agents_registered_with extra w ->
  agents_registered_with extra
    (with_active_sessions (Dict.set k (new_session k t1 t2)) w).
Proof.
  intros [Hs Hx]. split; [|exact Hx].
  intros k' s' a Hin Ha. cbn in Hin.
  apply dict_set_In in Hin as [Hold | [-> ->]].
  - now apply (Hs k' s').
  - cbn in Ha. congruence.
Qed.

Lemma arw_register extra x v w :
  agents_registered_with extra w ->
  agents_registered_with (x :: extra)
    (with_registered_agents (Dict.set x v) w).
Proof.
  intros [Hs Hx].
  assert (Hkeep : forall a, Dict.get a (registered_agents w) <> None ->
                            Dict.get a (Dict.set x v (registered_agents w)) <> None).
  { intros a Ha. destruct (eq_dec a x) as [->|ne].
    - rewrite dict_get_set_eq. discriminate.
    - now rewrite dict_get_set_ne. }
  split.
  - intros k s a Hin Ha. cbn. apply Hkeep. now apply (Hs k s).
  - intros y [<- | Hy]; cbn.
    + rewrite dict_get_set_eq. discriminate.
    + apply Hkeep. now apply Hx.
Qed.

Lemma arw_forget extra x w :
  agents_registered_with (x :: extra) w -> agents_registered_with extra w.
Proof. intros [Hs Hx]. split; [exact Hs|]. intros y Hy. apply Hx. now right. Qed.

Lemma remove_agent_registered a : preserves agents_registered (remove_agent a).
Proof.
  intros w [Hs _]. rewrite remove_agent_exec. split; [|intros x []].
  intros k s' a0 Hin Ha. cbn in *.
  apply in_map_iff in Hin as [[k0 s0] [[= <- <-] Hin]]. cbn in Ha.
  destruct (eq_dec a0 a) as [->|ne].
  - rewrite dict_get_del_eq in Ha. congruence.
  - rewrite dict_get_del_ne in Ha by exact ne.
    rewrite dict_get_del_ne by exact ne. now apply (Hs k0 s0).
Qed.

Ltac registered_step :=
  let w := fresh "w" in
  let H := fresh "H" in
  intros w H; unfold exec, modify; cbn [snd];
  first
    [ exact H
    | apply arw_alter_keep; [reflexivity | exact H]
    | apply arw_set_new; exact H
    | apply arw_alter_enlist; [now left | exact H] ].

Lemma simulate_steps_registered session_id agent_id task_id todo :
  forall i elapsed_time,
    preserves agents_registered
      (simulate_steps session_id agent_id task_id i todo elapsed_time).
Proof.
  induction todo as [|step rest IH]; intros i elapsed_time; simpl.
  - apply preserves_ret.
  - apply preserves_bind;
      [unfold simulate_progress; keep_with registered_step | intros _; apply IH].
Qed.

Lemma disconnect_registered sid :
  preserves (agents_registered_with []) (disconnect sid).
Proof.
  unfold disconnect.
  apply preserves_bind; [keep_with registered_step | intros _].
  apply preserves_bind; [keep_with registered_step | intros w].
  apply preserves_for_each. intros a. apply remove_agent_registered.
Qed.

Lemma handle_registered r : preserves agents_registered (handle r).
Proof.
  unfold agents_registered. destruct r; cbn [handle].
  - unfold connect. keep_with registered_step. apply disconnect_registered.
  - apply disconnect_registered.
  - unfold join_session. keep_with registered_step.
  - unfold discard. apply preserves_bind; [|intros _; apply preserves_ret].
    unfold register_agent.
    destruct (if_truthy (ai_id agent_info)) as [agent_id|];
      [|keep_with registered_step].
    apply preserves_bind; [keep_with registered_step | intros t].
    cbv zeta.
    apply triple_bind with (R := agents_registered_with [agent_id]).
    + intros w H. apply arw_register. exact H.
    + intros _. apply triple_weaken; [|intros w; apply arw_forget].
      keep_with registered_step.
  - unfold start_task. keep_with registered_step.
  - unfold agent_progress. keep_with registered_step.
  - unfold collaboration_request. keep_with registered_step.
  - unfold broadcast_message. keep_with registered_step.
  - unfold health_check. keep_with registered_step.
  - unfold get_websocket_stats. keep_with registered_step.
  - unfold discard. apply preserves_bind; [|intros _; apply preserves_ret].
    unfold simulate_agent_activity. cbv zeta.
    apply preserves_bind; [keep_with registered_step | intros t0].
    apply preserves_bind; [keep_with registered_step | intros t1].
    unfold preserves.
    match goal with
    | |- triple _ (bind (modify (with_registered_agents (Dict.set ?x _))) _) _ =>
        apply triple_bind with (R := agents_registered_with [x])
    end.
    + intros w H. apply arw_register. exact H.
    + intros _. apply triple_weaken; [|intros w; apply arw_forget].
      keep_with registered_step.
  - unfold simulate_task_execution.
    apply preserves_bind; [keep_with registered_step | intros t].
    apply preserves_bind; [apply simulate_steps_registered | intros elapsed].
    unfold simulate_completion. keep_with registered_step.
  - unfold simulate_progress. keep_with registered_step.
  - unfold simulate_completion. keep_with registered_step.
Qed.

(** X18. In every state the server reaches, an agent id that a session
    lists is an id the registry holds: an agent is put into the registry
    before it is put into a session, and a disconnection takes a removed
    id out of every session. *)
Theorem X18_session_agents_are_registered :
  forall (w : World) (k : string) (s : Session) (a : string),
    reachable w ->
    Dict.get k (active_sessions w) = Some s ->
    Dict.mem a (agents s) = true ->
    Dict.mem a (registered_agents w) = true.
Proof.
  intros w k s a Hr Hs Ha.
  assert (H : agents_registered w).
  { destruct Hr as [requests ->].
    assert (Hrun : forall l w0, agents_registered w0 ->
                                agents_registered (run l w0)).
    { induction l as [|r rest IH]; intros w0 H0; simpl; [exact H0|].
      apply IH, handle_registered, H0. }
    apply Hrun. split; [intros ? ? ? [] | intros ? []]. }
  destruct H as [H _]. unfold Dict.mem in *.
  specialize (H k s a (dict_get_In _ _ _ Hs)).
  destruct (Dict.get a (agents s)); [|discriminate].
  destruct (Dict.get a (registered_agents w)); [reflexivity|].
  exfalso. apply H; [discriminate | reflexivity].
Qed.

(** ** Who sits in a session *)

Lemma seated_keep (f : Session -> Session) k s :
  agents (f s) = agents s -> seated_by_demo k s -> seated_by_demo k (f s).
Proof. unfold seated_by_demo. intros ->. exact (fun H => H). Qed.

Lemma seated_demo_agent k s agent_id agent_type registered_at env :
  seated_by_demo k s ->
  seated_by_demo k
    (with_agents
       (Dict.set agent_id
          (mkAgent agent_id agent_type
             (Some ["data-analysis"; "machine-learning"; "visualization"])
             (Some "idle") (Some (mkMetadata (Some 0) (Some 3)))
             "demo" registered_at env))
       s).
Proof.
  intros H a agent Hin. cbn [agents with_agents] in Hin.
  apply dict_set_In in Hin as [Hold | [_ ->]]; [now apply (H a)|].
  repeat split.
Qed.

Lemma seated_drop a k s :
  seated_by_demo k s -> seated_by_demo k (with_agents (Dict.del a) s).
Proof.
  intros H a' agent Hin. cbn [agents with_agents] in Hin.
  unfold Dict.del in Hin. apply filter_In in Hin as [Hin _]. now apply (H a').
Qed.

Ltac seated_step :=
  let w := fresh "w" in
  let H := fresh "H" in
  intros w H; unfold exec, modify; cbn [snd];
  first
    [ exact H
    | apply sessions_all_alter;
      [ intros ? ?;
        first [ apply seated_keep; [reflexivity | assumption]
              | apply seated_demo_agent; assumption ]
      | exact H ]
    | apply sessions_all_set; [intros ? ? [] | exact H] ].

Lemma disconnect_seated sid :
  preserves (sessions_all seated_by_demo) (disconnect sid).
Proof.
  unfold disconnect.
  apply preserves_bind; [keep_with seated_step | intros _].
  apply preserves_bind; [keep_with seated_step | intros w].
  apply preserves_for_each. intros a w0 H0.
  apply sessions_all_drop; [intros k s; apply seated_drop | exact H0].
Qed.

Lemma simulate_steps_seated session_id agent_id task_id todo :
  forall i elapsed_time,
    preserves (sessions_all seated_by_demo)
      (simulate_steps session_id agent_id task_id i todo elapsed_time).
Proof.
  induction todo as [|step rest IH]; intros i elapsed_time; simpl.
  - apply preserves_ret.
  - apply preserves_bind;
      [unfold simulate_progress; keep_with seated_step | intros _; apply IH].
Qed.

Lemma handle_seated r : preserves (sessions_all seated_by_demo) (handle r).
Proof.
  destruct r; cbn [handle].
  - unfold connect. keep_with seated_step. apply disconnect_seated.
  - apply disconnect_seated.
  - unfold join_session. keep_with seated_step.
  - unfold register_agent. keep_with seated_step.
  - unfold start_task. keep_with seated_step.
  - unfold agent_progress. keep_with seated_step.
  - unfold collaboration_request. keep_with seated_step.
  - unfold broadcast_message. keep_with seated_step.
  - unfold health_check. keep_with seated_step.
  - unfold get_websocket_stats. keep_with seated_step.
  - unfold simulate_agent_activity. keep_with seated_step.
  - unfold simulate_task_execution.
    apply preserves_bind; [keep_with seated_step | intros t].
    apply preserves_bind; [apply simulate_steps_seated | intros elapsed].
    unfold simulate_completion. keep_with seated_step.
  - unfold simulate_progress. keep_with seated_step.
  - unfold simulate_completion. keep_with seated_step.
Qed.

Lemma reachable_seated w : reachable w -> sessions_all seated_by_demo w.
Proof.
  intros [requests ->].
  assert (Hrun : forall l w0, sessions_all seated_by_demo w0 ->
                              sessions_all seated_by_demo (run l w0)).
  { induction l as [|r rest IH]; intros w0 H0; simpl; [exact H0|].
    apply IH, handle_seated, H0. }
  apply Hrun. intros k s [].
Qed.

(** X13. A connection that joins a session and then registers an agent
    does not make the agent a member of the session: after both calls the
    matcher returns for the session what it returned before them, and
    nothing for a session the join created.  In every state the server
    reaches, the agents a session lists, and so the agents the matcher
    returns, are those the demonstration endpoint seated: their socket is
    demo, they are idle with 0 of 3 tasks and have its three
    capabilities. *)
Theorem X13_join_then_register :
  (forall (sid session_id : string) (agent_info : AgentInfo)
          (td : TaskDefinition) (w : World),
      let w1 := exec (join_session sid (Some session_id)) w in
      let w2 := exec (register_agent sid agent_info) w1 in
      truthy session_id = true ->
      find_suitable_agents w2 td session_id
      = find_suitable_agents w td session_id
      /\ (Dict.get session_id (active_sessions w) = None ->
          find_suitable_agents w2 td session_id = []
          /\ exists s, Dict.get session_id (active_sessions w2) = Some s
                       /\ agents s = []))
  /\ (forall (w : World),
         reachable w ->
         (forall k s a agent,
             Dict.get k (active_sessions w) = Some s ->
             Dict.get a (agents s) = Some agent ->
             socket_id agent = "demo"
             /\ agent_status agent = Some "idle"
             /\ agent_metadata agent = Some (mkMetadata (Some 0) (Some 3))
             /\ agent_capabilities agent
                = Some ["data-analysis"; "machine-learning"; "visualization"])
         /\ (forall td session_id agent,
                In agent (find_suitable_agents w td session_id) ->
                socket_id agent = "demo")).
Proof.
  split.
  - intros sid session_id agent_info td w w1 w2 Ht.
    assert (H12 : active_sessions w2 = active_sessions w1).
    { subst w2. destruct (if_truthy (ai_id agent_info)) as [agent_id|] eqn:Hid.
      - now rewrite (register_agent_exec sid agent_info agent_id w1 Hid).
      - unfold exec, register_agent. rewrite Hid. reflexivity. }
    assert (Hm : find_suitable_agents w2 td session_id
                 = find_suitable_agents w1 td session_id)
      by (apply find_suitable_agents_ext; now rewrite H12).
    destruct (Dict.get session_id (active_sessions w)) as [s|] eqn:Hs.
    + split; [|discriminate].
      rewrite Hm. apply find_suitable_agents_ext. subst w1.
      destruct (join_session_existing sid session_id s w Ht Hs) as [-> _].
      rewrite dict_get_alter_eq, Hs. reflexivity.
    + assert (H1 : exists s1, Dict.get session_id (active_sessions w1) = Some s1
                              /\ agents s1 = []).
      { subst w1. destruct (join_session_new sid session_id w Ht Hs) as [-> _].
        rewrite (dict_get_last _ _ _ Hs). eexists. split; reflexivity. }
      destruct H1 as [s1 [Hs1 Ha1]].
      assert (He : find_suitable_agents w1 td session_id = []).
      { rewrite (find_suitable_agents_filter _ _ _ _ Hs1), Ha1. reflexivity. }
      split.
      * rewrite Hm, He. symmetry. now apply find_suitable_agents_no_session.
      * intros _. split; [now rewrite Hm|].
        exists s1. split; [now rewrite H12 | exact Ha1].
  - intros w Hr.
    pose proof (reachable_seated w Hr) as Hall.
    assert (Hagents : forall k s a agent,
               Dict.get k (active_sessions w) = Some s ->
               Dict.get a (agents s) = Some agent ->
               socket_id agent = "demo"
               /\ agent_status agent = Some "idle"
               /\ agent_metadata agent = Some (mkMetadata (Some 0) (Some 3))
               /\ agent_capabilities agent
                  = Some ["data-analysis"; "machine-learning"; "visualization"]).
    { intros k s a agent Hs Ha.
      exact (Hall k s (dict_get_In _ _ _ Hs) a agent (dict_get_In _ _ _ Ha)). }
    split; [exact Hagents|].
    intros td session_id agent Hin.
    destruct (Dict.get session_id (active_sessions w)) as [s|] eqn:Hs.
    + rewrite (find_suitable_agents_filter _ _ _ _ Hs) in Hin.
      apply filter_In in Hin as [Hin _].
      unfold Dict.values in Hin. apply in_map_iff in Hin as [[a ag] [<- Hin]].
      exact (proj1 (Hall session_id s (dict_get_In _ _ _ Hs) a ag Hin)).
    + rewrite (find_suitable_agents_no_session _ _ _ Hs) in Hin. contradiction.
Qed.

(** ** Sessions are never removed *)

Lemma se_refl w : sessions_extend w w.
Proof.
  split; [exists []; now rewrite app_nil_r|].
  intros k s Hs. now exists s.
Qed.

Lemma se_sessions w0 w w' :
  active_sessions w' = active_sessions w ->
  sessions_extend w0 w -> sessions_extend w0 w'.
Proof. unfold sessions_extend. intros ->. exact (fun H => H). Qed.

Lemma se_alter (f : Session -> Session) k w0 w :
  (forall s, createdAt (f s) = createdAt s /\ sessionId (f s) = sessionId s) ->
  sessions_extend w0 w ->
  sessions_extend w0 (with_active_sessions (Dict.alter f k) w).
Proof.
  intros Hf [[added Hk] Hg]. split; cbn [active_sessions with_active_sessions].
  - exists added. now rewrite dict_keys_alter.
  - intros k0 s Hs. destruct (Hg k0 s Hs) as [s' [Hs' [Hc Hi]]].
    destruct (eq_dec k0 k) as [->|ne].
    + rewrite dict_get_alter_eq, Hs'. cbn. eexists. split; [reflexivity|].
      destruct (Hf s') as [-> ->]. now split.
    + rewrite dict_get_alter_ne by exact ne. now exists s'.
Qed.

Lemma se_fresh k v w0 w :
  Dict.get k (active_sessions w) = None ->
  sessions_extend w0 w ->
  sessions_extend w0 (with_active_sessions (Dict.set k v) w).
Proof.
  intros Hfresh [[added Hk] Hg]. split; cbn [active_sessions with_active_sessions].
  - exists (added ++ [k]). rewrite (dict_set_fresh _ _ _ Hfresh).
    unfold Dict.keys in *. now rewrite map_app, Hk, app_assoc.
  - intros k0 s Hs. destruct (Hg k0 s Hs) as [s' [Hs' Hkeep]].
    exists s'. split; [|exact Hkeep].
    rewrite dict_get_set_ne; [exact Hs' | congruence].
Qed.

Lemma se_remove_agent a w0 : preserves (sessions_extend w0) (remove_agent a).
Proof.
  intros w [[added Hk] Hg]. rewrite remove_agent_exec.
  split; cbn [active_sessions with_active_sessions].
  - exists added. unfold Dict.keys in *. now rewrite map_map.
  - intros k s Hs. destruct (Hg k s Hs) as [s' [Hs' Hkeep]].
    exists (with_agents (Dict.del a) s'). split; [|exact Hkeep].
    unfold drop_agent.
    rewrite (dict_get_map_values (with_agents (Dict.del a))), Hs'. reflexivity.
Qed.

Lemma if_truthy_inv o s : if_truthy o = Some s -> o = Some s /\ truthy s = true.
Proof.
  destruct o as [x|]; simpl; [|discriminate].
  destruct (truthy x) eqn:E; [|discriminate]. intros [= <-]. now split.
Qed.

Lemma se_join_session sid data_sessionId w0 :
  preserves (sessions_extend w0) (join_session sid data_sessionId).
Proof.
  intros w H.
  destruct (if_truthy data_sessionId) as [session_id|] eqn:Hid.
  - apply if_truthy_inv in Hid as [-> Ht].
    destruct (Dict.get session_id (active_sessions w)) as [s|] eqn:Hs.
    + destruct (join_session_existing sid session_id s w Ht Hs) as [Hss _].
      apply (se_sessions _ (with_active_sessions
                              (Dict.alter (set_lastActivity (clock (ticks w) * 1000))
                                          session_id) w)); [exact Hss|].
      apply se_alter; [intros; split; reflexivity | exact H].
    + destruct (join_session_new sid session_id w Ht Hs) as [Hss _].
      apply (se_sessions _ (with_active_sessions
                              (Dict.set session_id
                                 (new_session session_id (clock (ticks w) * 1000)
                                    (clock (S (S (ticks w))) * 1000))) w)).
      * rewrite Hss. cbn. now rewrite (dict_set_fresh _ _ _ Hs).
      * now apply se_fresh.
  - unfold exec, join_session. rewrite Hid. exact H.
Qed.

(** The session table after the demonstration endpoint. *)
Lemma simulate_agent_activity_sessions request_data w :
  let session_id := get_or (sr_sessionId request_data) "demo-session" in
  let demo_agent :=
    mkAgent ("demo-agent-" ++ str_of_int (int_of (clock (ticks w))))%string
            (Some (get_or (sr_agentType request_data) "data-processor"))
            (Some ["data-analysis"; "machine-learning"; "visualization"])
            (Some "idle") (Some (mkMetadata (Some 0) (Some 3)))
            "demo" (clock (S (ticks w)) * 1000) environment in
  active_sessions (exec (simulate_agent_activity request_data) w)
  = Dict.alter (with_agents (Dict.set (agent_id demo_agent) demo_agent)) session_id
      (if Dict.mem session_id (active_sessions w)
       then active_sessions w
       else Dict.set session_id
              (new_session session_id (clock (S (S (ticks w))) * 1000)
                           (clock (S (S (S (ticks w)))) * 1000))
              (active_sessions w))
  /\ registered_agents (exec (simulate_agent_activity request_data) w)
     = Dict.set (agent_id demo_agent) demo_agent (registered_agents w)
  /\ server_stats (exec (simulate_agent_activity request_data) w) = server_stats w
  /\ fst (simulate_agent_activity request_data w) = agent_id demo_agent.
Proof.
  intros session_id demo_agent. subst session_id demo_agent.
  unfold exec, simulate_agent_activity. step_handler.
  destruct (Dict.mem _ (active_sessions w)); cbn; repeat split.
Qed.

Lemma se_simulate_agent_activity request_data w0 :
  preserves (sessions_extend w0) (simulate_agent_activity request_data).
Proof.
  intros w H.
  destruct (simulate_agent_activity_sessions request_data w) as [Hss _].
  set (k := get_or (sr_sessionId request_data) "demo-session") in *.
  destruct (Dict.mem k (active_sessions w)) eqn:Hm.
  - match type of Hss with
    | _ = Dict.alter ?f _ _ =>
        apply (se_sessions w0 (with_active_sessions (Dict.alter f k) w));
          [exact Hss|]
    end.
    apply se_alter; [intros; split; reflexivity | exact H].
  - assert (Hnone : Dict.get k (active_sessions w) = None).
    { unfold Dict.mem in Hm. destruct (Dict.get k (active_sessions w));
        [discriminate | reflexivity]. }
    match type of Hss with
    | _ = Dict.alter ?f _ (Dict.set _ ?v _) =>
        apply (se_sessions w0
                 (with_active_sessions (Dict.alter f k)
                    (with_active_sessions (Dict.set k v) w)));
          [exact Hss|]
    end.
    apply se_alter; [intros; split; reflexivity|].
    now apply se_fresh.
Qed.

Ltac extend_step :=
  let w := fresh "w" in
  let H := fresh "H" in
  intros w H; unfold exec, modify; cbn [snd];
  first
    [ exact H
    | apply se_alter; [intros; split; reflexivity | exact H] ].

Lemma se_simulate_steps session_id agent_id task_id todo w0 :
  forall i elapsed_time,
    preserves (sessions_extend w0)
      (simulate_steps session_id agent_id task_id i todo elapsed_time).
Proof.
  induction todo as [|step rest IH]; intros i elapsed_time; simpl.
  - apply preserves_ret.
  - apply preserves_bind;
      [unfold simulate_progress; keep_with extend_step | intros _; apply IH].
Qed.

Lemma se_disconnect sid w0 : preserves (sessions_extend w0) (disconnect sid).
Proof.
  unfold disconnect.
  apply preserves_bind; [keep_with extend_step | intros _].
  apply preserves_bind; [keep_with extend_step | intros w].
  apply preserves_for_each. intros a. apply se_remove_agent.
Qed.

Lemma handle_extends r w0 : preserves (sessions_extend w0) (handle r).
Proof.
  destruct r; cbn [handle].
  - unfold connect. keep_with extend_step. apply se_disconnect.
  - apply se_disconnect.
  - apply se_join_session.
  - unfold register_agent. keep_with extend_step.
  - unfold start_task. keep_with extend_step.
  - unfold agent_progress. keep_with extend_step.
  - unfold collaboration_request. keep_with extend_step.
  - unfold broadcast_message. keep_with extend_step.
  - unfold health_check. keep_with extend_step.
  - unfold get_websocket_stats. keep_with extend_step.
  - unfold discard. apply preserves_bind; [|intros _; apply preserves_ret].
    apply se_simulate_agent_activity.
  - unfold simulate_task_execution.
    apply preserves_bind; [keep_with extend_step | intros t].
    apply preserves_bind; [apply se_simulate_steps | intros elapsed].
    unfold simulate_completion. keep_with extend_step.
  - unfold simulate_progress. keep_with extend_step.
  - unfold simulate_completion. keep_with extend_step.
Qed.

(** X19. No sequence of requests ever removes a session or moves it in the
    session table: the table after the requests is the table before them
    with new sessions at its end, and every session that was there is
    still stored under its key with the creation time and id it had. *)
Theorem X19_sessions_are_never_removed :
  forall (requests : list Request) (w : World),
    (exists added,
        Dict.keys (active_sessions (run requests w))
        = Dict.keys (active_sessions w) ++ added)
    /\ (forall k s,
           Dict.get k (active_sessions w) = Some s ->
           exists s',
             Dict.get k (active_sessions (run requests w)) = Some s'
             /\ createdAt s' = createdAt s
             /\ sessionId s' = sessionId s).
Proof.
  intros requests w.
  assert (Hrun : forall l w1, sessions_extend w w1 -> sessions_extend w (run l w1)).
  { induction l as [|r rest IH]; intros w1 H1; simpl; [exact H1|].
    apply IH, handle_extends, H1. }
  exact (Hrun requests w (se_refl w)).
Qed.

(** ** What the message counter counts *)

Ltac messages_step :=
  let w := fresh "w" in
  let H := fresh "H" in
  intros w H; unfold messages_are in *; cbn in *; first [exact H | lia].

Lemma messages_counted c :
  triple (messages_are c) (modify (with_server_stats incr_messages_processed))
         (messages_are (c + 1)).
Proof. intros w H. unfold messages_are in *. cbn. now rewrite H. Qed.

Lemma simulate_steps_messages session_id agent_id task_id todo c :
  forall i elapsed_time,
    preserves (messages_are c)
      (simulate_steps session_id agent_id task_id i todo elapsed_time).
Proof.
  induction todo as [|step rest IH]; intros i elapsed_time; simpl.
  - apply preserves_ret.
  - apply preserves_bind;
      [unfold simulate_progress; keep_with messages_step | intros _; apply IH].
Qed.

Lemma handle_messages r c :
  triple (messages_are c) (handle r)
         (messages_are (c + if counts_as_message r then 1 else 0)).
Proof.
  destruct r; cbn [handle counts_as_message]; rewrite ?Z.add_0_r.
  - unfold connect, sio_disconnect, disconnect, remove_agent, unregister_from.
    keep_with messages_step.
  - unfold disconnect, remove_agent, unregister_from. keep_with messages_step.
  - unfold join_session. keep_with messages_step.
  - unfold register_agent. keep_with messages_step.
  - unfold start_task.
    destruct (if_truthy (td_id _)) as [task_id|]; rewrite ?Z.add_0_r.
    + apply triple_bind with (R := messages_are (c + 1));
        [apply messages_counted | intros _].
      keep_with messages_step.
    + keep_with messages_step.
  - unfold agent_progress. cbv zeta.
    apply triple_bind with (R := messages_are (c + 1));
      [apply messages_counted | intros _].
    keep_with messages_step.
  - unfold collaboration_request. cbv zeta.
    apply triple_bind with (R := messages_are (c + 1));
      [apply messages_counted | intros _].
    keep_with messages_step.
  - unfold discard.
    apply triple_bind with (R := messages_are (c + 1));
      [|intros _; apply preserves_ret].
    unfold broadcast_message. cbv zeta.
    apply triple_bind with (R := messages_are c);
      [keep_with messages_step | intros t].
    apply triple_bind with (R := messages_are c);
      [keep_with messages_step | intros w].
    apply triple_bind with (R := messages_are c);
      [keep_with messages_step | intros target_count].
    apply triple_bind with (R := messages_are (c + 1));
      [apply messages_counted | intros _].
    keep_with messages_step.
  - unfold health_check. keep_with messages_step.
  - unfold get_websocket_stats. keep_with messages_step.
  - unfold simulate_agent_activity. keep_with messages_step.
  - unfold simulate_task_execution.
    apply preserves_bind; [keep_with messages_step | intros t].
    apply preserves_bind; [apply simulate_steps_messages | intros elapsed].
    unfold simulate_completion. keep_with messages_step.
  - unfold simulate_progress. keep_with messages_step.
  - unfold simulate_completion. keep_with messages_step.
Qed.

(** X20. [server_stats['messages_processed']] counts exactly the task starts
    that carry an id, the progress reports, the collaboration requests and
    the REST broadcasts: over any sequence of requests it grows by the
    number of those, whatever their outcome, and by nothing else. *)
Theorem X20_messages_processed_counts :
  forall (requests : list Request) (w : World),
    messages_processed (server_stats (run requests w))
    = messages_processed (server_stats w) + messages_in requests.
Proof.
  induction requests as [|r rest IH]; intros w.
  - unfold messages_in. simpl. lia.
  - simpl run. rewrite IH.
    rewrite (handle_messages r (messages_processed (server_stats w)) w eq_refl).
    unfold messages_in. simpl filter.
    destruct (counts_as_message r); simpl List.length; lia.
Qed.

(** ** The demonstration endpoints *)


(** X22. [simulate_agent_activity] registers a demo agent named after the
    clock, with socket "demo", and lists it in the requested session, which
    it creates if it is missing; an existing session is otherwise left as it
    was (its [lastActivity] is not refreshed).  It sends one
    [agent-registered] event to the session's room, joins no room, counts
    nothing, and from then on the matcher offers the demo agent for every
    task of that session it is eligible for. *)
Theorem X22_simulate_agent_activity :
  forall (request_data : SimulationRequest) (w : World),
    let session_id := get_or (sr_sessionId request_data) "demo-session" in
    let m := simulate_agent_activity request_data in
    let demo_agent :=
      mkAgent ("demo-agent-" ++ str_of_int (int_of (clock (ticks w))))%string
              (Some (get_or (sr_agentType request_data) "data-processor"))
              (Some ["data-analysis"; "machine-learning"; "visualization"])
              (Some "idle") (Some (mkMetadata (Some 0) (Some 3)))
              "demo" (clock (S (ticks w)) * 1000) environment in
    fst (m w) = agent_id demo_agent
    /\ Dict.get (agent_id demo_agent) (registered_agents (exec m w))
       = Some demo_agent
    /\ (exists session',
           Dict.get session_id (active_sessions (exec m w)) = Some session'
           /\ Dict.get (agent_id demo_agent) (agents session') = Some demo_agent
           /\ (forall session,
                  Dict.get session_id (active_sessions w) = Some session ->
                  session'
                  = with_agents (Dict.set (agent_id demo_agent) demo_agent)
                                session))
    /\ (forall k, k <> session_id ->
                  Dict.get k (active_sessions (exec m w))
                  = Dict.get k (active_sessions w))
    /\ (exists t,
           emitted m w
           = [(EvAgentRegistered session_id demo_agent t, Room session_id)])
    /\ rooms (exec m w) = rooms w
    /\ server_stats (exec m w) = server_stats w
    /\ (forall task_definition,
           eligible task_definition demo_agent = true ->
           In demo_agent
              (find_suitable_agents (exec m w) task_definition session_id)).
Proof.
  intros request_data w session_id m demo_agent.
  destruct (simulate_agent_activity_sessions request_data w)
    as [Hss [Hreg [Hstats Hid]]].
  fold session_id in Hss. fold demo_agent in Hss, Hreg, Hid. fold m in Hss, Hreg, Hstats, Hid.
  assert (Hs' : exists session',
             Dict.get session_id (active_sessions (exec m w)) = Some session'
             /\ Dict.get (agent_id demo_agent) (agents session') = Some demo_agent
             /\ (forall session,
                    Dict.get session_id (active_sessions w) = Some session ->
                    session'
                    = with_agents (Dict.set (agent_id demo_agent) demo_agent)
                                  session)).
  { rewrite Hss. rewrite dict_get_alter_eq. unfold Dict.mem.
    destruct (Dict.get session_id (active_sessions w)) as [s|] eqn:Hs.
    - rewrite Hs. cbn [option_map]. eexists. split; [reflexivity|].
      split; [cbn [agents with_agents]; apply dict_get_set_eq|].
      intros session [= <-]. reflexivity.
    - rewrite dict_get_set_eq. cbn [option_map]. eexists. split; [reflexivity|].
      split; [cbn [agents with_agents]; apply dict_get_set_eq|].
      intros session [=]. }
  split; [exact Hid|].
  split; [rewrite Hreg; apply dict_get_set_eq|].
  split; [exact Hs'|].
  split.
  { intros k ne. rewrite Hss. rewrite dict_get_alter_ne by exact ne.
    destruct (Dict.mem session_id (active_sessions w)); [reflexivity|].
    now apply dict_get_set_ne. }
  split.
  { subst m demo_agent session_id.
    unfold emitted, exec, simulate_agent_activity. step_handler.
    destruct (Dict.mem _ (active_sessions w)); cbn;
      rewrite skipn_length_app; eexists; reflexivity. }
  split.
  { subst m demo_agent session_id.
    unfold exec, simulate_agent_activity. step_handler.
    destruct (Dict.mem _ (active_sessions w)); reflexivity. }
  split; [exact Hstats|].
  intros task_definition Hel.
  destruct Hs' as [session' [Hget [Hlisted _]]].
  rewrite (find_suitable_agents_filter _ _ _ _ Hget).
  apply filter_In. split; [|exact Hel].
  unfold Dict.values. apply in_map_iff.
  exists (agent_id demo_agent, demo_agent). split; [reflexivity|].
  now apply dict_get_In.
Qed.

(** ** The reporting endpoints *)

(** [GET /health] reads the clock and nothing else, whether its
    arithmetic raises or not. *)
Lemma health_check_only_clock w : only_clock_read w (exec health_check w).
Proof.
  assert (H : preserves (only_clock_read w) health_check).
  { unfold health_check.
    keep_with ltac:(let w' := fresh "w" in
                    let H := fresh "H" in
                    intros w' H; exact H).
  }
  apply H. unfold only_clock_read. repeat split.
Qed.

(** X23. After any sequence of requests from the initial state,
    [GET /api/ws/stats] reports as [messages_processed] the number of
    message requests handled, an [error_count] between zero and that
    number, counters that are not negative and a [task_queue_size] of
    zero; and neither it nor [GET /health] changes a table, a counter, a
    room or the outbox. *)
Theorem X23_stats_report_of_a_run :
  forall (requests : list Request),
    let w := run requests initial_world in
    let stats := fst (get_websocket_stats w) in
    stats_messages_processed stats = messages_in requests
    /\ 0 <= error_count stats <= stats_messages_processed stats
    /\ 0 <= connected_clients stats
    /\ 0 <= stats_tasks_completed stats
    /\ task_queue_size stats = 0%nat
    /\ stats_active_sessions stats = List.length (active_sessions w)
    /\ stats_registered_agents stats = List.length (registered_agents w)
    /\ only_clock_read w (exec get_websocket_stats w)
    /\ only_clock_read w (exec health_check w).
Proof.
  intros requests w stats.
  assert (Hm : forall l w0,
             messages_processed (server_stats (run l w0))
             = messages_processed (server_stats w0) + messages_in l).
  { induction l as [|r rest IH]; intros w0.
    - unfold messages_in. simpl. lia.
    - simpl run. rewrite IH.
      rewrite (handle_messages r (messages_processed (server_stats w0)) w0 eq_refl).
      unfold messages_in. simpl filter.
      destruct (counts_as_message r); simpl List.length; lia. }
  assert (Hn : forall l w0, stats_nonneg w0 -> stats_nonneg (run l w0)).
  { induction l as [|r rest IH]; intros w0 H0; simpl; [exact H0|].
    apply IH, handle_nonneg, H0. }
  assert (Hok : stats_ok w) by (apply reachable_stats_ok; now exists requests).
  assert (Hnn : stats_nonneg w) by (apply Hn; unfold stats_nonneg; cbn; lia).
  destruct Hnn as (Hc & _ & Ht & _).
  pose proof (health_check_only_clock w) as Hh.
  subst stats. unfold get_websocket_stats, only_clock_read, exec.
  step_handler.
  split; [exact (Hm requests initial_world)|].
  split; [exact Hok|].
  split; [exact Hc|].
  split; [exact Ht|].
  split; [reflexivity|].
  split; [reflexivity|].
  split; [reflexivity|].
  split; [repeat split; reflexivity | exact Hh].
Qed.

(** ** What [start_task] records *)

(** In parallel mode [start_task] counts the message and nothing else. *)
Lemma start_task_parallel_frame sid td task_id first_agent others w :
  if_truthy (td_id td) = Some task_id ->
  (get_or (td_collaborationMode td) "sequential" =? "parallel")%string = true ->
  find_suitable_agents w td (get_or (td_sessionId td) "default")
  = first_agent :: others ->
  server_stats (exec (start_task sid td) w)
  = incr_messages_processed (server_stats w)
  /\ registered_agents (exec (start_task sid td) w) = registered_agents w.
Proof.
  intros Hid Hmode Hm.
  destruct (Dict.get (get_or (td_sessionId td) "default") (active_sessions w))
    as [session|] eqn:Hs.
  2:{ rewrite find_suitable_agents_no_session in Hm by exact Hs. discriminate. }
  unfold exec, start_task. rewrite Hid.
  step_handler. unfold Dict.mem. rewrite Hs. cbn.
  match goal with |- context [find_suitable_agents ?W _ _] =>
    rewrite (find_suitable_agents_ext W w) end.
  2:{ cbn. rewrite !dict_alter_alter, dict_get_alter_eq, Hs. reflexivity. }
  rewrite Hm, Hmode. cbn.
  match goal with |- context [for_each ?l ?body ?W] =>
    pose proof (preserves_for_each
                  (fun w' => server_stats w' = incr_messages_processed (server_stats w)
                             /\ registered_agents w' = registered_agents w)
                  l body) as Hl;
    apply (Hl (fun agent w' H => H) W)
  end.
  split; reflexivity.
Qed.

(** The counters after [start_task]: an error is counted exactly when the
    matcher finds nobody. *)
Lemma start_task_stats sid td task_id w :
  if_truthy (td_id td) = Some task_id ->
  server_stats (exec (start_task sid td) w)
  = match find_suitable_agents w td (get_or (td_sessionId td) "default") with
    | [] => incr_errors (incr_messages_processed (server_stats w))
    | _ :: _ => incr_messages_processed (server_stats w)
    end
  /\ registered_agents (exec (start_task sid td) w) = registered_agents w.
Proof.
  intros Hid.
  destruct (find_suitable_agents w td (get_or (td_sessionId td) "default"))
    as [|first_agent others] eqn:Hm.
  - destruct (Dict.get (get_or (td_sessionId td) "default") (active_sessions w))
      as [session|] eqn:Hs.
    + rewrite (start_task_session_no_agent sid td task_id session w Hid Hs Hm).
      split; reflexivity.
    + rewrite (start_task_no_session sid td task_id w Hid Hs).
      split; reflexivity.
  - destruct (get_or (td_collaborationMode td) "sequential" =? "parallel")%string
      eqn:Hmode.
    + exact (start_task_parallel_frame sid td task_id first_agent others w
               Hid Hmode Hm).
    + rewrite (start_task_one_agent sid td task_id first_agent others w
                 Hid Hmode Hm).
      split; reflexivity.
Qed.

(** X24. [start_task] with a task id records the submission whenever the
    session exists, whether or not an agent is found and in either
    collaboration mode: the task is stored under its id with status
    started and its start time, the other tasks and the agents are kept,
    totalTasks grows by one and lastActivity is refreshed.  A submission
    under an id that is already stored replaces the stored task (its
    progress is gone) without adding a key, and still counts in
    totalTasks.  The message is counted, and an error is counted exactly
    when the matcher finds nobody; the registry is not touched. *)
Theorem X24_start_task_bookkeeping :
  forall (sid : string) (td : TaskDefinition) (task_id : string) (w : World),
    let session_id := get_or (td_sessionId td) "default" in
    let w' := exec (start_task sid td) w in
    if_truthy (td_id td) = Some task_id ->
    (forall session,
        Dict.get session_id (active_sessions w) = Some session ->
        exists session',
          Dict.get session_id (active_sessions w') = Some session'
          /\ Dict.get task_id (tasks session')
             = Some (mkTask td (clock (ticks w) * 1000) "started" environment
                            None None)
          /\ (forall t, t <> task_id ->
                        Dict.get t (tasks session') = Dict.get t (tasks session))
          /\ (Dict.get task_id (tasks session) <> None ->
              Dict.keys (tasks session') = Dict.keys (tasks session))
          /\ totalTasks (metrics session') = totalTasks (metrics session) + 1
          /\ completedTasks (metrics session') = completedTasks (metrics session)
          /\ lastActivity session' = (clock (S (ticks w)) * 1000)%Q
          /\ agents session' = agents session)
    /\ server_stats w'
       = match find_suitable_agents w td session_id with
         | [] => incr_errors (incr_messages_processed (server_stats w))
         | _ :: _ => incr_messages_processed (server_stats w)
         end
    /\ registered_agents w' = registered_agents w.
Proof.
  intros sid td task_id w session_id w' Hid. subst session_id w'.
  split; [|exact (start_task_stats sid td task_id w Hid)].
  intros session Hs.
  eexists. split; [exact (start_task_records sid td task_id session w Hid Hs)|].
  unfold record_submission. cbn.
  split; [apply dict_get_set_eq|].
  split; [intros t ne; now apply dict_get_set_ne|].
  split; [intros Hin; now apply dict_keys_set_present|].
  repeat split.
Qed.

(** ** The session listing *)

Lemma dict_length_alter {K V} `{EqDec K} (f : V -> V) (k : K) (d : list (K * V)) :
  List.length (Dict.alter f k d) = List.length d.
Proof.
  induction d as [|[k' v'] r IH]; simpl; [reflexivity|].
  destruct (eq_dec k k'); simpl; [reflexivity | now rewrite IH].
Qed.

Lemma dict_length_set {K V} `{EqDec K} (k : K) (v : V) (d : list (K * V)) :
  (List.length (Dict.set k v d) <= S (List.length d))%nat.
Proof.
  induction d as [|[k' v'] r IH]; simpl; [lia|].
  destruct (eq_dec k k'); simpl; lia.
Qed.

Lemma sessions_hold_alter Q Q' (f : Session -> Session) k w :
  (forall k' s, k' <> k -> Q k' s -> Q' k' s) ->
  (forall s, Q k s -> Q' k (f s)) ->
  sessions_hold Q w ->
  sessions_hold Q' (with_active_sessions (Dict.alter f k) w).
Proof.
  intros Hother Hf Hw k' s' Hget. cbn [active_sessions with_active_sessions] in Hget.
  destruct (eq_dec k' k) as [->|ne].
  - rewrite dict_get_alter_eq in Hget.
    destruct (Dict.get k (active_sessions w)) as [s|] eqn:Hs; [|discriminate].
    injection Hget as <-. apply Hf. now apply Hw.
  - rewrite dict_get_alter_ne in Hget by exact ne.
    apply Hother; [exact ne | now apply Hw].
Qed.

Lemma sessions_hold_set Q k v w :
  Q k v ->
  sessions_hold Q w ->
  sessions_hold Q (with_active_sessions (Dict.set k v) w).
Proof.
  intros Hv Hw k' s' Hget. cbn [active_sessions with_active_sessions] in Hget.
  destruct (eq_dec k' k) as [->|ne].
  - rewrite dict_get_set_eq in Hget. now injection Hget as <-.
  - rewrite dict_get_set_ne in Hget by exact ne. now apply Hw.
Qed.

Lemma sessions_hold_drop Q a w :
  (forall k s, Q k s -> Q k (with_agents (Dict.del a) s)) ->
  sessions_hold Q w ->
  sessions_hold Q (exec (remove_agent a) w).
Proof.
  intros Hf Hw k s' Hget. rewrite remove_agent_exec in Hget.
  cbn [active_sessions with_active_sessions] in Hget. unfold drop_agent in Hget.
  rewrite (dict_get_map_values (with_agents (Dict.del a))) in Hget.
  destruct (Dict.get k (active_sessions w)) as [s|] eqn:Hs; [|discriminate].
  injection Hget as <-. apply Hf. now apply Hw.
Qed.

Lemma tasks_counted_progress k task_id pd t s :
  tasks_counted None k s ->
  tasks_counted None k
    (with_tasks (Dict.alter (update_progress pd t) task_id) s).
Proof.
  unfold tasks_counted. cbn [tasks with_tasks metrics].
  now rewrite dict_length_alter.
Qed.

Lemma tasks_counted_stored k task_id task s :
  tasks_counted None k s ->
  tasks_counted (Some k) k (with_tasks (Dict.set task_id task) s).
Proof.
  unfold tasks_counted. cbn [tasks with_tasks metrics is_str].
  rewrite String.eqb_refl.
  pose proof (dict_length_set task_id task (tasks s)). lia.
Qed.

Lemma tasks_counted_settled k s :
  tasks_counted (Some k) k s ->
  tasks_counted None k (with_metrics incr_totalTasks s).
Proof.
  unfold tasks_counted. cbn [is_str]. rewrite String.eqb_refl. cbn. lia.
Qed.

Lemma tasks_counted_elsewhere k k' s :
  k' <> k -> tasks_counted (Some k) k' s <-> tasks_counted None k' s.
Proof.
  intros ne. unfold tasks_counted. cbn [is_str].
  destruct (String.eqb_spec k k') as [->|_]; [contradiction | reflexivity].
Qed.

Lemma tasks_counted_completion k elapsed s :
  tasks_counted None k s ->
  tasks_counted None k (with_metrics (record_completion elapsed) s).
Proof.
  unfold tasks_counted. cbn [tasks with_metrics metrics].
  destruct (record_completion_counts elapsed (metrics s)) as (-> & _).
  exact (fun H => H).
Qed.

Ltac counted_step :=
  let w := fresh "w" in
  let H := fresh "H" in
  intros w H; unfold exec, modify; cbn [snd];
  first
    [ exact H
    | apply (sessions_hold_alter (tasks_counted None) (tasks_counted None));
      [ intros ? ? _ ?; assumption
      | intros ? ?;
        first [ assumption
              | apply tasks_counted_progress; assumption
              | apply tasks_counted_completion; assumption ]
      | exact H ]
    | apply sessions_hold_set; [unfold tasks_counted; cbn; lia | exact H] ].

Lemma start_task_tasks_counted sid td :
  preserves (sessions_hold (tasks_counted None)) (start_task sid td).
Proof.
  unfold start_task. cbv zeta.
  destruct (if_truthy (td_id td)) as [task_id|]; [|keep_with counted_step].
  apply preserves_bind; [keep_with counted_step | intros _].
  apply preserves_bind; [keep_with counted_step | intros w].
  apply preserves_bind; [|intros _; keep_with counted_step].
  destruct (Dict.mem _ (active_sessions w)); [|apply preserves_ret].
  apply preserves_bind; [keep_with counted_step | intros t1].
  unfold preserves.
  match goal with
  | |- triple _ (bind (modify (with_active_sessions (Dict.alter _ ?k))) _) _ =>
      apply triple_bind with (R := sessions_hold (tasks_counted (Some k)))
  end.
  - intros w0 H0. unfold exec, modify. cbn [snd].
    apply (sessions_hold_alter (tasks_counted None)); [| |exact H0].
    + intros k' s ne Hq. exact (proj2 (tasks_counted_elsewhere _ k' s ne) Hq).
    + intros s Hs. now apply tasks_counted_stored.
  - intros _.
    match goal with
    | |- triple _ (bind (modify (with_active_sessions (Dict.alter _ ?k))) _) _ =>
        apply triple_bind with (R := sessions_hold (tasks_counted None))
    end.
    + intros w0 H0. unfold exec, modify. cbn [snd].
      match goal with
      | |- sessions_hold _ (with_active_sessions (Dict.alter _ ?k) _) =>
          apply (sessions_hold_alter (tasks_counted (Some k))); [| |exact H0]
      end.
      * intros k' s ne Hq. exact (proj1 (tasks_counted_elsewhere _ k' s ne) Hq).
      * intros s Hs. now apply tasks_counted_settled.
    + intros _. keep_with counted_step.
Qed.

Lemma simulate_steps_tasks_counted session_id agent_id task_id todo :
  forall i elapsed_time,
    preserves (sessions_hold (tasks_counted None))
      (simulate_steps session_id agent_id task_id i todo elapsed_time).
Proof.
  induction todo as [|step rest IH]; intros i elapsed_time; simpl.
  - apply preserves_ret.
  - apply preserves_bind;
      [unfold simulate_progress; keep_with counted_step | intros _; apply IH].
Qed.

Lemma disconnect_tasks_counted sid :
  preserves (sessions_hold (tasks_counted None)) (disconnect sid).
Proof.
  unfold disconnect.
  apply preserves_bind; [keep_with counted_step | intros _].
  apply preserves_bind; [keep_with counted_step | intros w].
  apply preserves_for_each. intros a w0 H0.
  apply sessions_hold_drop; [intros k s Hs; exact Hs | exact H0].
Qed.

Lemma handle_tasks_counted r :
  preserves (sessions_hold (tasks_counted None)) (handle r).
Proof.
  destruct r; cbn [handle].
  - unfold connect. keep_with counted_step. apply disconnect_tasks_counted.
  - apply disconnect_tasks_counted.
  - unfold join_session. keep_with counted_step.
  - unfold register_agent. keep_with counted_step.
  - apply start_task_tasks_counted.
  - unfold agent_progress. keep_with counted_step.
  - unfold collaboration_request. keep_with counted_step.
  - unfold broadcast_message. keep_with counted_step.
  - unfold health_check. keep_with counted_step.
  - unfold get_websocket_stats. keep_with counted_step.
  - unfold simulate_agent_activity. keep_with counted_step.
  - unfold simulate_task_execution.
    apply preserves_bind; [keep_with counted_step | intros t].
    apply preserves_bind; [apply simulate_steps_tasks_counted | intros elapsed].
    unfold simulate_completion. keep_with counted_step.
  - unfold simulate_progress. keep_with counted_step.
  - unfold simulate_completion. keep_with counted_step.
Qed.

Lemma reachable_tasks_counted w :
  reachable w -> sessions_hold (tasks_counted None) w.
Proof.
  intros [requests ->].
  assert (Hrun : forall l w0, sessions_hold (tasks_counted None) w0 ->
                              sessions_hold (tasks_counted None) (run l w0)).
  { induction l as [|r rest IH]; intros w0 H0; simpl; [exact H0|].
    apply IH, handle_tasks_counted, H0. }
  apply Hrun. intros k s Hget. discriminate Hget.
Qed.

(** X25. [GET /api/ws/sessions] changes nothing, not even the clock.  Its
    report lists the keys of the session table in table order, counts
    them, and has for every session one detail entry with the numbers of
    its agents, tasks and collaboration requests, its timestamps and its
    metrics.  In a state the server reaches no session is listed twice,
    and each entry shows status active, no active stream, an errorCount of
    zero, and a taskCount that does not exceed the totalTasks of its
    metrics. *)
Theorem X25_sessions_report :
  forall (w : World),
    reachable w ->
    let report := fst (get_active_sessions w) in
    exec get_active_sessions w = w
    /\ sessions_listed report = Dict.keys (active_sessions w)
    /\ sessions_count report = List.length (active_sessions w)
    /\ sessions_count report = List.length (sessions_listed report)
    /\ map sd_sessionId (details report) = sessions_listed report
    /\ NoDup (sessions_listed report)
    /\ (forall k s,
           Dict.get k (active_sessions w) = Some s ->
           exists d,
             In d (details report)
             /\ sd_sessionId d = k
             /\ sd_status d = session_status s
             /\ agentCount d = List.length (agents s)
             /\ taskCount d = List.length (tasks s)
             /\ sd_collaborationRequests d
                = List.length (collaborationRequests s)
             /\ sd_createdAt d = createdAt s
             /\ sd_lastActivity d = lastActivity s
             /\ sd_metrics d = metrics s)
    /\ Forall (fun d => sd_status d = "active"
                        /\ sd_activeStreams d = 0%nat
                        /\ errorCount (sd_metrics d) = 0
                        /\ Z.of_nat (taskCount d) <= totalTasks (sd_metrics d))
              (details report).
Proof.
  intros w Hr report. subst report.
  unfold exec, get_active_sessions. step_handler.
  split; [reflexivity|].
  split; [reflexivity|].
  split; [reflexivity|].
  split; [unfold Dict.keys; now rewrite length_map|].
  split.
  { unfold Dict.keys. rewrite map_map. apply map_ext. now intros [k s]. }
  destruct (reachable_world_wf w Hr) as [_ Hwf].
  split; [exact Hwf|].
  split.
  { intros k s Hs. exists (session_detail (k, s)).
    split; [apply in_map, dict_get_In, Hs|]. cbn. repeat split. }
  apply Forall_forall. intros d Hin.
  apply in_map_iff in Hin as [[k s] [<- Hin]].
  destruct (reachable_sessions_ok w Hr k s Hin) as (_ & H2 & H3 & H4 & _).
  pose proof (reachable_tasks_counted w Hr k s (dict_In_get k s _ Hwf Hin)) as H5.
  unfold tasks_counted in H5. cbn in H5 |- *.
  split; [exact H2|]. split; [now rewrite H3|]. split; [exact H4|]. lia.
Qed.

End ServerFacts.


(** ** The claims on the sample deployment *)

Import Sample.

(** C1 on the sample: session lab lists frank, at one task of two, and
    carol, at two of two; the matcher returns frank alone. *)
Lemma C1_witness :
  Dict.get "lab" (active_sessions lab) = Some lab_session
  /\ (In frank (find_suitable_agents lab task_lab "lab") <->
      agent_status frank = Some "idle" /\ 1 < 2)
  /\ (In carol (find_suitable_agents lab task_lab "lab") <->
      agent_status carol = Some "idle" /\ 2 < 2)
  /\ find_suitable_agents lab task_lab "lab"
     = filter (eligible task_lab) [frank; carol]
  /\ filter (eligible task_lab) [frank; carol] = [frank].
Proof.
  assert (E : Dict.get "lab" (active_sessions lab) = Some lab_session)
    by reflexivity.
  destruct (C1_find_suitable_agents_policy lab task_lab "lab" lab_session E)
    as [Hiff [Hfilter _]].
  split; [exact E|]. split; [|split; [|split; [exact Hfilter | reflexivity]]].
  - apply (Hiff "a6" frank).
    + simpl. now left.
    + intros cap [<- | []]. simpl. now left.
    + now left.
  - apply (Hiff "a3" carol).
    + simpl. right. now left.
    + intros cap [<- | []]. simpl. now left.
    + now left.
Defined.

(** C2 on the sample: session quiet lists only bob, who is busy. *)
Lemma C2_witness :
  if_truthy (td_id task_quiet) = Some "t2"
  /\ Dict.get "quiet" (active_sessions world) = Some quiet
  /\ find_suitable_agents world task_quiet "quiet" = []
  /\ emitted (start_task "c1" task_quiet) world
     = [(EvTaskError "t2" "No suitable agents found for task" needs_nlp 1
           (clock 33 * 1000),
         Room "quiet")].
Proof.
  assert (H1 : if_truthy (td_id task_quiet) = Some "t2") by reflexivity.
  assert (H2 : Dict.get "quiet" (active_sessions world) = Some quiet)
    by reflexivity.
  assert (H3 : find_suitable_agents world task_quiet "quiet" = [])
    by reflexivity.
  split; [exact H1|]. split; [exact H2|]. split; [exact H3|].
  exact (proj1 (C2_start_task_without_suitable_agent
                  "c1" task_quiet "t2" quiet world H1 H2 H3)).
Defined.

(** C2 as stated fails: the task has an identifier, its session exists and
    the matcher finds no agent, and yet the task is recorded with status
    started, not error. *)
Lemma C2_counterexample :
  if_truthy (td_id task_quiet) = Some "t2"
  /\ Dict.get "quiet" (active_sessions world) = Some quiet
  /\ find_suitable_agents world task_quiet "quiet" = []
  /\ (exists session',
         Dict.get "quiet" (active_sessions (exec (start_task "c1" task_quiet) world))
         = Some session'
         /\ option_map task_status (Dict.get "t2" (tasks session'))
            = Some "started")
  /\ ~ (exists session' task,
          Dict.get "quiet" (active_sessions (exec (start_task "c1" task_quiet) world))
          = Some session'
          /\ Dict.get "t2" (tasks session') = Some task
          /\ task_status task = "error").
Proof.
  split; [reflexivity|]. split; [reflexivity|]. split; [reflexivity|]. split.
  - eexists. split; reflexivity.
  - intros [session' [task [Hs [Ht He]]]].
    vm_compute in Hs. injection Hs as <-.
    vm_compute in Ht. injection Ht as <-.
    discriminate He.
Qed.

(** C3 on the sample: no session is called nowhere. *)
Lemma C3_witness :
  if_truthy (td_id task_lost) = Some "t3"
  /\ Dict.get "nowhere" (active_sessions world) = None
  /\ active_sessions (exec (start_task "c1" task_lost) world)
     = active_sessions world.
Proof.
  assert (H1 : if_truthy (td_id task_lost) = Some "t3") by reflexivity.
  assert (H2 : Dict.get "nowhere" (active_sessions world) = None) by reflexivity.
  split; [exact H1|]. split; [exact H2|].
  exact (proj1 (C3_start_task_unknown_session "c1" task_lost "t3" world H1 H2)).
Defined.

(** C3 as stated fails: the task has an identifier and names a session
    that does not exist, and after the call that session still does not
    exist, so the task is recorded nowhere. *)
Lemma C3_counterexample :
  if_truthy (td_id task_lost) = Some "t3"
  /\ Dict.get "nowhere" (active_sessions world) = None
  /\ Dict.get "nowhere" (active_sessions (exec (start_task "c1" task_lost) world))
     = None
  /\ Dict.keys (active_sessions (exec (start_task "c1" task_lost) world))
     = ["s1"; "s2"; "quiet"].
Proof. split; [|split; [|split]]; reflexivity. Qed.

(** C4 on the sample: session s1 has no task t9. *)
Lemma C4_witness :
  stored_task world "s1" (pd_taskId progress_unknown) = None
  /\ (forall k,
         option_map tasks
           (Dict.get k (active_sessions
                          (exec (agent_progress "c1" progress_unknown) world)))
         = option_map tasks (Dict.get k (active_sessions world))).
Proof.
  assert (H : stored_task world "s1" (pd_taskId progress_unknown) = None)
    by reflexivity.
  split; [exact H|].
  exact (proj1 (proj2 (C4_agent_progress_without_stored_task
                         "c1" progress_unknown world H))).
Defined.

(** C4 as stated fails: the report names no stored task, and the session's
    lastActivity is modified all the same. *)
Lemma C4_counterexample :
  stored_task world "s1" (pd_taskId progress_unknown) = None
  /\ option_map lastActivity (Dict.get "s1" (active_sessions world))
     = Some 1029000%Q
  /\ option_map lastActivity
       (Dict.get "s1"
          (active_sessions (exec (agent_progress "c1" progress_unknown) world)))
     = Some 1031000%Q
  /\ active_sessions (exec (agent_progress "c1" progress_unknown) world)
     <> active_sessions world.
Proof.
  split; [reflexivity|]. split; [reflexivity|]. split; [reflexivity|].
  intros E.
  apply (f_equal (fun d => option_map lastActivity (Dict.get "s1" d))) in E.
  vm_compute in E. discriminate E.
Qed.

(** C5 on the sample: of the suitable agents alice and dave, alice gets
    the task. *)
Lemma C5_witness :
  if_truthy (td_id task_nlp) = Some "t1"
  /\ td_collaborationMode task_nlp = Some "sequential"
  /\ find_suitable_agents world task_nlp "s1" = [alice; dave]
  /\ emitted (start_task "c1" task_nlp) world
     = [(EvTaskAssigned "t1" "a1" "sequential" task_nlp (clock 33 * 1000),
         Room "s1")].
Proof.
  assert (H1 : if_truthy (td_id task_nlp) = Some "t1") by reflexivity.
  assert (H2 : td_collaborationMode task_nlp = Some "sequential") by reflexivity.
  assert (H3 : find_suitable_agents world task_nlp "s1" = [alice; dave])
    by reflexivity.
  split; [exact H1|]. split; [exact H2|]. split; [exact H3|].
  exact (C5_sequential_assigns_first_agent
           "c1" task_nlp "t1" alice [dave] world H1 (or_intror H2) H3).
Defined.


Lemma sample_registry_wf : Dict.wf (registered_agents world).
Proof.
  unfold Dict.wf. simpl.
  repeat (constructor; [simpl; intuition discriminate|]). constructor.
Defined.

Lemma sample_sessions_wf : Dict.wf (active_sessions world).
Proof.
  unfold Dict.wf. simpl.
  repeat (constructor; [simpl; intuition discriminate|]). constructor.
Defined.

(** C7 on the sample: connection c1 holds alice and bob; alice is listed
    by s1 and s2, bob by s1, s2 and quiet. *)
Lemma C7_witness :
  Dict.wf (registered_agents world)
  /\ Dict.wf (active_sessions world)
  /\ agents_to_remove world "c1" = ["a1"; "a2"]
  /\ emitted (disconnect "c1") world
     = [(EvAgentUnregistered "s1" "a1" "disconnection" (clock 31 * 1000), Room "s1");
        (EvAgentUnregistered "s2" "a1" "disconnection" (clock 32 * 1000), Room "s2");
        (EvAgentUnregistered "s1" "a2" "disconnection" (clock 33 * 1000), Room "s1");
        (EvAgentUnregistered "s2" "a2" "disconnection" (clock 34 * 1000), Room "s2");
        (EvAgentUnregistered "quiet" "a2" "disconnection" (clock 35 * 1000),
         Room "quiet")]
  /\ Dict.get "a1" (registered_agents (exec (disconnect "c1") world)) = None.
Proof.
  pose proof (C7_disconnect_cleanup "c1" world
                sample_registry_wf sample_sessions_wf)
    as [_ [Hreg [_ [Hev _]]]].
  split; [exact sample_registry_wf|]. split; [exact sample_sessions_wf|].
  split; [reflexivity|]. split; [exact Hev|].
  apply Hreg. simpl. now left.
Defined.

(** C8 on the sample: connection c2 joins the new session s9 twice. *)
Lemma C8_witness :
  truthy "s9" = true
  /\ exists s1 s2,
       Dict.get "s9" (active_sessions (exec (join_session "c2" (Some "s9")) world))
       = Some s1
       /\ Dict.get "s9"
            (active_sessions
               (exec (join_session "c2" (Some "s9"))
                     (exec (join_session "c2" (Some "s9")) world)))
          = Some s2
       /\ createdAt s2 = createdAt s1
       /\ lastActivity s1 = (clock 33 * 1000)%Q
       /\ lastActivity s2 = (clock 34 * 1000)%Q.
Proof.
  assert (H : truthy "s9" = true) by reflexivity.
  split; [exact H|].
  destruct (C8_join_session_twice "c2" "s9" world H)
    as [s1 [s2 [H1 [H2 [_ [Hc [Hl1 [Hl2 _]]]]]]]].
  exists s1, s2. split; [exact H1|]. split; [exact H2|]. split; [exact Hc|].
  split; [exact Hl1 | exact Hl2].
Defined.

Lemma shared_reachable : reachable shared.
Proof. exists shared_history. reflexivity. Qed.

Lemma still_reachable : @reachable frozen still.
Proof. exists still_history. reflexivity. Qed.

(** C9 on the sample.  With three messages in 24 s and one error the
    rates are 0.125 and 33.33...; with no message yet the error rate is
    0.0; and where the clock stands still the uptime is 0.0, the floor
    of one second applies and one message, an error, gives the rates 1.0
    and 100.0. *)
Lemma C9_witness :
  (exists health,
      fst (health_check loaded) = Returned health
      /\ num_div (PyFloat (health_uptime health)) 1000
         = Returned (PyFloat (S754_finite false 6755399441055744 (-48)))
      /\ messages_per_second (performance health)
         = PyFloat (S754_finite false 4503599627370496 (-55))
      /\ spec_error_rate 1 3 = Returned (error_rate (performance health))
      /\ error_rate (performance health)
         = PyFloat (S754_finite false 4691249611844266 (-47)))
  /\ (reachable shared
      /\ messages_processed (server_stats shared) = 0
      /\ exists health,
           fst (health_check shared) = Returned health
           /\ error_rate (performance health) = PyFloat (S754_zero false))
  /\ (exists health,
         fst (@health_check frozen still) = Returned health
         /\ health_uptime health = S754_zero false
         /\ spec_messages_per_second 1 (PyFloat (S754_zero false))
            = Returned (messages_per_second (performance health))
         /\ messages_per_second (performance health)
            = PyFloat (S754_finite false 4503599627370496 (-52))
         /\ error_rate (performance health)
            = PyFloat (S754_finite false 7036874417766400 (-46))).
Proof.
  split; [|split].
  - destruct (fst (health_check loaded)) as [health|e] eqn:E;
      [|vm_compute in E; discriminate E].
    exists health. split; [reflexivity|].
    destruct (proj1 (proj2 C9_health_check_rates) loaded health E)
      as [_ [seconds [Hs [Hm He]]]].
    assert (Hh : health
                 = mkHealth (S754_finite false 6597069766656000 (-38))
                     (mkPerformance 3 4
                        (PyFloat (S754_finite false 4503599627370496 (-55)))
                        (PyFloat (S754_finite false 4691249611844266 (-47))))
                     1025000%Q).
    { vm_compute in E. injection E as <-. reflexivity. }
    split; [rewrite Hh; reflexivity|].
    split; [rewrite Hh; reflexivity|].
    split; [exact He|].
    rewrite Hh. reflexivity.
  - split; [exact shared_reachable|].
    assert (H0 : messages_processed (server_stats shared) = 0) by reflexivity.
    split; [exact H0|].
    exact (proj2 (proj2 C9_health_check_rates) shared shared_reachable H0).
  - destruct (fst (@health_check frozen still)) as [health|e] eqn:E;
      [|vm_compute in E; discriminate E].
    exists health. split; [reflexivity|].
    destruct (proj1 (proj2 (@C9_health_check_rates frozen)) still health E)
      as [Hu [seconds [Hs [Hm He]]]].
    assert (Hh : health
                 = mkHealth (S754_zero false)
                     (mkPerformance 0 0
                        (PyFloat (S754_finite false 4503599627370496 (-52)))
                        (PyFloat (S754_finite false 7036874417766400 (-46))))
                     1000000%Q).
    { vm_compute in E. injection E as <-. reflexivity. }
    split; [exact Hu|].
    split.
    + rewrite Hh in Hs. vm_compute in Hs. injection Hs as <-. exact Hm.
    + split; rewrite Hh; reflexivity.
Defined.

(** C10 on the sample, where a connection joined the session called
    default: a task, a report on that task and a collaboration request
    that name no session all land there. *)
Lemma C10_witness :
  (td_sessionId task_default = None
   /\ if_truthy (td_id task_default) = Some "t4"
   /\ Dict.get "default" (active_sessions shared) = Some shared_session
   /\ Forall (accepted_in "default")
             (emitted (start_task "c1" task_default) shared)
   /\ exists s',
        Dict.get "default"
          (active_sessions (exec (start_task "c1" task_default) shared))
        = Some s'
        /\ option_map task_definition (Dict.get "t4" (tasks s'))
           = Some task_default)
  /\ (pd_sessionId progress_t4 = None
      /\ Dict.get "default" (active_sessions shared_busy)
         = Some shared_busy_session
      /\ if_truthy (pd_taskId progress_t4) = Some "t4"
      /\ Dict.get "t4" (tasks shared_busy_session) = Some task_t4
      /\ (exists n,
             emitted (agent_progress "c1" progress_t4) shared_busy
             = [(EvTaskProgress "default" progress_t4 environment
                   (clock n * 1000) (clock (S n) * 1000),
                 Room "default")])
      /\ exists s',
           Dict.get "default"
             (active_sessions (exec (agent_progress "c1" progress_t4)
                                    shared_busy))
           = Some s'
           /\ option_map lastProgress (Dict.get "t4" (tasks s'))
              = Some (Some progress_t4)
           /\ lastActivity s' = (clock 9 * 1000)%Q)
  /\ (rd_sessionId request_default = None
      /\ Forall (fun et => event_name (fst et) <> "error")
                (emitted (collaboration_request "c1" request_default) shared)
      /\ exists s',
           Dict.get "default"
             (active_sessions
                (exec (collaboration_request "c1" request_default) shared))
           = Some s'
           /\ option_map cr_data
                (Dict.get (rd_requestId request_default)
                          (collaborationRequests s'))
              = Some request_default).
Proof.
  destruct C10_missing_session_id_defaults as [Hstart [Hprogress Hcollab]].
  assert (H1 : td_sessionId task_default = None) by reflexivity.
  assert (H2 : if_truthy (td_id task_default) = Some "t4") by reflexivity.
  assert (H3 : pd_sessionId progress_t4 = None) by reflexivity.
  assert (H4 : rd_sessionId request_default = None) by reflexivity.
  assert (H5 : Dict.get "default" (active_sessions shared) = Some shared_session)
    by reflexivity.
  assert (H6 : Dict.get "default" (active_sessions shared_busy)
               = Some shared_busy_session) by reflexivity.
  assert (H7 : if_truthy (pd_taskId progress_t4) = Some "t4") by reflexivity.
  assert (H8 : Dict.get "t4" (tasks shared_busy_session) = Some task_t4)
    by reflexivity.
  split; [|split].
  - split; [exact H1|]. split; [exact H2|]. split; [exact H5|].
    destruct (Hstart "c1" task_default "t4" shared H1 H2)
      as [_ [Hall [_ Hrec]]].
    split; [exact Hall|].
    exact (Hrec shared_session H5).
  - split; [exact H3|]. split; [exact H6|]. split; [exact H7|].
    split; [exact H8|].
    destruct (Hprogress "c1" progress_t4 shared_busy H3) as [Hev [_ Hrec]].
    split; [exact Hev|].
    destruct (Hrec shared_busy_session "t4" task_t4 H6 H7 H8)
      as [s' [Hs [Hp [_ Hl]]]].
    exists s'. split; [exact Hs|]. split; [exact Hp | exact Hl].
  - split; [exact H4|].
    destruct (Hcollab "c1" request_default shared H4)
      as [_ [Hall [_ [_ Hrec]]]].
    split; [exact Hall|].
    exact (Hrec shared_session H5).
Defined.

(** ** The further properties on the sample deployment *)

Lemma finished_reachable : reachable finished.
Proof. exists busy_history. reflexivity. Qed.

(** X1 on the sample: in parallel mode both suitable agents of s1, alice
    and dave, get the task. *)
Lemma X1_witness :
  if_truthy (td_id task_parallel) = Some "t5"
  /\ td_collaborationMode task_parallel = Some "parallel"
  /\ find_suitable_agents world task_parallel "s1" = [alice; dave]
  /\ emitted (start_task "c1" task_parallel) world
     = [(EvTaskAssigned "t5" "a1" "parallel" task_parallel (clock 33 * 1000),
         Room "s1");
        (EvTaskAssigned "t5" "a4" "parallel" task_parallel (clock 34 * 1000),
         Room "s1")].
Proof.
  assert (H1 : if_truthy (td_id task_parallel) = Some "t5") by reflexivity.
  assert (H2 : td_collaborationMode task_parallel = Some "parallel")
    by reflexivity.
  assert (H3 : find_suitable_agents world task_parallel "s1" = [alice; dave])
    by reflexivity.
  split; [exact H1|]. split; [exact H2|]. split; [exact H3|].
  exact (proj1 (X1_parallel_assigns_every_agent
                  "c1" task_parallel "t5" alice [dave] world H1 H2 H3)).
Defined.

(** X2 on the sample: a task without an id. *)
Lemma X2_witness :
  if_truthy (td_id task_untitled) = None
  /\ exec (start_task "c1" task_untitled) world
     = with_outbox (fun o => o ++ [(EvError "Task ID required", Room "c1")])
                   world.
Proof.
  assert (H : if_truthy (td_id task_untitled) = None) by reflexivity.
  split; [exact H|].
  exact (proj1 X2_missing_identifier_rejected "c1" task_untitled world H).
Defined.

(** X3 on the sample: alice reports the stored task t1 completed. *)
Lemma X3_witness :
  Dict.get "s1" (active_sessions working) = Some team_working
  /\ if_truthy (pd_taskId progress_done) = Some "t1"
  /\ Dict.get "t1" (tasks team_working) = Some task_t1
  /\ exists session',
       Dict.get "s1" (active_sessions (exec (agent_progress "c1" progress_done)
                                            working))
       = Some session'
       /\ option_map task_status (Dict.get "t1" (tasks session'))
          = Some "started"
       /\ completedTasks (metrics session') = 1.
Proof.
  assert (H1 : Dict.get "s1" (active_sessions working) = Some team_working)
    by reflexivity.
  assert (H2 : if_truthy (pd_taskId progress_done) = Some "t1") by reflexivity.
  assert (H3 : Dict.get "t1" (tasks team_working) = Some task_t1)
    by reflexivity.
  split; [exact H1|]. split; [exact H2|]. split; [exact H3|].
  destruct (X3_agent_progress_on_stored_task
              "c1" progress_done team_working "t1" task_t1 working H1 H2 H3)
    as [session' [Hs [Ht [_ [_ [_ [Hc _]]]]]]].
  exists session'. split; [exact Hs|]. split.
  - rewrite Ht. reflexivity.
  - exact Hc.
Defined.

(** X4 on the sample: c2 asks for alice, whose socket is c1. *)
Lemma X4_witness :
  if_truthy (rd_targetAgent request_alice) = Some "a1"
  /\ Dict.get "a1" (registered_agents world) = Some alice
  /\ truthy (socket_id alice) = true
  /\ exists t,
       emitted (collaboration_request "c2" request_alice) world
       = [(EvCollaborationRequest request_alice t, Room "c1")].
Proof.
  assert (H1 : if_truthy (rd_targetAgent request_alice) = Some "a1")
    by reflexivity.
  assert (H2 : Dict.get "a1" (registered_agents world) = Some alice)
    by reflexivity.
  assert (H3 : truthy (socket_id alice) = true) by reflexivity.
  split; [exact H1|]. split; [exact H2|]. split; [exact H3|].
  exact (X4_collaboration_request_to_registered_target
           "c2" request_alice "a1" alice world H1 H2 H3).
Defined.

(** X5 on the sample: the request is stored in s1 as pending. *)
Lemma X5_witness :
  Dict.get "s1" (active_sessions world) = Some team
  /\ exists session',
       Dict.get "s1" (active_sessions
                        (exec (collaboration_request "c2" request_alice) world))
       = Some session'
       /\ Dict.get (rd_requestId request_alice) (collaborationRequests session')
          = Some (mkCollaborationRequest request_alice (clock 31 * 1000)
                                         "pending").
Proof.
  assert (H : Dict.get "s1" (active_sessions world) = Some team) by reflexivity.
  split; [exact H|].
  destruct (proj1 (X5_collaboration_request_storage "c2" request_alice world)
                  team H)
    as [session' [Hs [Hr _]]].
  exists session'. split; [exact Hs | exact Hr].
Defined.

(** X6 on the sample: a notice for the room of s1. *)
Lemma X6_witness :
  if_truthy (md_sessionId message_s1) = Some "s1"
  /\ emitted (broadcast_message message_s1) world
     = [(EvBroadcast "notice" [("text", "hello")] "development"
           (clock 31 * 1000),
         Room "s1")]
  /\ fst (broadcast_message message_s1 world) = 1%nat.
Proof.
  assert (H : if_truthy (md_sessionId message_s1) = Some "s1") by reflexivity.
  split; [exact H|].
  exact (proj1 (X6_broadcast_message message_s1 world) "s1" H).
Defined.

(** X7 on the sample: in development a connection without a key is
    accepted; in production it is turned away, and the count of
    connections is what it was. *)
Lemma X7_witness :
  (fst (connect "c9" None world) = true
   /\ emitted (connect "c9" None) world
      = [(EvArgsWelcome "development" (clock 31 * 1000), Room "c9")]
   /\ In "c9" (get_rooms (exec (connect "c9" None) world) "c9")
   /\ connections (server_stats (exec (connect "c9" None) world)) = 3)
  /\ (fst (@connect production "c9" None world) = false
      /\ Dict.wf (registered_agents world)
      /\ agents_to_remove world "c9" = []
      /\ connections (server_stats (exec (@connect production "c9" None) world))
         = 2
      /\ Dict.get "c9" (rooms (exec (@connect production "c9" None) world))
         = None
      /\ emitted (@connect production "c9" None) world
         = [(EvAuthError "API key required in production", Room "c9")]).
Proof.
  split.
  - assert (H : fst (connect "c9" None world) = true) by reflexivity.
    split; [exact H|].
    destruct (proj1 (proj2 (X7_connect_policy "c9" None world)) H)
      as [Hev [Hin [Hc _]]].
    split; [exact Hev|]. split; [exact Hin | exact Hc].
  - assert (H : fst (@connect production "c9" None world) = false)
      by reflexivity.
    assert (Hn : agents_to_remove world "c9" = []) by reflexivity.
    split; [exact H|]. split; [exact sample_registry_wf|]. split; [exact Hn|].
    destruct (proj2 (proj2 (@X7_connect_policy production "c9" None world))
                    H sample_registry_wf)
      as [Hc [Hr [_ [_ Hquiet]]]].
    split; [exact Hc|]. split; [exact Hr|].
    exact (proj1 (Hquiet Hn)).
Defined.



(** X10 on the sample: c2, which joined s1, registers erin.  The registry
    holds her, the call ends in a TypeError, s1 does not list her and
    nothing is sent. *)
Lemma X10_witness :
  if_truthy (ai_id erin_info) = Some "a5"
  /\ fst (register_agent "c2" erin_info world) = Raised TypeError
  /\ Dict.get "a5" (registered_agents (exec (register_agent "c2" erin_info) world))
     = Some (stamp "a5" "c2" (clock 31 * 1000) erin_info)
  /\ active_sessions (exec (register_agent "c2" erin_info) world)
     = active_sessions world
  /\ emitted (register_agent "c2" erin_info) world = [].
Proof.
  assert (H : if_truthy (ai_id erin_info) = Some "a5") by reflexivity.
  split; [exact H|].
  destruct (X10_register_agent "c2" erin_info "a5" world H)
    as [Hr [_ [Hg [_ [Hs [He _]]]]]].
  split; [exact Hr|]. split; [exact Hg|]. split; [exact Hs | exact He].
Defined.

(** X11 on the sample: when c1 leaves, carol, who came over c2, stays. *)
Lemma X11_witness :
  Dict.wf (registered_agents world)
  /\ Dict.get "a3" (registered_agents world) = Some carol
  /\ socket_id carol <> "c1"
  /\ Dict.get "a3" (registered_agents (exec (disconnect "c1") world))
     = Some carol.
Proof.
  assert (H1 : Dict.get "a3" (registered_agents world) = Some carol)
    by reflexivity.
  assert (H2 : socket_id carol <> "c1") by discriminate.
  split; [exact sample_registry_wf|]. split; [exact H1|]. split; [exact H2|].
  destruct (X11_disconnect_leaves_the_rest "c1" world sample_registry_wf)
    as [_ [_ [_ [_ [Hkeep _]]]]].
  exact (Hkeep "a3" carol H1 H2).
Defined.

(** X12 on the sample: erin registers over c2, and c2 leaves. *)
Lemma X12_witness :
  Dict.wf (registered_agents world)
  /\ if_truthy (ai_id erin_info) = Some "a5"
  /\ Dict.get "a5"
       (registered_agents
          (exec (disconnect "c2") (exec (register_agent "c2" erin_info) world)))
     = None.
Proof.
  assert (H : if_truthy (ai_id erin_info) = Some "a5") by reflexivity.
  split; [exact sample_registry_wf|]. split; [exact H|].
  destruct (X12_register_then_disconnect "c2" erin_info "a5" world
              sample_registry_wf H)
    as [_ [_ [Hgone _]]].
  exact Hgone.
Defined.

Lemma staffed_reachable : reachable staffed.
Proof. exists staffed_history. reflexivity. Qed.

(** X13 on the sample: c2 joins s1 and registers erin, an idle nlp agent;
    the matcher still returns alice and dave for s1.  After the
    demonstration endpoint ran, its session lists its agent, whose socket
    is demo. *)
Lemma X13_witness :
  (truthy "s1" = true
   /\ find_suitable_agents
        (exec (register_agent "c2" erin_info)
              (exec (join_session "c2" (Some "s1")) world))
        task_nlp "s1"
      = find_suitable_agents world task_nlp "s1"
   /\ find_suitable_agents world task_nlp "s1" = [alice; dave])
  /\ (reachable staffed
      /\ Dict.get "demo-session" (active_sessions staffed) = Some demo_session
      /\ Dict.get "demo-agent-1017" (agents demo_session) = Some staffed_agent
      /\ socket_id staffed_agent = "demo"
      /\ agent_status staffed_agent = Some "idle").
Proof.
  destruct X13_join_then_register as [Hjoin Hseated].
  split.
  - assert (H : truthy "s1" = true) by reflexivity.
    split; [exact H|].
    split; [|reflexivity].
    exact (proj1 (Hjoin "c2" "s1" erin_info task_nlp world H)).
  - assert (H1 : Dict.get "demo-session" (active_sessions staffed)
                 = Some demo_session) by reflexivity.
    assert (H2 : Dict.get "demo-agent-1017" (agents demo_session)
                 = Some staffed_agent) by reflexivity.
    split; [exact staffed_reachable|]. split; [exact H1|]. split; [exact H2|].
    destruct (proj1 (Hseated staffed staffed_reachable)
                    "demo-session" demo_session "demo-agent-1017"
                    staffed_agent H1 H2)
      as [Hsocket [Hidle _]].
    split; [exact Hsocket | exact Hidle].
Defined.

(** X14 on the sample: after alice reported t1 completed, the stored task
    still has status started. *)
Lemma X14_witness :
  reachable finished
  /\ Dict.get "s1" (active_sessions finished) = Some team_finished
  /\ Dict.get "t1" (tasks team_finished) = Some task_t1_reported
  /\ option_map pd_status (lastProgress task_t1_reported)
     = Some (Some "completed")
  /\ task_status task_t1_reported = "started".
Proof.
  assert (H1 : Dict.get "s1" (active_sessions finished) = Some team_finished)
    by reflexivity.
  assert (H2 : Dict.get "t1" (tasks team_finished) = Some task_t1_reported)
    by reflexivity.
  split; [exact finished_reachable|]. split; [exact H1|]. split; [exact H2|].
  split; [reflexivity|].
  exact (X14_stored_tasks_stay_started
           finished "s1" team_finished "t1" task_t1_reported
           finished_reachable H1 H2).
Defined.

(** X15 on the sample: session s1 after a completed task. *)
Lemma X15_witness :
  reachable finished
  /\ Dict.get "s1" (active_sessions finished) = Some team_finished
  /\ sessionId team_finished = "s1"
  /\ session_status team_finished = "active"
  /\ activeStreams team_finished = []
  /\ errorCount (metrics team_finished) = 0.
Proof.
  assert (H : Dict.get "s1" (active_sessions finished) = Some team_finished)
    by reflexivity.
  split; [exact finished_reachable|]. split; [exact H|].
  exact (X15_session_bookkeeping_never_written
           finished "s1" team_finished finished_reachable H).
Defined.

(** X16 on the sample. *)
Lemma X16_witness :
  reachable finished
  /\ 0 <= connections (server_stats finished)
  /\ 0 <= messages_processed (server_stats finished)
  /\ 0 <= tasks_completed (server_stats finished)
  /\ 0 <= errors (server_stats finished).
Proof.
  split; [exact finished_reachable|].
  destruct (X16_counters_never_negative finished finished_reachable)
    as [H1 [H2 [H3 [H4 _]]]].
  split; [exact H1|]. split; [exact H2|]. split; [exact H3 | exact H4].
Defined.

(** X17 on the sample: a third completion, of 17 s, on an average that is
    still the integer 0, gives the double nearest to 17000/3. *)
Lemma X17_witness :
  0 <= completedTasks (mkMetrics 3 2 0 0)
  /\ completedTasks (record_completion 17 (mkMetrics 3 2 0 0)) = 3
  /\ int_true_div (17 * 1000) 3
     = Returned (S754_finite false 6230565890730667 (-40))
  /\ avgExecutionTime (record_completion 17 (mkMetrics 3 2 0 0))
     = PyFloat (S754_finite false 6230565890730667 (-40)).
Proof.
  assert (H : 0 <= completedTasks (mkMetrics 3 2 0 0)) by (cbn; lia).
  assert (Hd : int_true_div (17 * 1000) (completedTasks (mkMetrics 3 2 0 0) + 1)
               = Returned (S754_finite false 6230565890730667 (-40)))
    by reflexivity.
  split; [exact H|].
  destruct (X17_record_completion_average 17 (mkMetrics 3 2 0 0) H)
    as [Hc [_ [_ [_ Hm]]]].
  split; [exact Hc|]. split; [exact Hd|].
  exact (Hm _ eq_refl Hd).
Defined.

(** X18 on the sample: after the demonstration endpoint ran, its session
    lists its agent, and the registry holds it. *)
Lemma X18_witness :
  reachable staffed
  /\ Dict.get "demo-session" (active_sessions staffed) = Some demo_session
  /\ Dict.mem "demo-agent-1017" (agents demo_session) = true
  /\ Dict.mem "demo-agent-1017" (registered_agents staffed) = true.
Proof.
  assert (H1 : Dict.get "demo-session" (active_sessions staffed)
               = Some demo_session) by reflexivity.
  assert (H2 : Dict.mem "demo-agent-1017" (agents demo_session) = true)
    by reflexivity.
  split; [exact staffed_reachable|]. split; [exact H1|].
  split; [exact H2|].
  exact (X18_session_agents_are_registered
           staffed "demo-session" demo_session "demo-agent-1017"
           staffed_reachable H1 H2).
Defined.

(** X19 on the sample: both connections leave, and s1 is still there. *)
Lemma X19_witness :
  Dict.get "s1" (active_sessions world) = Some team
  /\ exists s',
       Dict.get "s1" (active_sessions (run [Disconnect "c1"; Disconnect "c2"]
                                           world))
       = Some s'
       /\ createdAt s' = createdAt team
       /\ sessionId s' = sessionId team.
Proof.
  assert (H : Dict.get "s1" (active_sessions world) = Some team) by reflexivity.
  split; [exact H|].
  exact (proj2 (X19_sessions_are_never_removed
                  [Disconnect "c1"; Disconnect "c2"] world)
               "s1" team H).
Defined.

(** X22 on the sample: the demo agent is found for a data-analysis task
    of the demo session. *)
Lemma X22_witness :
  eligible task_analysis demo_agent = true
  /\ In demo_agent
        (find_suitable_agents (exec (simulate_agent_activity demo_request) world)
                              task_analysis "demo-session").
Proof.
  assert (H : eligible task_analysis demo_agent = true) by reflexivity.
  split; [exact H|].
  destruct (X22_simulate_agent_activity demo_request world)
    as [_ [_ [_ [_ [_ [_ [_ Hfound]]]]]]].
  exact (Hfound task_analysis H).
Defined.

(** X24 on the sample: t1 is submitted again after alice reported it
    completed; the report is gone and s1 counts two tasks for one key. *)
Lemma X24_witness :
  if_truthy (td_id task_again) = Some "t1"
  /\ Dict.get "s1" (active_sessions finished) = Some team_finished
  /\ Dict.get "t1" (tasks team_finished) <> None
  /\ exists session',
       Dict.get "s1" (active_sessions (exec (start_task "c2" task_again) finished))
       = Some session'
       /\ option_map lastProgress (Dict.get "t1" (tasks session')) = Some None
       /\ Dict.keys (tasks session') = ["t1"]
       /\ totalTasks (metrics session') = 2.
Proof.
  assert (H1 : if_truthy (td_id task_again) = Some "t1") by reflexivity.
  assert (H2 : Dict.get "s1" (active_sessions finished) = Some team_finished)
    by reflexivity.
  assert (H3 : Dict.get "t1" (tasks team_finished) <> None) by discriminate.
  split; [exact H1|]. split; [exact H2|]. split; [exact H3|].
  destruct (proj1 (X24_start_task_bookkeeping "c2" task_again "t1" finished H1)
                  team_finished H2)
    as [session' [Hs [Ht [_ [Hk [Hn _]]]]]].
  exists session'. split; [exact Hs|]. split.
  - rewrite Ht. reflexivity.
  - split; [exact (Hk H3) | exact Hn].
Defined.

Lemma resubmitted_reachable : reachable resubmitted.
Proof. exists (busy_history ++ [StartTask "c2" task_again]). reflexivity. Qed.

(** X25 on the sample: after t1 was submitted twice, the report lists
    the three sessions, and s1 shows one task and a totalTasks of two. *)
Lemma X25_witness :
  reachable resubmitted
  /\ Dict.keys (active_sessions resubmitted) = ["s1"; "s2"; "quiet"]
  /\ sessions_listed (fst (get_active_sessions resubmitted))
     = Dict.keys (active_sessions resubmitted)
  /\ sessions_count (fst (get_active_sessions resubmitted)) = 3%nat
  /\ (exists s d,
         Dict.get "s1" (active_sessions resubmitted) = Some s
         /\ In d (details (fst (get_active_sessions resubmitted)))
         /\ sd_sessionId d = "s1"
         /\ taskCount d = List.length (tasks s)
         /\ List.length (tasks s) = 1%nat
         /\ sd_metrics d = metrics s
         /\ totalTasks (metrics s) = 2)
  /\ Forall (fun d => sd_status d = "active"
                      /\ sd_activeStreams d = 0%nat
                      /\ errorCount (sd_metrics d) = 0
                      /\ Z.of_nat (taskCount d) <= totalTasks (sd_metrics d))
            (details (fst (get_active_sessions resubmitted))).
Proof.
  split; [exact resubmitted_reachable|].
  split; [reflexivity|].
  destruct (X25_sessions_report resubmitted resubmitted_reachable)
    as [_ [Hkeys [Hcount [_ [_ [_ [Hdetail Hall]]]]]]].
  split; [exact Hkeys|]. split; [exact Hcount|]. split; [|exact Hall].
  destruct (Dict.get "s1" (active_sessions resubmitted)) as [s|] eqn:Hs;
    [|vm_compute in Hs; discriminate Hs].
  destruct (Hdetail "s1" s Hs) as [d [Hin [Hid [_ [_ [Htasks [_ [_ [_ Hm]]]]]]]]].
  exists s, d. split; [reflexivity|]. split; [exact Hin|]. split; [exact Hid|].
  split; [exact Htasks|].
  assert (E : s = get_or (Dict.get "s1" (active_sessions resubmitted))
                         (new_session "s1" 0 0))
    by (rewrite Hs; reflexivity).
  split; [rewrite E; reflexivity|]. split; [exact Hm|].
  rewrite E. reflexivity.
Defined.
